(** * Telegram adaptive fingerprinting strategy and behavioural collector

    A shallow embedding of [src/telegram_strategy.ts] (weight adapter,
    confidence scorer, weighted fingerprint synthesizer) and of the
    behavioural collector ([BehavioralCollector], [getBehavioralFingerprint]),
    followed by the properties the specification states about them.

    The weight adapter and the synthesizer are embedded a second time on a
    store of objects ([StrategyStore]), where allocation and mutation are
    explicit and a call runs in the store the previous call left; it is
    shown to return what the functions on values return.

    The embedding goes on with the sources whose results the strategy reads
    as components: the measurements of the network source, the detectors of
    the WebView and Telegram sources and the synchronous haptic source. The
    last part of the file holds further facts about the strategy and the
    collector, and facts about the sources taken together with the strategy.

    Conventions of the embedding.
    - A JavaScript value is a term of [Js.JsValue]; an object keeps its
      properties in the order [Object.entries] yields them.
    - A JavaScript number is an IEEE 754 binary64 value ([float]), with the
      arithmetic and comparisons of the language. A number that only serves
      as a count, an index, a character code or a 32-bit integer is a
      [nat] or a [Z].
    - A JavaScript string is a [string], one character for each code
      unit; the code units are below 256. Text with a code unit above 255
      has no [string]: where its code units matter, in the hash, the
      function is also given on a list of code units.
    - [Record<string, number>] is a finite map over its own keys; a read
      [o[key]] that finds no own entry goes on to the members inherited
      from [Object.prototype]. *)

From stdpp Require Import gmap strings list.
From Stdlib Require Import ZArith QArith Qround Floats HexString DecimalString Ascii.

Set Warnings "-inexact-float".

(* ================================================================== *)
(** ** JavaScript values and the built-ins the sources rely on *)
(* ================================================================== *)

Module Js.

#[warnings="-register-all"]
Inductive JsValue : Type :=
| JUndefined
| JNull
| JBool (b : bool)
| JNumber (f : float)
| JString (s : string)
| JArray (items : list JsValue)
| JObject (props : list (string * JsValue)).

(** An object literal or a component bag: its own enumerable entries. *)
Definition Props : Type := list (string * JsValue).

(** A number that [ToBoolean] sends to false: a zero or [NaN]. *)
Definition is_falsy_number (f : float) : bool :=
  PrimFloat.is_zero f || PrimFloat.is_nan f.

(** [ToBoolean]. *)
Definition truthy (v : JsValue) : bool :=
  match v with
  | JUndefined | JNull => false
  | JBool b => b
  | JNumber f => negb (is_falsy_number f)
  | JString s => negb (String.eqb s "")
  | JArray _ | JObject _ => true
  end.

(** [a || b] on values. *)
Definition or_else (a b : JsValue) : JsValue := if truthy a then a else b.

(** The names a plain object answers to without owning them: the members
    the language gives [Object.prototype]. Reading one of them yields a
    function, and for [__proto__] the prototype itself: a truthy value, and
    NaN when it is taken as a number. *)
Definition Object_prototype_members : list string :=
  [ "constructor"; "hasOwnProperty"; "isPrototypeOf"; "propertyIsEnumerable";
    "toLocaleString"; "toString"; "valueOf";
    "__defineGetter__"; "__defineSetter__"; "__lookupGetter__";
    "__lookupSetter__"; "__proto__" ]%string.

(** [key] names a member that every plain object inherits. *)
Definition inherited (key : string) : bool :=
  existsb (String.eqb key) Object_prototype_members.

(** [k in o] for an object given by its entries. *)
Definition has_key (k : string) (o : Props) : bool :=
  existsb (fun kv => String.eqb k kv.1) o.

(** [o.k] for an object given by its entries. *)
Fixpoint lookup_key (k : string) (o : Props) : JsValue :=
  match o with
  | [] => JUndefined
  | (k', v) :: rest => if String.eqb k k' then v else lookup_key k rest
  end.

(** [v.k] where [v] is neither [null] nor [undefined]. The property names
    the strategy reads are not built-in members of strings, numbers,
    booleans or arrays, so only objects answer. *)
Definition get (v : JsValue) (k : string) : JsValue :=
  match v with
  | JObject props => lookup_key k props
  | _ => JUndefined
  end.

(** [v?.k]. *)
Definition get_opt (v : JsValue) (k : string) : JsValue :=
  match v with
  | JUndefined | JNull => JUndefined
  | _ => get v k
  end.

(** [typeof v === 'object' && v !== null]. *)
Definition is_object (v : JsValue) : bool :=
  match v with
  | JArray _ | JObject _ => true
  | _ => false
  end.

(** [k in v] for a non-null object value; arrays own no such names. *)
Definition in_object (k : string) (v : JsValue) : bool :=
  match v with
  | JObject props => has_key k props
  | _ => false
  end.

(** [v === 'literal']. *)
Definition strict_eq_string (v : JsValue) (lit : string) : bool :=
  match v with
  | JString s => String.eqb s lit
  | _ => false
  end.

(** ** Strings *)

(** [s.startsWith(p)]. *)
Definition startsWith (s p : string) : bool := String.prefix p s.

(** [s.includes(p)]. *)
Fixpoint includes (s p : string) : bool :=
  String.prefix p s ||
  match s with
  | EmptyString => false
  | String _ rest => includes rest p
  end.

Definition lower_char (c : Ascii.ascii) : ascii :=
  let n := Ascii.nat_of_ascii c in
  if (65 <=? n)%nat && (n <=? 90)%nat then Ascii.ascii_of_nat (n + 32) else c.

(** [s.toLowerCase()] on code units below 128. *)
Fixpoint toLowerCase (s : string) : string :=
  match s with
  | EmptyString => EmptyString
  | String c rest => String (lower_char c) (toLowerCase rest)
  end.

(** [/p/i.test(s)] for a pattern [p] made of lower-case letters only. *)
Definition test_ignore_case (p s : string) : bool := includes (toLowerCase s) p.

(** [s.charAt(i)]. *)
Definition charAt (s : string) (i : nat) : string :=
  match String.get i s with
  | Some c => String c EmptyString
  | None => EmptyString
  end.

(** [parts.join(sep)]. *)
Definition join (sep : string) (parts : list string) : string :=
  String.concat sep parts.

(** [s.charCodeAt(i)] for each [i] in order, for a string of the model:
    its characters are its code units, all below 256. A literal that shows
    a character beyond U+007F holds the bytes of its UTF-8 encoding and so
    stands for another text; text with code units above 255 is given by the
    list of its code units instead. *)
Fixpoint char_codes (s : string) : list Z :=
  match s with
  | EmptyString => []
  | String c rest => Z.of_nat (Ascii.nat_of_ascii c) :: char_codes rest
  end.

(** ** Conversions to text *)

Definition quote_char : Ascii.ascii := Ascii.ascii_of_nat 34.

Definition hex_digit (n : nat) : Ascii.ascii :=
  Ascii.ascii_of_nat (if (n <? 10)%nat then 48 + n else 87 + n).

(** One code unit inside a JSON string literal. *)
Definition json_escape (c : Ascii.ascii) : string :=
  let n := Ascii.nat_of_ascii c in
  let bs := Ascii.ascii_of_nat 92 in
  if (n =? 34)%nat then String bs (String quote_char EmptyString)
  else if (n =? 92)%nat then String bs (String bs EmptyString)
  else if (n =? 8)%nat then String bs "b"
  else if (n =? 9)%nat then String bs "t"
  else if (n =? 10)%nat then String bs "n"
  else if (n =? 12)%nat then String bs "f"
  else if (n =? 13)%nat then String bs "r"
  else if (n <? 32)%nat then
    String bs ("u00" +:+ String (hex_digit (n / 16)) (String (hex_digit (n mod 16)) EmptyString))
  else String c EmptyString.

Fixpoint json_escape_all (s : string) : string :=
  match s with
  | EmptyString => EmptyString
  | String c rest => json_escape c +:+ json_escape_all rest
  end.

Definition json_quote (s : string) : string :=
  String quote_char (json_escape_all s +:+ String quote_char EmptyString).

(** The built-ins whose result the language leaves to the host: number
    formatting, the approximated functions of [Math] and the random
    source. *)
Class Host : Type := {
  Number_toString : float -> string;
  Math_sqrt : float -> float;
  Math_pow : float -> float -> float;
  Math_atan2 : float -> float -> float;
  Rng : Type;
  Math_random : Rng -> float * Rng
}.

Section Printing.
Context `{Host}.

(** [String(v)], also the conversion inside a template literal. *)
Fixpoint ToString (v : JsValue) : string :=
  match v with
  | JUndefined => "undefined"
  | JNull => "null"
  | JBool true => "true"
  | JBool false => "false"
  | JNumber f => Number_toString f
  | JString s => s
  | JArray items =>
      join "," (map (fun x => match x with
                              | JUndefined | JNull => EmptyString
                              | _ => ToString x
                              end) items)
  | JObject _ => "[object Object]"
  end.

(** [JSON.stringify(v)]; [None] stands for the result [undefined]. *)
Fixpoint JSON_stringify (v : JsValue) : option string :=
  match v with
  | JUndefined => None
  | JNull => Some "null"
  | JBool true => Some "true"
  | JBool false => Some "false"
  | JNumber f => Some (if PrimFloat.is_finite f then Number_toString f else "null")
  | JString s => Some (json_quote s)
  | JArray items =>
      Some ("[" +:+
            join "," (map (fun x => default "null" (JSON_stringify x)) items)
            +:+ "]")
  | JObject props =>
      Some ("{" +:+
            join "," (omap (fun kv =>
                              match JSON_stringify kv.2 with
                              | Some t => Some (json_quote kv.1 +:+ ":" +:+ t)
                              | None => None
                              end) props)
            +:+ "}")
  end.

End Printing.

(** ** 32-bit integers *)

(** [ToInt32]. *)
Definition ToInt32 (z : Z) : Z :=
  ((z + 2 ^ 31) mod 2 ^ 32 - 2 ^ 31)%Z.

(** [a << n] for [0 <= n < 32]. *)
Definition shl (a n : Z) : Z := ToInt32 (Z.shiftl (ToInt32 a) n).

(** [a & b]. *)
Definition band (a b : Z) : Z := ToInt32 (Z.land (ToInt32 a) (ToInt32 b)).

(** [n.toString(16)] for an integer [n >= 0]. *)
Definition toString16 (n : Z) : string :=
  match n with
  | Zpos p => HexString.Raw.of_pos p EmptyString
  | _ => "0"
  end.

(** ** Arithmetic *)

(** The real number a finite [float] stands for. *)
Definition exact (f : float) : option Q :=
  match Prim2SF f with
  | S754_zero _ => Some 0%Q
  | S754_finite sign m e =>
      Some ((if sign then -1 else 1) * inject_Z (Zpos m) * Qpower 2 e)%Q
  | S754_infinity _ | S754_nan => None
  end.

(** [Math.round] on a finite number, as an integer: halves go up. *)
Definition Math_round (f : float) : Z :=
  match exact f with
  | Some q => Qfloor (q + (1 # 2))%Q
  | None => 0
  end.

Definition is_negative_zero (f : float) : bool :=
  match PrimFloat.classify f with
  | NZero => true
  | _ => false
  end.

(** [Math.min(a, b)] and [Math.max(a, b)]. *)
Definition Math_min (a b : float) : float :=
  if PrimFloat.is_nan a || PrimFloat.is_nan b then nan
  else if PrimFloat.ltb b a then b
  else if PrimFloat.ltb a b then a
  else if is_negative_zero b then b else a.
Definition Math_max (a b : float) : float :=
  if PrimFloat.is_nan a || PrimFloat.is_nan b then nan
  else if PrimFloat.ltb a b then b
  else if PrimFloat.ltb b a then a
  else if is_negative_zero a then b else a.

(** [Math.abs]. *)
Definition Math_abs (a : float) : float := PrimFloat.abs a.

(** [Math.PI]. *)
Definition Math_PI : float := 3.141592653589793%float.

(** [xs.reduce((a, b) => a + b, 0)]. *)
Definition sum (xs : list float) : float := fold_left PrimFloat.add xs 0%float.

(** [n] as a number, for a length or a counter below 2^53. *)
Definition number (n : nat) : float := PrimFloat.of_uint63 (Uint63.of_Z (Z.of_nat n)).

(** [xs.length] as a number. *)
Definition count {A : Type} (xs : list A) : float := number (length xs).

End Js.

(* ================================================================== *)
(** ** src/telegram_strategy.ts *)
(* ================================================================== *)

Module TelegramStrategy.
Import Js.
#[local] Open Scope float_scope.

(** What the strategy reads from the host: [navigator.userAgent] and
    [window.Telegram]. *)
Record Env : Type := {
  navigator_userAgent : string;
  window_Telegram : JsValue
}.

(** [BuiltinComponents]: the component bag, as [Object.entries] lists it. *)
Definition BuiltinComponents : Type := Props.

Record TelegramContext : Type := {
  isTelegramWebView : JsValue;
  telegramVersion : JsValue;
  webViewType : JsValue;
  hasHapticFeedback : JsValue;
  hasBehavioralData : bool;
  networkQuality : JsValue
}.

(** [{...components, _weights, _telegramContext}]. *)
Record EnhancedComponents : Type := {
  components_of : BuiltinComponents;
  _weights : gmap string float;
  _telegramContext : TelegramContext
}.

Record EnhancedConfidence : Type := {
  score : float;
  telegramAdjustment : bool;
  behavioralFactor : float;
  webViewFactor : float;
  hapticFactor : float;
  networkFactor : float;
  stabilityScore : float
}.

Definition detectTelegramEnvironment (env : Env) : bool :=
  let ua := toLowerCase (navigator_userAgent env) in
  test_ignore_case "telegramwebview" ua
  || test_ignore_case "telegram" ua
  || match get_opt (window_Telegram env) "WebApp" with
     | JUndefined => false
     | _ => true
     end.

(** A [Record<string, number>] literal, entry by entry. *)
Definition record_literal (entries : list (string * float)) : gmap string float :=
  foldl (fun o kv => <[kv.1 := kv.2]> o) ∅ entries.

(** [Object.assign(target, source)]: every own entry of [source], in
    order, is written into [target]. *)
Definition Object_assign (target : gmap string float) (source : list (string * float))
  : gmap string float :=
  foldl (fun o kv => <[kv.1 := kv.2]> o) target source.

Definition baseWeights_entries : list (string * float) :=
  [ ("canvas", 0.8); ("audio", 0.6); ("fonts", 0.7);
    ("webGlBasics", 0.7); ("webGlExtensions", 0.7);
    ("platform", 1.0); ("hardwareConcurrency", 1.0); ("deviceMemory", 1.0);
    ("screenResolution", 0.9); ("screenFrame", 0.9); ("timezone", 1.2);
    ("telegramWebApp", 1.0); ("behavioral", 1.0); ("webView", 1.0);
    ("network", 1.0); ("haptic", 1.0);
    ("languages", 1.1); ("colorDepth", 1.0); ("touchSupport", 1.1);
    ("vendor", 0.9); ("vendorFlavors", 0.9); ("osCpu", 1.0) ]%float.

Definition telegramWeights_entries : list (string * float) :=
  [ ("canvas", 0.4); ("audio", 0.3); ("fonts", 0.5); ("plugins", 0.1);
    ("telegramWebApp", 2.5); ("webView", 2.0); ("behavioral", 2.2);
    ("haptic", 1.8); ("network", 1.6);
    ("platform", 1.3); ("vendor", 1.2); ("vendorFlavors", 1.5);
    ("timezone", 1.4); ("languages", 1.3);
    ("touchSupport", 1.4); ("colorGamut", 1.1); ("reducedMotion", 1.1);
    ("hardwareConcurrency", 1.2); ("deviceMemory", 1.2);
    ("screenResolution", 1.1) ]%float.

Definition baseWeights : gmap string float := record_literal baseWeights_entries.

Definition extractTelegramContext (components : BuiltinComponents) : TelegramContext :=
  let pick k := if has_key k components then lookup_key k components else JNull in
  let telegramData := pick "telegramWebApp" in
  let webViewData := pick "webView" in
  let hapticData := pick "haptic" in
  let behavioralData := pick "behavioral" in
  let networkData := pick "network" in
  {| isTelegramWebView := or_else (get_opt telegramData "isTelegramWebView") (JBool false);
     telegramVersion := or_else (get_opt telegramData "telegramVersion") JNull;
     webViewType := or_else (get_opt webViewData "webViewType") (JString "unknown");
     hasHapticFeedback := or_else (get_opt hapticData "isAvailable") (JBool false);
     hasBehavioralData :=
       truthy (or_else (get_opt behavioralData "touchPatterns")
                       (get_opt behavioralData "motionSignature"));
     networkQuality :=
       or_else (get_opt (get_opt networkData "networkPerformance") "networkQuality")
               (JString "unknown") |}.

Definition adjustSourceWeights (env : Env) (components : BuiltinComponents)
  : EnhancedComponents :=
  let isTelegram := detectTelegramEnvironment env in
  let weights :=
    if isTelegram then Object_assign baseWeights telegramWeights_entries
    else baseWeights in
  let telegramContext := extractTelegramContext components in
  {| components_of := components;
     _weights := weights;
     _telegramContext := telegramContext |}.

Definition calculateStabilityScore (components : BuiltinComponents)
    (context : TelegramContext) : float :=
  let stabilityFactors := 0%float in
  let totalFactors := 0%float in
  let '(stabilityFactors, totalFactors) :=
    if has_key "platform" components
    then (stabilityFactors + 1, totalFactors + 1)%float
    else (stabilityFactors, totalFactors) in
  let '(stabilityFactors, totalFactors) :=
    if has_key "timezone" components
    then (stabilityFactors + 1, totalFactors + 1)%float
    else (stabilityFactors, totalFactors) in
  let '(stabilityFactors, totalFactors) :=
    if has_key "hardwareConcurrency" components && has_key "deviceMemory" components
    then (stabilityFactors + 1, totalFactors + 1)%float
    else (stabilityFactors, totalFactors) in
  let '(stabilityFactors, totalFactors) :=
    if has_key "languages" components
    then (stabilityFactors + 1, totalFactors + 1)%float
    else (stabilityFactors, totalFactors) in
  let '(stabilityFactors, totalFactors) :=
    if truthy (isTelegramWebView context) then
      let stabilityFactors :=
        if truthy (telegramVersion context)
        then (stabilityFactors + 1)%float else stabilityFactors in
      let stabilityFactors :=
        if truthy (hasHapticFeedback context)
        then (stabilityFactors + 0.5)%float else stabilityFactors in
      (stabilityFactors, totalFactors + 1.5)%float
    else (stabilityFactors, totalFactors) in
  if PrimFloat.ltb 0 totalFactors then (stabilityFactors / totalFactors)%float else 0.5%float.

Definition getEnhancedConfidenceScore (env : Env) (components : BuiltinComponents)
  : EnhancedConfidence :=
  let isTelegram := detectTelegramEnvironment env in
  let context := extractTelegramContext components in
  let baseScore := 0.5%float in
  let baseScore :=
    if has_key "platform" components && truthy (lookup_key "platform" components) then
      let platformComponent := lookup_key "platform" components in
      let platform := or_else (get_opt platformComponent "value") platformComponent in
      match platform with
      | JString platform =>
          if includes platform "iPhone" || includes platform "iPad"
          then (baseScore + 0.1)%float
          else if includes platform "Android"
          then (baseScore + 0.05)%float
          else baseScore
      | _ => baseScore
      end
    else baseScore in
  let behavioralFactor :=
    if has_key "behavioral" components && truthy (lookup_key "behavioral" components) then
      let behavioral := lookup_key "behavioral" components in
      if truthy (or_else (get behavioral "touchPatterns")
                         (get behavioral "motionSignature"))
      then 0.2%float else 0%float
    else 0%float in
  let webViewFactor :=
    if has_key "webView" components && truthy (lookup_key "webView" components) then
      let webView := lookup_key "webView" components in
      if truthy (get webView "isWebView")
         && strict_eq_string (get webView "webViewType") "telegram"
      then 0.25%float else 0%float
    else 0%float in
  let hapticFactor :=
    if has_key "haptic" components && truthy (lookup_key "haptic" components) then
      let haptic := lookup_key "haptic" components in
      if truthy (get haptic "isAvailable") && truthy (get haptic "isTelegramHaptic")
      then 0.15%float else 0%float
    else 0%float in
  let networkFactor :=
    if has_key "network" components && truthy (lookup_key "network" components) then
      let network := lookup_key "network" components in
      if truthy (get network "connectionInfo") && truthy (get network "ipBasedEntropy")
      then 0.1%float else 0%float
    else 0%float in
  let stabilityScore := calculateStabilityScore components context in
  let finalScore :=
    if isTelegram then
      let finalScore :=
        Math_min 0.9 (baseScore + behavioralFactor + webViewFactor
                     + hapticFactor + networkFactor) in
      if hasBehavioralData context && truthy (hasHapticFeedback context)
      then (finalScore + 0.05)%float else finalScore
    else
      Math_min 0.85 (baseScore + (behavioralFactor + networkFactor) * 0.5) in
  {| score := Math_max 0.1 (Math_min 0.9 finalScore);
     telegramAdjustment := isTelegram;
     behavioralFactor := behavioralFactor;
     webViewFactor := webViewFactor;
     hapticFactor := hapticFactor;
     networkFactor := networkFactor;
     stabilityScore := stabilityScore |}.

Section Synthesizer.
Context `{Host}.

(** [simpleHash] on the code units of its argument: [units] lists
    [str.charCodeAt(i)] for [i] from 0 to [str.length - 1]. *)
Definition simpleHash_units (units : list Z) : string :=
  let hash :=
    fold_left (fun hash char =>
                 let hash := (shl hash 5 - hash + char)%Z in
                 band hash hash)
              units 0%Z in
  toString16 (Z.abs hash).

Definition simpleHash (str : string) : string := simpleHash_units (char_codes str).

(** [weights[key] || 1.0], as the number [weight * 10] makes of it. The
    read finds the own entry of the table, or else, for a key that names a
    member of [Object.prototype], that member: it is truthy, so the default
    is not taken, and as a number it is NaN. *)
Definition weight_or_default (weights : gmap string float) (key : string) : float :=
  match weights !! key with
  | Some w => if is_falsy_number w then 1.0%float else w
  | None => if inherited key then nan else 1.0%float
  end.

(** The turns of [for (let i = 0; i < repetitions; i++)] where
    [repetitions] is [Math.max(1, Math.round(x))], for [x] finite or NaN.
    When [x] is NaN so is [repetitions], and [i < repetitions] is false
    from the start. *)
Definition turns (x : float) : nat :=
  if PrimFloat.is_nan x then 0%nat
  else Z.to_nat (Z.max 1 (Math_round x)).

(** The text of one component: lines 232-240. *)
Definition component_value (component : JsValue) : string :=
  if is_object component then
    if in_object "value" component
    then ToString (get component "value")
    else default "undefined" (JSON_stringify component)
  else ToString component.

(** One turn of the [for ... of Object.entries(components)] loop: the
    tokens pushed onto [weightedInputs] for one entry. *)
Definition push_component (weights : gmap string float) (weightedInputs : list string)
    (entry : string * JsValue) : list string :=
  let '(key, component) := entry in
  if startsWith key "_" then weightedInputs
  else
    let weight := weight_or_default weights key in
    let value := component_value component in
    Nat.iter (turns (weight * 10))
             (fun inputs => inputs ++ [key +:+ ":" +:+ value])
             weightedInputs.

(** The array [weightedInputs] when the function reaches its [return]. *)
Definition weightedInputs_of (env : Env) (components : BuiltinComponents)
  : list string :=
  let enhancedComponents := adjustSourceWeights env components in
  let weights := _weights enhancedComponents in
  let weightedInputs := fold_left (push_component weights) components [] in
  let context := _telegramContext enhancedComponents in
  weightedInputs
    ++ [ "telegram:" +:+ ToString (isTelegramWebView context) ]
    ++ [ "version:" +:+ ToString (or_else (telegramVersion context) (JString "unknown")) ]
    ++ [ "webview:" +:+ ToString (webViewType context) ].

Definition generateTelegramSpecificFingerprint (env : Env)
    (components : BuiltinComponents) : string :=
  simpleHash (join "|" (weightedInputs_of env components)).

End Synthesizer.

End TelegramStrategy.

(* ================================================================== *)
(** ** The strategy on a store of objects *)
(* ================================================================== *)

(** The weight adapter and the synthesizer once more, statement by
    statement, on a store that holds the objects they are handed and the
    objects they make: what a call allocates, reads and writes is explicit,
    and a later call runs in the store an earlier call has left. The class
    has no field and its module no variable besides the one instance, so
    the store is all the state there is. A component stays a value: no
    statement of the strategy writes into one. *)
Module StrategyStore.
Import Js TelegramStrategy.

(** The address of an object. *)
Definition loc : Type := positive.

(** The objects of the strategy: a component bag, a
    [Record<string, number>], a [TelegramContext], the enhanced bag
    [{...components, _weights, _telegramContext}] with its two references,
    and an array of strings. *)
Inductive Cell : Type :=
| BagCell (entries : BuiltinComponents)
| WeightsCell (weights : gmap string float)
| ContextCell (context : TelegramContext)
| EnhancedCell (components : BuiltinComponents) (weights context : loc)
| ArrayCell (items : list string).

Abbreviation Store := (gmap loc Cell).

(** A computation on the store; [None] is a thrown [TypeError]. *)
Definition M (A : Type) : Type := Store -> option (A * Store).

Definition ret {A : Type} (a : A) : M A := fun store => Some (a, store).

Definition bind {A B : Type} (m : M A) (k : A -> M B) : M B :=
  fun store =>
    match m store with
    | Some (a, store) => k a store
    | None => None
    end.

Definition throw {A : Type} : M A := fun _ => None.

#[local] Notation "x <- m ;; k" := (bind m (fun x => k))
  (at level 100, m at next level, right associativity).

(** A new object, at an address the store does not use. *)
Definition alloc (c : Cell) : M loc :=
  fun store =>
    let l := fresh (dom store) in
    Some (l, <[l := c]> store).

Definition read (l : loc) : M Cell :=
  fun store =>
    match store !! l with
    | Some c => Some (c, store)
    | None => None
    end.

Definition write (l : loc) (c : Cell) : M unit :=
  fun store =>
    match store !! l with
    | Some _ => Some (tt, <[l := c]> store)
    | None => None
    end.

Definition read_bag (l : loc) : M BuiltinComponents :=
  c <- read l ;;
  match c with
  | BagCell entries => ret entries
  | _ => throw
  end.

Definition read_weights (l : loc) : M (gmap string float) :=
  c <- read l ;;
  match c with
  | WeightsCell weights => ret weights
  | _ => throw
  end.

Definition read_context (l : loc) : M TelegramContext :=
  c <- read l ;;
  match c with
  | ContextCell context => ret context
  | _ => throw
  end.

Definition read_array (l : loc) : M (list string) :=
  c <- read l ;;
  match c with
  | ArrayCell items => ret items
  | _ => throw
  end.

(** [array.push(item)]. *)
Definition push (array : loc) (item : string) : M unit :=
  items <- read_array array ;;
  write array (ArrayCell (items ++ [item])).

(** [Object.assign(target, source)] on two records: every own entry of
    [source] is written into [target]. *)
Definition Object_assign_m (target source : loc) : M unit :=
  written <- read_weights source ;;
  kept <- read_weights target ;;
  write target (WeightsCell (written ∪ kept)).

(** [for (let i = 0; i < n; i++) body]. *)
Fixpoint repeat_m (n : nat) (body : M unit) : M unit :=
  match n with
  | O => ret tt
  | S n => _ <- body ;; repeat_m n body
  end.

(** [for (const x of xs) body]. *)
Fixpoint for_each {A : Type} (xs : list A) (body : A -> M unit) : M unit :=
  match xs with
  | [] => ret tt
  | x :: xs => _ <- body x ;; for_each xs body
  end.

(** [extractTelegramContext]: the bag is read, the context is a new
    object. *)
Definition extractTelegramContext_m (components : loc) : M loc :=
  entries <- read_bag components ;;
  alloc (ContextCell (extractTelegramContext entries)).

(** [adjustSourceWeights]: lines 50-131. *)
Definition adjustSourceWeights_m (env : Env) (components : loc) : M loc :=
  let isTelegram := detectTelegramEnvironment env in
  baseWeights <- alloc (WeightsCell (record_literal baseWeights_entries)) ;;
  _ <- (if isTelegram
        then
          telegramWeights <- alloc (WeightsCell (record_literal telegramWeights_entries)) ;;
          Object_assign_m baseWeights telegramWeights
        else ret tt) ;;
  telegramContext <- extractTelegramContext_m components ;;
  entries <- read_bag components ;;
  alloc (EnhancedCell entries baseWeights telegramContext).

Section Synthesizer.
Context `{Host}.

(** One turn of the [for ... of Object.entries(components)] loop. *)
Definition push_component_m (weights weightedInputs : loc) (entry : string * JsValue)
  : M unit :=
  let '(key, component) := entry in
  if startsWith key "_" then ret tt
  else
    table <- read_weights weights ;;
    let weight := weight_or_default table key in
    let value := component_value component in
    repeat_m (turns (weight * 10)) (push weightedInputs (key +:+ ":" +:+ value)).

(** [generateTelegramSpecificFingerprint]: lines 219-259. The enhanced
    bag's [_weights] and [_telegramContext] are objects, hence truthy. *)
Definition generateTelegramSpecificFingerprint_m (env : Env) (components : loc)
  : M string :=
  enhancedComponents <- adjustSourceWeights_m env components ;;
  enhanced <- read enhancedComponents ;;
  match enhanced with
  | EnhancedCell _ weights context =>
      weightedInputs <- alloc (ArrayCell []) ;;
      entries <- read_bag components ;;
      _ <- for_each entries (push_component_m weights weightedInputs) ;;
      context <- read_context context ;;
      _ <- push weightedInputs ("telegram:" +:+ ToString (isTelegramWebView context)) ;;
      _ <- push weightedInputs
             ("version:" +:+ ToString (or_else (telegramVersion context)
                                               (JString "unknown"))) ;;
      _ <- push weightedInputs ("webview:" +:+ ToString (webViewType context)) ;;
      items <- read_array weightedInputs ;;
      ret (simpleHash (join "|" items))
  | _ => throw
  end.

End Synthesizer.

End StrategyStore.

(* ================================================================== *)
(** ** The behavioural collector *)
(* ================================================================== *)

Module Behavioral.
Import Js.
#[local] Open Scope float_scope.

(** A [Touch] of a touch list. *)
Record Touch : Type := {
  clientX : float;
  clientY : float;
  force : float;
  radiusX : float;
  radiusY : float
}.

Record TouchEvent : Type := {
  type : string;
  timeStamp : float;
  touches : list Touch
}.

(** An entry of [scrollData]; the stored [event] is never read. *)
Record ScrollSample : Type := {
  timestamp : float;
  scrollY : float;
  scrollX : float
}.

(** [DeviceMotionEventAcceleration]: each axis is a number or [null]. *)
Record Acceleration : Type := {
  x : option float;
  y : option float;
  z : option float
}.

(** An entry of [motionData]; the stored [rotationRate] is never read. *)
Record MotionSample : Type := {
  motion_timestamp : float;
  acceleration : Acceleration
}.

Record TouchPattern : Type := {
  averagePressure : float;
  averageArea : float;
  averageVelocity : float;
  touchDuration : float;
  touchFrequency : float;
  gestureComplexity : float;
  touchPointVariation : float
}.

Inductive ScrollDirection : Type := vertical | horizontal | both | none.

Record ScrollBehavior : Type := {
  averageScrollSpeed : float;
  scrollAcceleration : float;
  scrollDeceleration : float;
  momentumPattern : float;
  elasticBounceSignature : float;
  scrollDirection : ScrollDirection;
  scrollConsistency : float
}.

Record TimingFingerprint : Type := {
  averageReactionTime : float;
  keyboardInputTiming : float;
  scrollToTouchDelay : float;
  focusBlurPattern : float;
  interactionInterval : float;
  timingVariability : float
}.

Record InteractionRhythm : Type := {
  tapRhythm : float;
  scrollRhythm : float;
  pausePatterns : list float;
  interactionSequence : string;
  rhythmConsistency : float
}.

Record MotionSignature : Type := {
  handTremor : float;
  scrollStability : float;
  touchPrecision : float;
  gestureFlowness : float;
  movementEntropy : float
}.

(** [null] is [None]. *)
Record BehavioralFingerprint : Type := {
  touchPatterns : option TouchPattern;
  scrollBehavior : option ScrollBehavior;
  timingFingerprint : option TimingFingerprint;
  interactionRhythm : option InteractionRhythm;
  motionSignature : option MotionSignature;
  isCollecting : bool
}.

(** The fields of a [BehavioralCollector] instance. *)
Record BehavioralCollector : Type := {
  touchData : list TouchEvent;
  scrollData : list ScrollSample;
  motionData : list MotionSample;
  isActive : bool
}.

Definition collectionDuration : float := 3000.

(** ** Helpers for index loops *)

(** The pairs [(xs[i - 1], xs[i])] for [i = 1 .. xs.length - 1]. *)
Definition adjacent {A : Type} (xs : list A) : list (A * A) :=
  zip xs (tail xs).

(** The triples [(xs[i - 2], xs[i - 1], xs[i])] for [i = 2 .. xs.length - 1]. *)
Definition adjacent3 {A : Type} (xs : list A) : list (A * A * A) :=
  zip (zip xs (tail xs)) (tail (tail xs)).

(** [q || 0] on a number. *)
Definition or_zero (q : float) : float := if is_falsy_number q then 0 else q.

(** [a || 0] on a number or [null]. *)
Definition axis (a : option float) : float := or_zero (default 0 a).

(** [xs.filter(v => v > bound)]. *)
Definition above (bound : float) (xs : list float) : list float :=
  List.filter (fun v => PrimFloat.ltb bound v) xs.

(** [xs.slice(0, k)] and [xs.slice(-k)]. *)
Definition slice_first {A : Type} (k : nat) (xs : list A) : list A := take k xs.
Definition slice_last {A : Type} (k : nat) (xs : list A) : list A :=
  match k with
  | O => xs
  | _ => drop (length xs - k)%nat xs
  end.

(** [Math.max(...xs)] and [Math.min(...xs)]. *)
Definition Math_max_of (xs : list float) : float := fold_left Math_max xs neg_infinity.
Definition Math_min_of (xs : list float) : float := fold_left Math_min xs infinity.

(** [this.touchData.filter(e => e.type === name)]. *)
Definition of_type (name : string) (events : list TouchEvent) : list TouchEvent :=
  List.filter (fun e => String.eqb (type e) name) events.

Section Analysis.
Context `{Host}.

(** ** Helper methods *)

Definition calculateGestureComplexity (c : BehavioralCollector) : float :=
  Math_min (count (touchData c) / 10) 1.

Definition calculateTouchPointVariation (c : BehavioralCollector) : float :=
  let positions :=
    flat_map (fun event => map (fun touch => (clientX touch, clientY touch))
                               (touches event))
             (touchData c) in
  if (length positions <? 2)%nat then 0
  else
    let avgX := sum (map fst positions) / count positions in
    let avgY := sum (map snd positions) / count positions in
    let variations :=
      map (fun pos => Math_sqrt (Math_pow (pos.1 - avgX) 2 + Math_pow (pos.2 - avgY) 2))
          positions in
    sum variations / count variations.

Definition calculateScrollDeceleration (speeds : list float) : float :=
  if (length speeds <? 3)%nat then 0
  else
    let lastThird := slice_last (length speeds / 3)%nat speeds in
    let firstThird := slice_first (length speeds / 3)%nat speeds in
    let avgLast := sum lastThird / count lastThird in
    let avgFirst := sum firstThird / count firstThird in
    Math_max 0 (avgFirst - avgLast).

Definition calculateMomentumPattern (speeds : list float) : float :=
  if (length speeds =? 0)%nat then 0
  else
    let maxSpeed := Math_max_of speeds in
    let avgSpeed := sum speeds / count speeds in
    if PrimFloat.ltb 0 maxSpeed then avgSpeed / maxSpeed else 0.

Definition calculateElasticBounce (rng : Rng) : float * Rng :=
  let '(r, rng) := Math_random rng in (r * 0.1, rng).

Definition determineScrollDirection (c : BehavioralCollector) : ScrollDirection :=
  if (length (scrollData c) <? 2)%nat then none
  else
    let '(verticalMovement, horizontalMovement) :=
      fold_left (fun acc pc =>
                   let '(prev, curr) := pc in
                   (acc.1 + Math_abs (scrollY curr - scrollY prev),
                    acc.2 + Math_abs (scrollX curr - scrollX prev)))
                (adjacent (scrollData c)) (0, 0) in
    if PrimFloat.ltb (horizontalMovement * 2) verticalMovement then vertical
    else if PrimFloat.ltb (verticalMovement * 2) horizontalMovement then horizontal
    else if PrimFloat.ltb 0 verticalMovement then both
    else if PrimFloat.ltb 0 horizontalMovement then both
    else none.

Definition calculateScrollConsistency (speeds : list float) : float :=
  if (length speeds =? 0)%nat then 0
  else
    let avg := sum speeds / count speeds in
    let variance :=
      fold_left (fun sum speed => sum + Math_pow (speed - avg) 2) speeds 0
      / count speeds in
    if PrimFloat.ltb 0 avg then 1 - Math_min (Math_sqrt variance / avg) 1 else 0.

Definition calculateScrollToTouchDelay (rng : Rng) : float * Rng :=
  let '(r, rng) := Math_random rng in (r * 100, rng).

Definition calculateScrollRhythm (c : BehavioralCollector) : float :=
  if (length (scrollData c) <? 2)%nat then 0
  else
    let intervals :=
      map (fun pc => timestamp pc.2 - timestamp pc.1) (adjacent (scrollData c)) in
    let avgInterval := sum intervals / count intervals in
    if PrimFloat.ltb 0 avgInterval then 1000 / avgInterval else 0.

Definition findPausePatterns (intervals : list float) : list float :=
  above 500 intervals.

Definition generateInteractionSequence (c : BehavioralCollector) : string :=
  join "" (map (fun e => charAt (type e) 0) (touchData c)).

Definition calculateRhythmConsistency (intervals : list float) : float :=
  if (length intervals <? 2)%nat then 0
  else
    let avg := sum intervals / count intervals in
    let variance :=
      fold_left (fun sum interval => sum + Math_pow (interval - avg) 2) intervals 0
      / count intervals in
    if PrimFloat.ltb 0 avg then Math_max 0 (1 - Math_sqrt variance / avg) else 0.

Definition calculateTremor (accelerations : list float) : float :=
  if (length accelerations <? 2)%nat then 0
  else
    let changes :=
      map (fun pc => Math_abs (pc.2 - pc.1)) (adjacent accelerations) in
    if (0 <? length changes)%nat then sum changes / count changes else 0.

Definition calculateScrollStability (c : BehavioralCollector) : float :=
  if (length (scrollData c) <? 2)%nat then 1
  else
    let stability :=
      fold_left (fun stability pc =>
                   let '(prev, curr) := pc in
                   let change := Math_abs (scrollY curr - scrollY prev)
                                 + Math_abs (scrollX curr - scrollX prev) in
                   stability + change)
                (adjacent (scrollData c)) 0 in
    Math_max 0 (1 - stability / 1000).

Definition calculateTouchPrecision (c : BehavioralCollector) : float :=
  let touchStarts := of_type "touchstart" (touchData c) in
  if (length touchStarts <? 2)%nat then 1
  else
    let positions :=
      map (fun e => (or_zero (default 0 (clientX <$> head (touches e))),
                     or_zero (default 0 (clientY <$> head (touches e)))))
          touchStarts in
    let totalVariation :=
      fold_left (fun totalVariation pc =>
                   let '(prev, curr) := pc in
                   let distance :=
                     Math_sqrt (Math_pow (curr.1 - prev.1) 2
                                + Math_pow (curr.2 - prev.2) 2) in
                   totalVariation + distance)
                (adjacent positions) 0 in
    let avgVariation := totalVariation / (count positions - 1) in
    Math_max 0 (1 - avgVariation / 100).

Definition calculateGestureFlowness (c : BehavioralCollector) : float :=
  let touchMoves := of_type "touchmove" (touchData c) in
  if (length touchMoves <? 3)%nat then 1
  else
    let flowness :=
      fold_left (fun flowness w =>
                   let '(m1, m2, m3) := w in
                   match head (touches m1), head (touches m2), head (touches m3) with
                   | Some p1, Some p2, Some p3 =>
                       let angle1 := Math_atan2 (clientY p2 - clientY p1)
                                                (clientX p2 - clientX p1) in
                       let angle2 := Math_atan2 (clientY p3 - clientY p2)
                                                (clientX p3 - clientX p2) in
                       let angleDiff := Math_abs (angle2 - angle1) in
                       flowness + Math_min angleDiff (Math_PI - angleDiff)
                   | _, _, _ => flowness
                   end)
                (adjacent3 touchMoves) 0 in
    let avgAngleChange := flowness / (count touchMoves - 2) in
    Math_max 0 (1 - avgAngleChange / Math_PI).

Definition calculateMovementEntropy (accelerations : list Acceleration) : float :=
  if (length accelerations =? 0)%nat then 0
  else
    let changes :=
      map (fun a => Math_sqrt (Math_pow (axis (x a)) 2 + Math_pow (axis (y a)) 2
                               + Math_pow (axis (z a)) 2))
          accelerations in
    let max := Math_max_of changes in
    let min := Math_min_of changes in
    if PrimFloat.ltb min max then (max - min) / max else 0.

(** ** The five feature groups *)

Definition analyzeTouchPatterns (c : BehavioralCollector) : option TouchPattern :=
  if (length (touchData c) =? 0)%nat then None
  else
    let touches_ := flat_map touches (touchData c) in
    if (length touches_ =? 0)%nat then None
    else
      let pressures := above 0 (map (fun t => or_zero (force t)) touches_) in
      let areas :=
        above 0 (map (fun t => or_zero (radiusX t) * or_zero (radiusY t)) touches_) in
      let touchStarts := of_type "touchstart" (touchData c) in
      let touchEnds := of_type "touchend" (touchData c) in
      let '(totalDuration, touchCount) :=
        fold_left (fun acc se =>
                     let '(start, end_) := se in
                     let duration := timeStamp end_ - timeStamp start in
                     (acc.1 + duration, acc.2 + 1))
                  (zip touchStarts touchEnds) (0, 0) in
      let touchMoves := of_type "touchmove" (touchData c) in
      let velocities :=
        fold_left (fun velocities pc =>
                     let '(prev, curr) := pc in
                     match head (touches prev), head (touches curr) with
                     | Some prevTouch, Some currTouch =>
                         let distance :=
                           Math_sqrt
                             (Math_pow (clientX currTouch - clientX prevTouch) 2
                              + Math_pow (clientY currTouch - clientY prevTouch) 2) in
                         let timeDiff := timeStamp curr - timeStamp prev in
                         if PrimFloat.ltb 0 timeDiff
                         then velocities ++ [distance / timeDiff]
                         else velocities
                     | _, _ => velocities
                     end)
                  (adjacent touchMoves) [] in
      Some {|
        averagePressure :=
          if (0 <? length pressures)%nat then sum pressures / count pressures else 0;
        averageArea :=
          if (0 <? length areas)%nat then sum areas / count areas else 0;
        averageVelocity :=
          if (0 <? length velocities)%nat then sum velocities / count velocities else 0;
        touchDuration :=
          if PrimFloat.ltb 0 touchCount then totalDuration / touchCount else 0;
        touchFrequency := touchCount / (collectionDuration / 1000);
        gestureComplexity := calculateGestureComplexity c;
        touchPointVariation := calculateTouchPointVariation c
      |}.

(** The loop of [analyzeScrollBehavior] over [i = 1 .. scrollData.length - 1];
    the state is [(speeds, accelerations, totalDistance)]. *)
Definition scroll_step (st : list float * list float * float) (pc : ScrollSample * ScrollSample)
  : list float * list float * float :=
  let '(speeds, accelerations, totalDistance) := st in
  let '(prev, curr) := pc in
  let distance :=
    Math_sqrt (Math_pow (scrollX curr - scrollX prev) 2
               + Math_pow (scrollY curr - scrollY prev) 2) in
  let timeDiff := timestamp curr - timestamp prev in
  if PrimFloat.ltb 0 timeDiff then
    let speed := distance / timeDiff in
    let speeds := speeds ++ [speed] in
    let totalDistance := totalDistance + distance in
    if (1 <? length speeds)%nat then
      let acceleration :=
        (speed - nth (length speeds - 2)%nat speeds nan) / timeDiff in
      (speeds, accelerations ++ [acceleration], totalDistance)
    else (speeds, accelerations, totalDistance)
  else (speeds, accelerations, totalDistance).

Definition analyzeScrollBehavior (c : BehavioralCollector) (rng : Rng)
  : option ScrollBehavior * Rng :=
  if (length (scrollData c) <? 2)%nat then (None, rng)
  else
    let '(speeds, accelerations, totalDistance) :=
      fold_left scroll_step (adjacent (scrollData c)) ([], [], 0) in
    let averageSpeed :=
      if (0 <? length speeds)%nat then sum speeds / count speeds else 0 in
    let averageAcceleration :=
      if (0 <? length accelerations)%nat
      then sum accelerations / count accelerations else 0 in
    let '(bounce, rng) := calculateElasticBounce rng in
    (Some {|
       averageScrollSpeed := averageSpeed;
       scrollAcceleration := Math_abs averageAcceleration;
       scrollDeceleration := calculateScrollDeceleration speeds;
       momentumPattern := calculateMomentumPattern speeds;
       elasticBounceSignature := bounce;
       scrollDirection := determineScrollDirection c;
       scrollConsistency := calculateScrollConsistency speeds
     |}, rng).

Definition analyzeTimingPatterns (c : BehavioralCollector) (rng : Rng)
  : option TimingFingerprint * Rng :=
  if (length (touchData c) =? 0)%nat then (None, rng)
  else
    let intervals :=
      map (fun pc => timeStamp pc.2 - timeStamp pc.1) (adjacent (touchData c)) in
    let averageInterval :=
      if (0 <? length intervals)%nat then sum intervals / count intervals else 0 in
    let variance :=
      if (0 <? length intervals)%nat
      then fold_left (fun sum interval => sum + Math_pow (interval - averageInterval) 2)
                     intervals 0 / count intervals
      else 0 in
    let '(delay, rng) := calculateScrollToTouchDelay rng in
    (Some {|
       averageReactionTime := averageInterval;
       keyboardInputTiming := 0;
       scrollToTouchDelay := delay;
       focusBlurPattern := 0;
       interactionInterval := averageInterval;
       timingVariability := Math_sqrt variance
     |}, rng).

Definition analyzeInteractionRhythm (c : BehavioralCollector)
  : option InteractionRhythm :=
  if (length (touchData c) =? 0)%nat then None
  else
    let touchStarts := of_type "touchstart" (touchData c) in
    let tapIntervals :=
      map (fun pc => timeStamp pc.2 - timeStamp pc.1) (adjacent touchStarts) in
    let averageTapInterval :=
      if (0 <? length tapIntervals)%nat
      then sum tapIntervals / count tapIntervals else 0 in
    let tapRhythm :=
      if PrimFloat.ltb 0 averageTapInterval then 1000 / averageTapInterval else 0 in
    Some {|
      tapRhythm := tapRhythm;
      scrollRhythm := calculateScrollRhythm c;
      pausePatterns := findPausePatterns tapIntervals;
      interactionSequence := generateInteractionSequence c;
      rhythmConsistency := calculateRhythmConsistency tapIntervals
    |}.

Definition analyzeMotionSignature (c : BehavioralCollector) : option MotionSignature :=
  if (length (motionData c) =? 0)%nat then None
  else
    let accelerations := map acceleration (motionData c) in
    let xAccels := map (fun a => axis (x a)) accelerations in
    let yAccels := map (fun a => axis (y a)) accelerations in
    let zAccels := map (fun a => axis (z a)) accelerations in
    let tremorX := calculateTremor xAccels in
    let tremorY := calculateTremor yAccels in
    let tremorZ := calculateTremor zAccels in
    Some {|
      handTremor := (tremorX + tremorY + tremorZ) / 3;
      scrollStability := calculateScrollStability c;
      touchPrecision := calculateTouchPrecision c;
      gestureFlowness := calculateGestureFlowness c;
      movementEntropy := calculateMovementEntropy accelerations
    |}.

Definition generateFingerprint (c : BehavioralCollector) (rng : Rng)
  : BehavioralFingerprint * Rng :=
  let tp := analyzeTouchPatterns c in
  let '(sb, rng) := analyzeScrollBehavior c rng in
  let '(tf, rng) := analyzeTimingPatterns c rng in
  let ir := analyzeInteractionRhythm c in
  let ms := analyzeMotionSignature c in
  ({| touchPatterns := tp;
      scrollBehavior := sb;
      timingFingerprint := tf;
      interactionRhythm := ir;
      motionSignature := ms;
      isCollecting := false |}, rng).

End Analysis.

(** ** The collector at work: listeners, the timer and the module state *)

(** The three closures [setupEventListeners] creates. *)
Inductive Handler : Type := touchHandler | scrollHandler | motionHandler.

(** A [DeviceMotionEvent]; [accelerationIncludingGravity] may be [null]. *)
Record DeviceMotionEvent : Type := {
  accelerationIncludingGravity : option Acceleration
}.

(** An event the browser delivers, with what the handlers read from the
    host while they run ([Date.now()], [window.scrollY], [window.scrollX]). *)
Inductive DomEvent : Type :=
| TouchDelivered (event : TouchEvent)
| ScrollDelivered (Date_now window_scrollY window_scrollX : float)
| MotionDelivered (Date_now : float) (event : DeviceMotionEvent).

(** [event.type]. *)
Definition event_type (ev : DomEvent) : string :=
  match ev with
  | TouchDelivered event => type event
  | ScrollDelivered _ _ _ => "scroll"
  | MotionDelivered _ _ => "devicemotion"
  end.

(** The module variable [behavioralCollector] and the listeners that
    [document] and [window] hold for it. *)
Record State : Type := {
  behavioralCollector : option BehavioralCollector;
  listeners : list (string * Handler)
}.

Definition initial : State :=
  {| behavioralCollector := None; listeners := [] |}.

(** What a call of [getBehavioralFingerprint] hands back: a promise that is
    already resolved, one that is rejected, or one that settles when the
    collection timer fires. *)
Inductive Promise : Type :=
| Resolved (value : BehavioralFingerprint)
| Rejected
| Pending.

Definition run_handler (h : Handler) (ev : DomEvent) (c : BehavioralCollector)
  : BehavioralCollector :=
  match h, ev with
  | touchHandler, TouchDelivered event =>
      if isActive c
      then {| touchData := touchData c ++ [event];
              scrollData := scrollData c;
              motionData := motionData c;
              isActive := isActive c |}
      else c
  | scrollHandler, ScrollDelivered now sy sx =>
      if isActive c
      then {| touchData := touchData c;
              scrollData := scrollData c
                            ++ [{| timestamp := now; scrollY := sy; scrollX := sx |}];
              motionData := motionData c;
              isActive := isActive c |}
      else c
  | motionHandler, MotionDelivered now event =>
      match isActive c, accelerationIncludingGravity event with
      | true, Some a =>
          {| touchData := touchData c;
             scrollData := scrollData c;
             motionData := motionData c
                           ++ [{| motion_timestamp := now; acceleration := a |}];
             isActive := isActive c |}
      | _, _ => c
      end
  | _, _ => c
  end.

Definition Handler_eqb (a b : Handler) : bool :=
  match a, b with
  | touchHandler, touchHandler
  | scrollHandler, scrollHandler
  | motionHandler, motionHandler => true
  | _, _ => false
  end.

(** The event types and closures named in [setupEventListeners]. *)
Definition collector_listeners : list (string * Handler) :=
  [ ("touchstart", touchHandler);
    ("touchmove", touchHandler);
    ("touchend", touchHandler);
    ("scroll", scrollHandler);
    ("devicemotion", motionHandler) ].

(** The five [addEventListener] calls. *)
Definition setupEventListeners (st : State) : State :=
  {| behavioralCollector := behavioralCollector st;
     listeners := listeners st ++ collector_listeners |}.

(** The five [removeEventListener] calls of the stored [cleanup]. *)
Definition cleanup (st : State) : State :=
  {| behavioralCollector := behavioralCollector st;
     listeners :=
       List.filter
         (fun l => negb (existsb (fun r => String.eqb l.1 r.1 && Handler_eqb l.2 r.2)
                                 collector_listeners))
         (listeners st) |}.

(** The browser delivers [ev]: every listener registered under its type
    runs, in registration order. *)
Definition dispatch (ev : DomEvent) (st : State) : State :=
  match behavioralCollector st with
  | None => st
  | Some c =>
      let handlers :=
        map snd (List.filter (fun l => String.eqb l.1 (event_type ev)) (listeners st)) in
      {| behavioralCollector := Some (fold_left (fun c h => run_handler h ev c) handlers c);
         listeners := listeners st |}
  end.

Definition busy : BehavioralFingerprint :=
  {| touchPatterns := None;
     scrollBehavior := None;
     timingFingerprint := None;
     interactionRhythm := None;
     motionSignature := None;
     isCollecting := true |}.

(** [new BehavioralCollector()]. *)
Definition new_collector : BehavioralCollector :=
  {| touchData := []; scrollData := []; motionData := []; isActive := false |}.

(** [start()] up to the point where the timer is armed. *)
Definition start (st : State) : State :=
  match behavioralCollector st with
  | None => st
  | Some c =>
      setupEventListeners
        {| behavioralCollector :=
             Some {| touchData := touchData c;
                     scrollData := scrollData c;
                     motionData := motionData c;
                     isActive := true |};
           listeners := listeners st |}
  end.

Definition getBehavioralFingerprint (st : State) : Promise * State :=
  match behavioralCollector st with
  | Some _ => (Resolved busy, st)
  | None =>
      let st := {| behavioralCollector := Some new_collector;
                   listeners := listeners st |} in
      (Pending, start st)
  end.

(** [stop()]. *)
Definition stop (st : State) : State :=
  match behavioralCollector st with
  | None => st
  | Some c =>
      cleanup {| behavioralCollector :=
                   Some {| touchData := touchData c;
                           scrollData := scrollData c;
                           motionData := motionData c;
                           isActive := false |};
                 listeners := listeners st |}
  end.

Section Timer.
Context `{Host}.

(** The timer armed by [start] fires: [stop()], the promise resolves with
    [generateFingerprint()], and the [finally] callback clears the module
    variable. [None] when no collection is under way. *)
Definition timer_fires (st : State) (rng : Rng)
  : option BehavioralFingerprint * State * Rng :=
  let st := stop st in
  match behavioralCollector st with
  | None => (None, st, rng)
  | Some c =>
      let '(fp, rng) := generateFingerprint c rng in
      (Some fp, {| behavioralCollector := None; listeners := listeners st |}, rng)
  end.

(** What can happen to the module, one thing at a time. *)
Inductive Input : Type :=
| Request
| Deliver (ev : DomEvent)
| Timeout.

Definition step (st : State) (rng : Rng) (i : Input) : State * Rng :=
  match i with
  | Request => ((getBehavioralFingerprint st).2, rng)
  | Deliver ev => (dispatch ev st, rng)
  | Timeout => let '(_, st, rng) := timer_fires st rng in (st, rng)
  end.

Definition run (inputs : list Input) (st : State) (rng : Rng) : State * Rng :=
  fold_left (fun sr i => step sr.1 sr.2 i) inputs (st, rng).

End Timer.

End Behavioral.

(* ================================================================== *)
(** ** Vocabulary of the specification *)
(* ================================================================== *)

Module Spec.
Import Js TelegramStrategy.

(** The weight of [key] in [table] lies strictly below its weight in
    [reference]. *)
Definition lowered (table reference : gmap string float) (key : string) : Prop :=
  exists w r, table !! key = Some w /\ reference !! key = Some r /\ PrimFloat.ltb w r = true.

(** The weight of [key] in [table] lies strictly above its weight in
    [reference]. *)
Definition raised (table reference : gmap string float) (key : string) : Prop :=
  exists w r, table !! key = Some w /\ reference !! key = Some r /\ PrimFloat.ltb r w = true.

(** The weight the specification resolves for [key]: its entry in the
    table, 1.0 when the table has none. *)
Definition resolved_weight (table : gmap string float) (key : string) : float :=
  default 1.0%float (table !! key).

(** The tokens the specification lets one entry of the bag contribute:
    none for a key that begins with the reserved marker, otherwise
    [max(1, round(weight * 10))] copies of ["key:value"]. *)
Definition contribution `{Host} (table : gmap string float) (entry : string * JsValue)
  : list string :=
  if startsWith entry.1 "_" then []
  else replicate (Z.to_nat (Z.max 1 (Math_round (resolved_weight table entry.1 * 10))))
                 (entry.1 +:+ ":" +:+ component_value entry.2).

(** One unit per structural signal of the stability score: platform,
    timezone, hardwareConcurrency together with deviceMemory, languages. *)
Definition structural_units (components : BuiltinComponents) : float :=
  ((if has_key "platform" components then 1 else 0)
   + (if has_key "timezone" components then 1 else 0)
   + (if has_key "hardwareConcurrency" components && has_key "deviceMemory" components
      then 1 else 0)
   + (if has_key "languages" components then 1 else 0))%float.

(** The string made of [n] copies of the character [c]. *)
Fixpoint copies (n : nat) (c : Ascii.ascii) : string :=
  match n with
  | O => EmptyString
  | S n => String c (copies n c)
  end.

(** The bag carries none of the structural signals. *)
Definition no_structural_signal (components : BuiltinComponents) : Prop :=
  has_key "platform" components = false
  /\ has_key "timezone" components = false
  /\ has_key "hardwareConcurrency" components && has_key "deviceMemory" components = false
  /\ has_key "languages" components = false.

(** The keys of a literal are pairwise different. *)
Fixpoint distinct (keys : list string) : bool :=
  match keys with
  | [] => true
  | k :: rest => negb (existsb (String.eqb k) rest) && distinct rest
  end.

(** The event is of a type under which [touchHandler] is registered. *)
Definition touch_kind (e : Behavioral.TouchEvent) : Prop :=
  Behavioral.type e = "touchstart"
  \/ Behavioral.type e = "touchmove"
  \/ Behavioral.type e = "touchend".

(** What every state the module can reach satisfies: the registered
    listeners are those of [setupEventListeners], and the window holds
    touch events of the registered types only. *)
Definition well_formed (st : Behavioral.State) : Prop :=
  (forall l, l ∈ Behavioral.listeners st -> l ∈ Behavioral.collector_listeners)
  /\ (forall c, Behavioral.behavioralCollector st = Some c ->
                Forall touch_kind (Behavioral.touchData c)).

End Spec.

(* ================================================================== *)
(** ** Concrete inputs used by the examples *)
(* ================================================================== *)

Module Samples.
Import Js TelegramStrategy.
#[local] Open Scope float_scope.

(** A host to run the definitions on concrete inputs. Whole numbers print
    in decimal and everything else as a question mark; the square root is
    the IEEE one, a power is a repeated product, [atan2] answers zero and
    the random source always draws one half. The theorems hold for every
    host. *)
Definition sample_host : Host :=
  {| Number_toString :=
       fun f => match exact f with
                | Some q => if Qeq_bool q (inject_Z (Qfloor q))
                            then NilEmpty.string_of_int (Z.to_int (Qfloor q))
                            else "?"
                | None => "?"
                end;
     Math_sqrt := PrimFloat.sqrt;
     Math_pow := fun a n => Nat.iter (Z.to_nat (Math_round n)) (PrimFloat.mul a) 1;
     Math_atan2 := fun _ _ => 0;
     Rng := nat;
     Math_random := fun n => (0.5, S n) |}.

(** A desktop browser without the Telegram bridge. *)
Definition browser_env : Env :=
  {| navigator_userAgent := "Mozilla/5.0 (X11; Linux x86_64) Firefox/128.0";
     window_Telegram := JUndefined |}.

(** A Telegram in-app WebView. *)
Definition telegram_env : Env :=
  {| navigator_userAgent := "Mozilla/5.0 (iPhone; CPU iPhone OS 17_0) Telegram-iOS/10.0";
     window_Telegram := JObject [("WebApp", JObject [("version", JString "7.0")])] |}.

(** Telegram recognised by its user agent alone. *)
Definition telegram_desktop_env : Env :=
  {| navigator_userAgent := "Mozilla/5.0 (Windows NT 10.0) TelegramDesktop/5.1";
     window_Telegram := JUndefined |}.

(** The bag of the specification's worked example. *)
Definition example_bag (present : JsValue) : BuiltinComponents :=
  [ ("platform", JString "iPhone");
    ("timezone", JString "exists");
    ("behavioral", JObject [("touchPatterns", present)]) ].

(** A bag collected inside Telegram: two structural signals and the bridge
    component with its version. *)
Definition telegram_bag : BuiltinComponents :=
  [ ("platform", JObject [("value", JString "iPhone")]);
    ("timezone", JObject [("value", JString "Europe/Berlin")]);
    ("telegramWebApp",
     JObject [("isTelegramWebView", JBool true);
              ("telegramVersion", JString "7.0")]) ].

(** A value that stands for a collected touch pattern. *)
Definition some_touch_pattern : JsValue :=
  JObject [("averagePressure", JNumber 0.5)].

(** A window frozen with exactly one scroll sample and nothing else. *)
Definition single_scroll_window : Behavioral.BehavioralCollector :=
  {| Behavioral.touchData := [];
     Behavioral.scrollData :=
       [ {| Behavioral.timestamp := 100; Behavioral.scrollY := 40;
            Behavioral.scrollX := 0 |} ];
     Behavioral.motionData := [];
     Behavioral.isActive := false |}.

(** A window frozen with one [touchend] event whose touch list is empty:
    the only finger has left the screen. *)
Definition lifted_finger_window : Behavioral.BehavioralCollector :=
  {| Behavioral.touchData :=
       [ {| Behavioral.type := "touchend"; Behavioral.timeStamp := 120;
            Behavioral.touches := [] |} ];
     Behavioral.scrollData := [];
     Behavioral.motionData := [];
     Behavioral.isActive := false |}.

Definition finger : Behavioral.Touch :=
  {| Behavioral.clientX := 10; Behavioral.clientY := 20; Behavioral.force := 0.5;
     Behavioral.radiusX := 2; Behavioral.radiusY := 3 |}.

(** A tap and a stray [touchcancel], delivered while a collection runs. *)
Definition tap_inputs : list Behavioral.Input :=
  [ Behavioral.Request;
    Behavioral.Deliver (Behavioral.TouchDelivered
      {| Behavioral.type := "touchstart"; Behavioral.timeStamp := 10;
         Behavioral.touches := [finger] |});
    Behavioral.Deliver (Behavioral.TouchDelivered
      {| Behavioral.type := "touchcancel"; Behavioral.timeStamp := 15;
         Behavioral.touches := [] |});
    Behavioral.Deliver (Behavioral.TouchDelivered
      {| Behavioral.type := "touchend"; Behavioral.timeStamp := 90;
         Behavioral.touches := [] |}) ].

(** The window [tap_inputs] leaves behind. *)
Definition tap_window : Behavioral.BehavioralCollector :=
  {| Behavioral.touchData :=
       [ {| Behavioral.type := "touchstart"; Behavioral.timeStamp := 10;
            Behavioral.touches := [finger] |};
         {| Behavioral.type := "touchend"; Behavioral.timeStamp := 90;
            Behavioral.touches := [] |} ];
     Behavioral.scrollData := [];
     Behavioral.motionData := [];
     Behavioral.isActive := true |}.

End Samples.

(* ================================================================== *)
(** ** The synchronous answer of the behavioural source *)
(* ================================================================== *)

Module BehavioralSync.
Import Js Behavioral.

(** [getBehavioralFingerprintSync]: lines 842-850. *)
Definition getBehavioralFingerprintSync (st : State) : BehavioralFingerprint :=
  {| touchPatterns := None;
     scrollBehavior := None;
     timingFingerprint := None;
     interactionRhythm := None;
     motionSignature := None;
     isCollecting := match behavioralCollector st with
                     | Some _ => true
                     | None => false
                     end |}.

End BehavioralSync.

(* ================================================================== *)
(** ** The network source *)
(* ================================================================== *)

Module Network.
Import Js.
#[local] Open Scope float_scope.

Inductive NetworkQuality : Type := poor | good | excellent.

Record NetworkPerformance : Type := {
  latency : float;
  bandwidth : float;
  jitter : float;
  packetLoss : float;
  networkQuality : NetworkQuality
}.

Section Measurements.
Context `{Host}.

Definition calculateVariability (values : list float) : float :=
  if (length values <? 2)%nat then 0
  else
    let mean := sum values / count values in
    let variance :=
      fold_left (fun sum value => sum + Math_pow (value - mean) 2) values 0
      / count values in
    Math_sqrt variance.

(** [measureNetworkPerformance]. [ping i] is the time the i-th latency
    request took, [None] when its [fetch] failed; [download] is the time of
    the bandwidth request, [None] when it failed. *)
Definition measureNetworkPerformance (ping : nat -> option float)
    (download : option float) : NetworkPerformance :=
  let latencies := omap ping (seq 0 5) in
  let bandwidthTests :=
    match download with
    | Some time => if PrimFloat.ltb 0 time then [1024 / time] else []
    | None => []
    end in
  let avgLatency :=
    if (0 <? length latencies)%nat then sum latencies / count latencies else 0 in
  let jitter :=
    if (1 <? length latencies)%nat then calculateVariability latencies else 0 in
  let avgBandwidth :=
    if (0 <? length bandwidthTests)%nat
    then sum bandwidthTests / count bandwidthTests else 0 in
  let packetLoss := (5 - count latencies) / 5 in
  let networkQuality :=
    if PrimFloat.ltb avgLatency 100 && PrimFloat.ltb packetLoss 0.1 then excellent
    else if PrimFloat.ltb avgLatency 300 && PrimFloat.ltb packetLoss 0.2 then good
    else poor in
  {| latency := avgLatency;
     bandwidth := avgBandwidth;
     jitter := jitter;
     packetLoss := packetLoss;
     networkQuality := networkQuality |}.

End Measurements.

(** [timezone.split('/')[0]]. *)
Fixpoint first_segment (s : string) : string :=
  match s with
  | EmptyString => EmptyString
  | String c rest =>
      if Ascii.eqb c "/" then EmptyString else String c (first_segment rest)
  end.

(** [inferRegionFromTime]. [timeZone] is the resolved time zone, [None]
    when reading it or searching it throws. *)
Definition inferRegionFromTime (timeZone : option string) : string :=
  match timeZone with
  | None => "Unknown"
  | Some timezone =>
      if includes timezone "/" then
        let parts0 := first_segment timezone in
        if String.eqb parts0 EmptyString then "Unknown" else parts0
      else timezone
  end.

(** The loop of [measureTimeAccuracy] with [remaining = 1000 - count];
    [clock k] is the k-th reading of [Date.now()]. *)
Fixpoint spin (clock : nat -> float) (remaining count : nat) : nat :=
  match remaining with
  | O => count
  | S remaining =>
      if PrimFloat.eqb (clock (S count)) (clock 0%nat)
      then spin clock remaining (S count)
      else count
  end.

Definition measureTimeAccuracy (clock : nat -> float) : nat := spin clock 1000 0.

End Network.

(* ================================================================== *)
(** ** The WebView and Telegram sources *)
(* ================================================================== *)

Module Browser.
Import Js.

(** What the two sources of [webview.ts] read from the host: the user
    agent, [navigator.hardwareConcurrency] and the properties of [window].
    A function-valued property is listed as an object: the detectors read
    nothing but whether it is there. *)
Record Page : Type := {
  page_userAgent : string;
  page_hardwareConcurrency : JsValue;
  page_window : Props
}.

(** The same page as the strategy reads it. *)
Definition strategy_env (page : Page) : TelegramStrategy.Env :=
  {| TelegramStrategy.navigator_userAgent := page_userAgent page;
     TelegramStrategy.window_Telegram := lookup_key "Telegram" (page_window page) |}.

(** [v !== undefined]. *)
Definition defined (v : JsValue) : bool :=
  match v with
  | JUndefined => false
  | _ => true
  end.

(** [v === 1]. *)
Definition strict_eq_one (v : JsValue) : bool :=
  match v with
  | JNumber f => PrimFloat.eqb f 1
  | _ => false
  end.

(** A character [.] does not match. *)
Definition line_terminator (c : ascii) : bool :=
  Ascii.eqb c "010" || Ascii.eqb c "013".

(** [/^.*q/] *)
Fixpoint dots_then (q s : string) : bool :=
  String.prefix q s ||
  match s with
  | EmptyString => false
  | String c rest => negb (line_terminator c) && dots_then q rest
  end.

Fixpoint skip (n : nat) (s : string) : string :=
  match n, s with
  | S n, String _ rest => skip n rest
  | _, _ => s
  end.

(** [/p.*q/.test(s)] for literal [p] and [q]. *)
Fixpoint test_apart (p q s : string) : bool :=
  (String.prefix p s && dots_then q (skip (String.length p) s)) ||
  match s with
  | EmptyString => false
  | String _ rest => test_apart p q rest
  end.

End Browser.

Module WebViewSource.
Import Js Browser.

Inductive WebViewType : Type :=
| telegram | facebook | instagram | tiktok | wechat | line
| native_ios | native_android | electron | unknown | none.

(** The string a [WebViewType] is. *)
Definition type_name (t : WebViewType) : string :=
  match t with
  | telegram => "telegram"
  | facebook => "facebook"
  | instagram => "instagram"
  | tiktok => "tiktok"
  | wechat => "wechat"
  | line => "line"
  | native_ios => "native_ios"
  | native_android => "native_android"
  | electron => "electron"
  | unknown => "unknown"
  | none => "none"
  end.

Definition isWebViewEnvironment (page : Page) : bool :=
  let window := page_window page in
  let indicators :=
    [ negb (truthy (lookup_key "chrome" window))
      && negb (truthy (lookup_key "safari" window))
      && negb (truthy (lookup_key "opera" window));
      truthy (lookup_key "__gCrWeb" window);
      truthy (lookup_key "__crWeb" window);
      truthy (get_opt (lookup_key "webkit" window) "messageHandlers");
      negb (truthy (lookup_key "openDatabase" window))
      && has_key "webkitRequestFileSystem" window;
      strict_eq_one (page_hardwareConcurrency page);
      test_apart "Mobile" "Safari" (page_userAgent page)
      && negb (includes (page_userAgent page) "Version") ] in
  (2 <=? length (List.filter id indicators))%nat.

Definition detectWebViewType (page : Page) : WebViewType :=
  let ua := toLowerCase (page_userAgent page) in
  let window := page_window page in
  if includes ua "telegramwebview" || includes ua "telegram"
     || truthy (get_opt (lookup_key "Telegram" window) "WebApp")
  then telegram
  else if includes ua "fban" || includes ua "fbav" || includes ua "facebook"
  then facebook
  else if includes ua "instagram" then instagram
  else if includes ua "tiktok" || includes ua "musically" then tiktok
  else if includes ua "micromessenger" then wechat
  else if includes ua "line" then line
  else if includes ua "mobile/" && negb (includes ua "safari/") then native_ios
  else if includes ua "android" && includes ua "wv" then native_android
  else if truthy (or_else (or_else (lookup_key "require" window)
                                   (lookup_key "process" window))
                          (lookup_key "global" window))
  then electron
  else if isWebViewEnvironment page then unknown
  else none.

(** [getWebViewFingerprint]. [probes] are the seven further entries of
    the result, which the page's engine, storage and timing probes fill. *)
Definition getWebViewFingerprint (page : Page) (probes : Props) : JsValue :=
  let webViewType := detectWebViewType page in
  let isWebView :=
    match webViewType with
    | none => false
    | _ => true
    end in
  JObject (("isWebView", JBool isWebView)
           :: ("webViewType", JString (type_name webViewType))
           :: probes).

End WebViewSource.

Module TelegramSource.
Import Js Browser.

Definition detectTelegramEnvironment (page : Page) : bool :=
  let ua := toLowerCase (page_userAgent page) in
  test_ignore_case "telegramwebview" ua
  || test_ignore_case "telegram" ua
  || defined (get_opt (lookup_key "Telegram" (page_window page)) "WebApp")
  || defined (lookup_key "TelegramWebviewProxy" (page_window page)).

End TelegramSource.

(* ================================================================== *)
(** ** The haptic source *)
(* ================================================================== *)

Module Haptic.
Import Js.
#[local] Open Scope float_scope.

(** A property that may hold a function: falsy, a truthy value that
    cannot be called, or a function, given by the arguments it throws on. *)
Inductive Member (A : Type) : Type :=
| Falsy
| NotCallable
| Function (throws : A -> bool).
Arguments Falsy {A}.
Arguments NotCallable {A}.
Arguments Function {A} throws.

(** What the haptic source reads from the host: [navigator.vibrate];
    [window.Telegram?.WebApp?.HapticFeedback], [None] when falsy and
    otherwise its [impactOccurred] member; and whether
    [window.webkit?.messageHandlers?.haptic] is truthy. *)
Record HapticPage : Type := {
  navigator_vibrate : Member (list float);
  HapticFeedback : option (Member string);
  webkit_haptic : bool
}.

Record VibrationSupport : Type := {
  hasVibration : bool;
  supportsPattern : bool;
  maxDuration : float;
  timingAccuracy : float
}.

Record HapticFingerprint : Type := {
  isAvailable : bool;
  isTelegramHaptic : bool;
  hapticCapabilities : list string;
  hapticResponseTiming : list float;
  hapticIntensitySupport : bool;
  customHapticPatterns : list string;
  vibrationSupport : VibrationSupport
}.

(** [!!m]. *)
Definition present {A : Type} (m : Member A) : bool :=
  match m with
  | Falsy => false
  | _ => true
  end.

(** [try { m(arg); return true } catch { return false }]. *)
Definition accepts {A : Type} (m : Member A) (arg : A) : bool :=
  match m with
  | Function throws => negb (throws arg)
  | _ => false
  end.

Definition detectHapticAvailability (page : HapticPage) : bool :=
  present (navigator_vibrate page)
  || match HapticFeedback page with Some _ => true | None => false end
  || webkit_haptic page.

Definition detectTelegramHaptic (page : HapticPage) : bool :=
  match HapticFeedback page with Some _ => true | None => false end.

(** [vibration] is the second half of the function, reached when Telegram
    offers no [impactOccurred]. *)
Definition testHapticIntensitySupport (page : HapticPage) : bool :=
  let vibration :=
    if present (navigator_vibrate page)
    then accepts (navigator_vibrate page) [10; 10; 50; 10; 100]
    else false in
  match HapticFeedback page with
  | Some impactOccurred =>
      if present impactOccurred
      then forallb (accepts impactOccurred) ["light"; "medium"; "heavy"]%string
      else vibration
  | None => vibration
  end.

(** The result of [getHapticFingerprint] on a page without haptics. *)
Definition unavailable : HapticFingerprint :=
  {| isAvailable := false;
     isTelegramHaptic := false;
     hapticCapabilities := [];
     hapticResponseTiming := [];
     hapticIntensitySupport := false;
     customHapticPatterns := [];
     vibrationSupport :=
       {| hasVibration := false;
          supportsPattern := false;
          maxDuration := 0;
          timingAccuracy := 0 |} |}.

Definition getHapticFingerprintSync (page : HapticPage) : HapticFingerprint :=
  let isAvailable := detectHapticAvailability page in
  let isTelegramHaptic := detectTelegramHaptic page in
  {| isAvailable := isAvailable;
     isTelegramHaptic := isTelegramHaptic;
     hapticCapabilities := [];
     hapticResponseTiming := [];
     hapticIntensitySupport :=
       if isAvailable then testHapticIntensitySupport page else false;
     customHapticPatterns := [];
     vibrationSupport :=
       {| hasVibration := present (navigator_vibrate page);
          supportsPattern := false;
          maxDuration := 0;
          timingAccuracy := 0 |} |}.

End Haptic.

(* ================================================================== *)
(** ** The sources' results as components *)
(* ================================================================== *)

Module Components.
Import Js.

(** A value or [null]. *)
Definition nullable {A : Type} (object : A -> JsValue) (v : option A) : JsValue :=
  match v with
  | Some a => object a
  | None => JNull
  end.

Definition strings (l : list string) : JsValue := JArray (map JString l).
Definition numbers (l : list float) : JsValue := JArray (map JNumber l).

Definition haptic_component (f : Haptic.HapticFingerprint) : JsValue :=
  JObject
    [ ("isAvailable", JBool (Haptic.isAvailable f));
      ("isTelegramHaptic", JBool (Haptic.isTelegramHaptic f));
      ("hapticCapabilities", strings (Haptic.hapticCapabilities f));
      ("hapticResponseTiming", numbers (Haptic.hapticResponseTiming f));
      ("hapticIntensitySupport", JBool (Haptic.hapticIntensitySupport f));
      ("customHapticPatterns", strings (Haptic.customHapticPatterns f));
      ("vibrationSupport",
       JObject
         [ ("hasVibration", JBool (Haptic.hasVibration (Haptic.vibrationSupport f)));
           ("supportsPattern",
            JBool (Haptic.supportsPattern (Haptic.vibrationSupport f)));
           ("maxDuration", JNumber (Haptic.maxDuration (Haptic.vibrationSupport f)));
           ("timingAccuracy",
            JNumber (Haptic.timingAccuracy (Haptic.vibrationSupport f))) ]) ].

Import Behavioral.

Definition touch_pattern (p : TouchPattern) : JsValue :=
  JObject
    [ ("averagePressure", JNumber (averagePressure p));
      ("averageArea", JNumber (averageArea p));
      ("averageVelocity", JNumber (averageVelocity p));
      ("touchDuration", JNumber (touchDuration p));
      ("touchFrequency", JNumber (touchFrequency p));
      ("gestureComplexity", JNumber (gestureComplexity p));
      ("touchPointVariation", JNumber (touchPointVariation p)) ].

Definition direction_name (d : ScrollDirection) : string :=
  match d with
  | vertical => "vertical"
  | horizontal => "horizontal"
  | both => "both"
  | none => "none"
  end.

Definition scroll_behavior (b : ScrollBehavior) : JsValue :=
  JObject
    [ ("averageScrollSpeed", JNumber (averageScrollSpeed b));
      ("scrollAcceleration", JNumber (scrollAcceleration b));
      ("scrollDeceleration", JNumber (scrollDeceleration b));
      ("momentumPattern", JNumber (momentumPattern b));
      ("elasticBounceSignature", JNumber (elasticBounceSignature b));
      ("scrollDirection", JString (direction_name (scrollDirection b)));
      ("scrollConsistency", JNumber (scrollConsistency b)) ].

Definition timing_fingerprint (t : TimingFingerprint) : JsValue :=
  JObject
    [ ("averageReactionTime", JNumber (averageReactionTime t));
      ("keyboardInputTiming", JNumber (keyboardInputTiming t));
      ("scrollToTouchDelay", JNumber (scrollToTouchDelay t));
      ("focusBlurPattern", JNumber (focusBlurPattern t));
      ("interactionInterval", JNumber (interactionInterval t));
      ("timingVariability", JNumber (timingVariability t)) ].

Definition interaction_rhythm (r : InteractionRhythm) : JsValue :=
  JObject
    [ ("tapRhythm", JNumber (tapRhythm r));
      ("scrollRhythm", JNumber (scrollRhythm r));
      ("pausePatterns", numbers (pausePatterns r));
      ("interactionSequence", JString (interactionSequence r));
      ("rhythmConsistency", JNumber (rhythmConsistency r)) ].

Definition motion_signature (m : MotionSignature) : JsValue :=
  JObject
    [ ("handTremor", JNumber (handTremor m));
      ("scrollStability", JNumber (scrollStability m));
      ("touchPrecision", JNumber (touchPrecision m));
      ("gestureFlowness", JNumber (gestureFlowness m));
      ("movementEntropy", JNumber (movementEntropy m)) ].

Definition behavioral_component (f : BehavioralFingerprint) : JsValue :=
  JObject
    [ ("touchPatterns", nullable touch_pattern (touchPatterns f));
      ("scrollBehavior", nullable scroll_behavior (scrollBehavior f));
      ("timingFingerprint", nullable timing_fingerprint (timingFingerprint f));
      ("interactionRhythm", nullable interaction_rhythm (interactionRhythm f));
      ("motionSignature", nullable motion_signature (motionSignature f));
      ("isCollecting", JBool (isCollecting f)) ].

(** A component as the FingerprintJS agent hands it over: the source's
    result under [value], next to the time it took. *)
Definition wrapped (value duration : JsValue) : JsValue :=
  JObject [("value", value); ("duration", duration)].

End Components.

(* ================================================================== *)
(** ** Vocabulary of the further facts *)
(* ================================================================== *)

Module Vocabulary.
Import Js TelegramStrategy.

(** The polynomial hash of a sequence of character codes in base 31,
    without any wrap-around. *)
Definition polynomial31 (codes : list Z) : Z :=
  fold_left (fun h c => 31 * h + c)%Z codes 0%Z.

(** A key that does not begin with the reserved marker. *)
Definition public_key (entry : string * JsValue) : bool :=
  negb (startsWith entry.1 "_").

(** A key that neither begins with the reserved marker nor names a member
    of [Object.prototype]. *)
Definition counted_key (entry : string * JsValue) : bool :=
  public_key entry && negb (inherited entry.1).

End Vocabulary.

Module Shapes.
Import Js TelegramStrategy Components.

(** The context of a bag that tells nothing about the host. *)
Definition default_context : TelegramContext :=
  {| isTelegramWebView := JBool false;
     telegramVersion := JNull;
     webViewType := JString "unknown";
     hasHapticFeedback := JBool false;
     hasBehavioralData := false;
     networkQuality := JString "unknown" |}.

(** The component stored under [key] is not a record: the key is absent,
    or its value is [null], [undefined], a primitive or an array. *)
Definition no_record (key : string) (components : BuiltinComponents) : Prop :=
  forall props, lookup_key key components <> JObject props.

(** The component stored under [key], if there is one, has the agent's
    wrapping. *)
Definition wrapped_or_absent (key : string) (components : BuiltinComponents) : Prop :=
  has_key key components = true ->
  exists value duration, lookup_key key components = wrapped value duration.

End Shapes.

Module Lifecycle.
Import Js Behavioral.

(** The module is idle with no listener left behind, or one collection is
    under way, active, with exactly the listeners it registered. *)
Definition single_flight (st : State) : Prop :=
  (behavioralCollector st = None /\ listeners st = [])
  \/ (exists c, behavioralCollector st = Some c /\ isActive c = true
                /\ listeners st = collector_listeners).

End Lifecycle.

Module Recorded.
Import Js Behavioral.

(** The type is one of those [touchHandler] is registered under. *)
Definition registered_touch_type (name : string) : bool :=
  String.eqb "touchstart" name || String.eqb "touchmove" name
  || String.eqb "touchend" name.

(** What a running collection keeps of a delivered event. *)
Definition recorded_touch (ev : DomEvent) : option TouchEvent :=
  match ev with
  | TouchDelivered event =>
      if registered_touch_type (type event) then Some event else None
  | _ => None
  end.

Definition recorded_scroll (ev : DomEvent) : option ScrollSample :=
  match ev with
  | ScrollDelivered now sy sx =>
      Some {| timestamp := now; scrollY := sy; scrollX := sx |}
  | _ => None
  end.

Definition recorded_motion (ev : DomEvent) : option MotionSample :=
  match ev with
  | MotionDelivered now event =>
      match accelerationIncludingGravity event with
      | Some a => Some {| motion_timestamp := now; acceleration := a |}
      | None => None
      end
  | _ => None
  end.

(** The window [c] after the events [evs] were delivered to it. *)
Definition extended (c : BehavioralCollector) (evs : list DomEvent) : BehavioralCollector :=
  {| touchData := touchData c ++ omap recorded_touch evs;
     scrollData := scrollData c ++ omap recorded_scroll evs;
     motionData := motionData c ++ omap recorded_motion evs;
     isActive := isActive c |}.

End Recorded.

(* ================================================================== *)
(** ** Facts about the strategy *)
(* ================================================================== *)

Module StrategyFacts.
Import Js TelegramStrategy.
#[local] Open Scope float_scope.




(** *** Object literals and [Object.assign] *)

Section ObjectAssign.
Implicit Types (target : gmap string float) (source : list (string * float)).

Lemma Object_assign_snoc target source k w :
  Object_assign target (source ++ [(k, w)]) = <[k := w]> (Object_assign target source).
Proof. unfold Object_assign. by rewrite foldl_snoc. Qed.

Lemma Object_assign_absent target source k :
  k ∉ source.*1 -> Object_assign target source !! k = target !! k.
Proof.
  induction source as [|[k' w'] source IH] using rev_ind; [done|].
  rewrite fmap_app, not_elem_of_app, Object_assign_snoc. simpl.
  intros [Hsrc Hk]. rewrite lookup_insert_ne; [by apply IH|].
  intros ->. apply Hk. by left.
Qed.

Lemma Object_assign_present target source k w :
  NoDup source.*1 -> (k, w) ∈ source -> Object_assign target source !! k = Some w.
Proof.
  induction source as [|[k' w'] source IH] using rev_ind; [by intros _ ?%elem_of_nil|].
  rewrite fmap_app, NoDup_app, elem_of_app, Object_assign_snoc. simpl.
  intros (Hnd & Hfresh & _) [Hin|Hin].
  - rewrite lookup_insert_ne; [by apply IH|].
    intros ->. apply (Hfresh k); [|by left].
    apply list_elem_of_fmap. by exists (k, w).
  - apply list_elem_of_singleton in Hin. injection Hin as -> ->.
    by rewrite lookup_insert_eq.
Qed.

Lemma Object_assign_origin target source k w :
  Object_assign target source !! k = Some w ->
  (k, w) ∈ source \/ target !! k = Some w.
Proof.
  induction source as [|[k' w'] source IH] using rev_ind; [by right|].
  rewrite Object_assign_snoc. destruct (decide (k' = k)) as [->|Hne].
  - rewrite lookup_insert_eq. intros [= ->]. left. apply elem_of_app. right. by left.
  - rewrite lookup_insert_ne by done. intros [Hin|Ht]%IH; [left|by right].
    apply elem_of_app. by left.
Qed.

End ObjectAssign.

Lemma existsb_eqb_elem_of (k : string) (keys : list string) :
  existsb (String.eqb k) keys = true <-> k ∈ keys.
Proof.
  rewrite existsb_exists, list_elem_of_In. split.
  - intros (k' & Hin & ->%String.eqb_eq). done.
  - intros Hin. exists k. by rewrite String.eqb_refl.
Qed.

Lemma distinct_NoDup (keys : list string) : Spec.distinct keys = true -> NoDup keys.
Proof.
  induction keys as [|k keys IH]; simpl; [constructor|].
  intros [Hk Hrest]%andb_true_iff. constructor; [|by apply IH].
  intros Hin%existsb_eqb_elem_of. by rewrite Hin in Hk.
Qed.

Lemma absent_by_eqb (k : string) (keys : list string) :
  existsb (String.eqb k) keys = false -> k ∉ keys.
Proof. intros Hf Hin%existsb_eqb_elem_of. congruence. Qed.

(** Membership of an entry in a literal, found by walking the literal. *)
Ltac entry_here :=
  repeat first [ apply list_elem_of_here | apply list_elem_of_further ].

(** *** The weight adapter *)

Lemma telegramWeights_keys_NoDup : NoDup telegramWeights_entries.*1.
Proof. apply distinct_NoDup. vm_compute. reflexivity. Qed.

Lemma baseWeights_keys_NoDup : NoDup baseWeights_entries.*1.
Proof. apply distinct_NoDup. vm_compute. reflexivity. Qed.

Lemma baseWeights_lookup key w :
  (key, w) ∈ baseWeights_entries -> baseWeights !! key = Some w.
Proof. apply Object_assign_present, baseWeights_keys_NoDup. Qed.

Lemma adjustSourceWeights_weights env components :
  _weights (adjustSourceWeights env components) =
  if detectTelegramEnvironment env
  then Object_assign baseWeights telegramWeights_entries
  else baseWeights.
Proof. reflexivity. Qed.

Lemma telegram_lookup_override env components key w :
  detectTelegramEnvironment env = true ->
  (key, w) ∈ telegramWeights_entries ->
  _weights (adjustSourceWeights env components) !! key = Some w.
Proof.
  intros Htg Hin. rewrite adjustSourceWeights_weights, Htg.
  apply Object_assign_present; [apply telegramWeights_keys_NoDup | exact Hin].
Qed.

Lemma telegram_lookup_frame env components key :
  detectTelegramEnvironment env = true ->
  key ∉ telegramWeights_entries.*1 ->
  _weights (adjustSourceWeights env components) !! key = baseWeights !! key.
Proof.
  intros Htg Hin. rewrite adjustSourceWeights_weights, Htg.
  apply Object_assign_absent. exact Hin.
Qed.

(** The context that [adjustSourceWeights] attaches is read off the bag and
    plays no part in the choice of the table: the gate is
    [detectTelegramEnvironment] alone. *)
Lemma weights_ignore_the_bag env components1 components2 :
  _weights (adjustSourceWeights env components1)
  = _weights (adjustSourceWeights env components2).
Proof. reflexivity. Qed.

(** C4. When the environment is not classified as the target WebView
    ([detectTelegramEnvironment] answers false), [adjustSourceWeights]
    attaches the baseline table unchanged. When it is, the override is
    applied key by key: a key of the override set takes exactly its
    override value, and every other key keeps exactly what the baseline
    table holds for it (its value, or no entry at all). *)
Theorem adjustSourceWeights_keywise (env : Env) (components : BuiltinComponents) :
  (detectTelegramEnvironment env = false ->
   _weights (adjustSourceWeights env components) = baseWeights)
  /\
  (detectTelegramEnvironment env = true ->
   forall key : string,
     (forall w : float, (key, w) ∈ telegramWeights_entries ->
                    _weights (adjustSourceWeights env components) !! key = Some w)
     /\
     (key ∉ telegramWeights_entries.*1 ->
      _weights (adjustSourceWeights env components) !! key = baseWeights !! key)).
Proof.
  split.
  - intros Hplain. rewrite adjustSourceWeights_weights, Hplain. reflexivity.
  - intros Htg key. split.
    + intros w. apply telegram_lookup_override. exact Htg.
    + apply telegram_lookup_frame. exact Htg.
Qed.

Lemma adjustSourceWeights_keywise_witness :
  detectTelegramEnvironment Samples.browser_env = false
  /\ _weights (adjustSourceWeights Samples.browser_env []) = baseWeights
  /\ detectTelegramEnvironment Samples.telegram_env = true
  /\ _weights (adjustSourceWeights Samples.telegram_env []) !! "canvas" = Some 0.4%float
  /\ _weights (adjustSourceWeights Samples.telegram_env []) !! "osCpu"
     = baseWeights !! "osCpu".
Proof.
  split; [reflexivity|]. split.
  { apply (adjustSourceWeights_keywise Samples.browser_env []). reflexivity. }
  split; [reflexivity|]. split.
  - apply (adjustSourceWeights_keywise Samples.telegram_env []); [reflexivity|].
    entry_here.
  - apply (adjustSourceWeights_keywise Samples.telegram_env []); [reflexivity|].
    apply absent_by_eqb. reflexivity.
Defined.

Ltac weight_shift Htg :=
  eexists _, _; split;
  [ apply telegram_lookup_override; [exact Htg | entry_here]
  | split; [ apply baseWeights_lookup; entry_here | reflexivity ] ].

(** C5. In the target (Telegram) environment the adapted table gives
    canvas and audio strictly smaller weights than the baseline table, and
    telegramWebApp, webView and behavioral strictly larger ones. *)
Theorem telegram_weights_shift (env : Env) (components : BuiltinComponents) :
  detectTelegramEnvironment env = true ->
  Spec.lowered (_weights (adjustSourceWeights env components)) baseWeights "canvas"
  /\ Spec.lowered (_weights (adjustSourceWeights env components)) baseWeights "audio"
  /\ Spec.raised (_weights (adjustSourceWeights env components)) baseWeights
                 "telegramWebApp"
  /\ Spec.raised (_weights (adjustSourceWeights env components)) baseWeights "webView"
  /\ Spec.raised (_weights (adjustSourceWeights env components)) baseWeights "behavioral".
Proof.
  intros Htg. repeat split; weight_shift Htg.
Qed.

Lemma telegram_weights_shift_witness :
  detectTelegramEnvironment Samples.telegram_env = true
  /\ Spec.lowered (_weights (adjustSourceWeights Samples.telegram_env []))
                  baseWeights "canvas"
  /\ Spec.raised (_weights (adjustSourceWeights Samples.telegram_env []))
                 baseWeights "behavioral".
Proof.
  split; [reflexivity|].
  split; apply (telegram_weights_shift Samples.telegram_env []); reflexivity.
Defined.

(** *** The confidence scorer *)

(** Case analysis on every test the scorer makes. *)
Ltac split_ifs :=
  repeat match goal with
         | |- context [if ?b then _ else _] => destruct b
         | |- context [match ?v with JString _ => _ | _ => _ end] => destruct v
         end.

(** The score is the clamp of one of finitely many sums. *)
Lemma score_shape env components :
  exists base b w h n : float, exists bonus : bool,
    (base = 0.5 \/ base = 0.5 + 0.1 \/ base = 0.5 + 0.05)
    /\ (b = 0.2 \/ b = 0) /\ (w = 0.25 \/ w = 0) /\ (h = 0.15 \/ h = 0)
    /\ (n = 0.1 \/ n = 0)
    /\ behavioralFactor (getEnhancedConfidenceScore env components) = b
    /\ webViewFactor (getEnhancedConfidenceScore env components) = w
    /\ hapticFactor (getEnhancedConfidenceScore env components) = h
    /\ networkFactor (getEnhancedConfidenceScore env components) = n
    /\ score (getEnhancedConfidenceScore env components)
       = Math_max 0.1
           (Math_min 0.9
              (if detectTelegramEnvironment env
               then (if bonus
                     then Math_min 0.9 (base + b + w + h + n) + 0.05
                     else Math_min 0.9 (base + b + w + h + n))
               else Math_min 0.85 (base + (b + n) * 0.5))).
Proof.
  unfold getEnhancedConfidenceScore. cbv zeta.
  cbn [score behavioralFactor webViewFactor hapticFactor networkFactor].
  match goal with
  | |- context [Math_min 0.9 (?B + ?Fb + ?Fw + ?Fh + ?Fn)] =>
      exists B, Fb, Fw, Fh, Fn
  end.
  match goal with
  | |- context [if ?c then (_ + 0.05) else _] => exists c
  end.
  repeat split; try (split_ifs; auto; fail).
Qed.

Lemma clamp_enumerated (base b w h n : float) (tg bonus : bool) :
  (base = 0.5 \/ base = 0.5 + 0.1 \/ base = 0.5 + 0.05) ->
  (b = 0.2 \/ b = 0) -> (w = 0.25 \/ w = 0) -> (h = 0.15 \/ h = 0) -> (n = 0.1 \/ n = 0) ->
  let v := Math_max 0.1
             (Math_min 0.9
                (if tg
                 then (if bonus
                       then Math_min 0.9 (base + b + w + h + n) + 0.05
                       else Math_min 0.9 (base + b + w + h + n))
                 else Math_min 0.85 (base + (b + n) * 0.5))) in
  (0.1 <=? v) = true /\ (v <=? 0.9) = true.
Proof.
  intros [-> | [-> | ->]] [-> | ->] [-> | ->] [-> | ->] [-> | ->];
    destruct tg, bonus; vm_compute; split; reflexivity.
Qed.

(** C2. For every component bag, whatever the shape of its components,
    the score that [getEnhancedConfidenceScore] returns lies in [0.1, 0.9];
    for the empty bag outside the target environment it is exactly 0.5. *)
Theorem confidence_score_clamped (env : Env) (components : BuiltinComponents) :
  ((0.1 <=? score (getEnhancedConfidenceScore env components)) = true
   /\ (score (getEnhancedConfidenceScore env components) <=? 0.9) = true)
  /\ (detectTelegramEnvironment env = false ->
      score (getEnhancedConfidenceScore env []) = 0.5).
Proof.
  split.
  - destruct (score_shape env components)
      as (base & b & w & h & n & bonus & Hbase & Hb & Hw & Hh & Hn & _ & _ & _ & _ & ->).
    by apply clamp_enumerated.
  - intros Hplain. unfold getEnhancedConfidenceScore. rewrite Hplain.
    vm_compute. reflexivity.
Qed.

Lemma confidence_score_clamped_witness :
  detectTelegramEnvironment Samples.browser_env = false
  /\ score (getEnhancedConfidenceScore Samples.browser_env []) = 0.5.
Proof.
  split; [reflexivity|].
  apply (confidence_score_clamped Samples.browser_env []). reflexivity.
Defined.

(** C9. For the bag {platform: "iPhone", timezone: "exists",
    behavioral: {touchPatterns: present}} in the target environment the
    scorer returns behavioralFactor 0.2, webViewFactor 0 and the score
    min(0.9, 0.6 + 0.2) = 0.8. *)
Theorem worked_example_score (env : Env) (present : JsValue) :
  detectTelegramEnvironment env = true ->
  truthy present = true ->
  behavioralFactor (getEnhancedConfidenceScore env (Samples.example_bag present)) = 0.2
  /\ webViewFactor (getEnhancedConfidenceScore env (Samples.example_bag present)) = 0
  /\ score (getEnhancedConfidenceScore env (Samples.example_bag present)) = 0.8
  /\ score (getEnhancedConfidenceScore env (Samples.example_bag present))
     = Math_min 0.9 (0.6 + 0.2).
Proof.
  intros Htg Hpresent.
  unfold getEnhancedConfidenceScore, extractTelegramContext, Samples.example_bag.
  rewrite Htg. cbn -[PrimFloat.add PrimFloat.mul Math_min Math_max].
  unfold or_else. rewrite Hpresent.
  cbn -[PrimFloat.add PrimFloat.mul Math_min Math_max]. rewrite Hpresent.
  repeat split.
Qed.

Lemma worked_example_score_witness :
  detectTelegramEnvironment Samples.telegram_env = true
  /\ truthy Samples.some_touch_pattern = true
  /\ score (getEnhancedConfidenceScore Samples.telegram_env
              (Samples.example_bag Samples.some_touch_pattern)) = 0.8.
Proof.
  split; [reflexivity|]. split; [reflexivity|].
  apply (worked_example_score Samples.telegram_env Samples.some_touch_pattern);
    reflexivity.
Defined.

(** Case analysis on everything [calculateStabilityScore] looks at. *)
Ltac stability_cases components ctx :=
  unfold calculateStabilityScore, Spec.structural_units;
  destruct (has_key "platform" components),
           (has_key "timezone" components),
           (has_key "hardwareConcurrency" components),
           (has_key "deviceMemory" components),
           (has_key "languages" components),
           (truthy (isTelegramWebView ctx)),
           (truthy (telegramVersion ctx)),
           (truthy (hasHapticFeedback ctx)).

(** C6. For every bag and context the stability score lies in [0, 1]. It
    is exactly 0.5 when none of the structural signals (platform, timezone,
    hardwareConcurrency together with deviceMemory, languages) is present
    and the context is not the target bridge. In the target-bridge context
    the denominator is the number of structural signals plus 1.5 and the
    numerator is that number plus 1.0 if a host version is present plus 0.5
    if haptic feedback is present. *)
Theorem stabilityScore_range (components : BuiltinComponents) (ctx : TelegramContext) :
  ((0 <=? calculateStabilityScore components ctx) = true
   /\ (calculateStabilityScore components ctx <=? 1) = true)
  /\ (truthy (isTelegramWebView ctx) = false ->
      Spec.no_structural_signal components ->
      calculateStabilityScore components ctx = 0.5)
  /\ (truthy (isTelegramWebView ctx) = true ->
      calculateStabilityScore components ctx =
      (Spec.structural_units components
       + (if truthy (telegramVersion ctx) then 1.0 else 0)
       + (if truthy (hasHapticFeedback ctx) then 0.5 else 0))
      / (Spec.structural_units components + 1.5)).
Proof.
  split; [|split].
  - stability_cases components ctx; vm_compute; split; reflexivity.
  - intros Hctx (Hp & Ht & Hh & Hl).
    unfold calculateStabilityScore. rewrite Hctx, Hp, Ht, Hh, Hl. reflexivity.
  - intros Hctx. revert Hctx.
    stability_cases components ctx; intros Hctx; try discriminate Hctx;
      vm_compute; reflexivity.
Qed.

(** The scorer reports the stability score of the bag under the context it
    extracts from the bag. *)
Lemma stabilityScore_reported (env : Env) (components : BuiltinComponents) :
  stabilityScore (getEnhancedConfidenceScore env components)
  = calculateStabilityScore components (extractTelegramContext components).
Proof. reflexivity. Qed.

Lemma stabilityScore_range_witness :
  truthy (isTelegramWebView (extractTelegramContext [])) = false
  /\ Spec.no_structural_signal []
  /\ calculateStabilityScore [] (extractTelegramContext []) = 0.5
  /\ truthy (isTelegramWebView (extractTelegramContext Samples.telegram_bag)) = true
  /\ calculateStabilityScore Samples.telegram_bag
       (extractTelegramContext Samples.telegram_bag) = (2 + 1.0 + 0) / (2 + 1.5).
Proof.
  split; [reflexivity|]. split; [repeat split|]. split.
  - apply (stabilityScore_range [] (extractTelegramContext [])); [reflexivity | repeat split].
  - split; [reflexivity|].
    rewrite (proj2 (proj2 (stabilityScore_range Samples.telegram_bag
                             (extractTelegramContext Samples.telegram_bag))) eq_refl).
    vm_compute. reflexivity.
Defined.

(** *** The fingerprint synthesizer *)

Lemma iter_push {A : Type} (n : nat) (token : A) (inputs : list A) :
  Nat.iter n (fun inputs => inputs ++ [token]) inputs = inputs ++ replicate n token.
Proof.
  induction n as [|n IH]; simpl.
  - by rewrite app_nil_r.
  - rewrite IH, <- app_assoc. f_equal.
    clear IH. induction n as [|n IH]; simpl; [done|]. by rewrite IH.
Qed.

Lemma entries_nonzero (entries : list (string * float)) :
  forallb (fun kv => negb (is_falsy_number kv.2)) entries = true ->
  forall key w, (key, w) ∈ entries -> is_falsy_number w = false.
Proof.
  rewrite forallb_forall. intros Hall key w Hin%list_elem_of_In.
  apply negb_true_iff, (Hall (key, w) Hin).
Qed.

(** No weight of either table is zero or [NaN], so [weights[key] || 1.0] falls back
    to 1.0 only for a key the table lacks. *)
Lemma weights_never_zero env components key w :
  _weights (adjustSourceWeights env components) !! key = Some w -> is_falsy_number w = false.
Proof.
  rewrite adjustSourceWeights_weights.
  assert (Hbase : baseWeights !! key = Some w -> is_falsy_number w = false).
  { intros [Hin|Hempty]%Object_assign_origin.
    - apply (entries_nonzero baseWeights_entries) in Hin; [exact Hin | reflexivity].
    - rewrite lookup_empty in Hempty. discriminate Hempty. }
  destruct (detectTelegramEnvironment env); [|exact Hbase].
  intros [Hin|Hb]%Object_assign_origin; [|apply Hbase, Hb].
  apply (entries_nonzero telegramWeights_entries) in Hin; [exact Hin | reflexivity].
Qed.

Lemma entries_not_inherited (entries : list (string * float)) :
  forallb (fun kv => negb (inherited kv.1)) entries = true ->
  forall key w, (key, w) ∈ entries -> inherited key = false.
Proof.
  rewrite forallb_forall. intros Hall key w Hin%list_elem_of_In.
  apply negb_true_iff, (Hall (key, w) Hin).
Qed.

(** Neither table has a key that names a member of [Object.prototype]. *)
Lemma weights_not_inherited env components key w :
  _weights (adjustSourceWeights env components) !! key = Some w -> inherited key = false.
Proof.
  rewrite adjustSourceWeights_weights.
  assert (Hbase : baseWeights !! key = Some w -> inherited key = false).
  { intros [Hin|Hempty]%Object_assign_origin.
    - apply (entries_not_inherited baseWeights_entries) in Hin; [exact Hin | reflexivity].
    - rewrite lookup_empty in Hempty. discriminate Hempty. }
  destruct (detectTelegramEnvironment env); [|exact Hbase].
  intros [Hin|Hb]%Object_assign_origin; [|apply Hbase, Hb].
  apply (entries_not_inherited telegramWeights_entries) in Hin; [exact Hin | reflexivity].
Qed.

Lemma weights_inherited_absent env components key :
  inherited key = true -> _weights (adjustSourceWeights env components) !! key = None.
Proof.
  intros Hkey. destruct (_ !! key) as [w|] eqn:Hw; [|reflexivity].
  apply weights_not_inherited in Hw. congruence.
Qed.

Lemma entries_scaled (entries : list (string * float)) :
  forallb (fun kv => negb (PrimFloat.is_nan (kv.2 * 10))) entries = true ->
  forall key w, (key, w) ∈ entries -> PrimFloat.is_nan (w * 10) = false.
Proof.
  rewrite forallb_forall. intros Hall key w Hin%list_elem_of_In.
  apply negb_true_iff, (Hall (key, w) Hin).
Qed.

(** Ten times a weight of either table is a number. *)
Lemma weights_scaled env components key w :
  _weights (adjustSourceWeights env components) !! key = Some w ->
  PrimFloat.is_nan (w * 10) = false.
Proof.
  rewrite adjustSourceWeights_weights.
  assert (Hbase : baseWeights !! key = Some w -> PrimFloat.is_nan (w * 10) = false).
  { intros [Hin|Hempty]%Object_assign_origin.
    - apply (entries_scaled baseWeights_entries) in Hin; [exact Hin | reflexivity].
    - rewrite lookup_empty in Hempty. discriminate Hempty. }
  destruct (detectTelegramEnvironment env); [|exact Hbase].
  intros [Hin|Hb]%Object_assign_origin; [|apply Hbase, Hb].
  apply (entries_scaled telegramWeights_entries) in Hin; [exact Hin | reflexivity].
Qed.

Section Tokens.
Context `{Host}.
Variable weights : gmap string float.

(** One turn of the loop appends the tokens of its entry. *)
Lemma push_component_tokens inputs entry :
  push_component weights inputs entry = inputs ++ push_component weights [] entry.
Proof.
  destruct entry as [key component]. unfold push_component.
  destruct (startsWith key "_"); [by rewrite app_nil_r|].
  by rewrite !iter_push.
Qed.

Lemma fold_push_components entries inputs :
  fold_left (push_component weights) entries inputs
  = inputs ++ flat_map (push_component weights []) entries.
Proof.
  revert inputs. induction entries as [|entry entries IH]; intros inputs.
  - cbn [fold_left flat_map]. by rewrite app_nil_r.
  - cbn [fold_left flat_map]. by rewrite IH, push_component_tokens, <- app_assoc.
Qed.

(** An entry under a reserved key adds no token. *)
Lemma push_component_reserved entry :
  startsWith entry.1 "_" = true -> push_component weights [] entry = [].
Proof.
  destruct entry as [key component]. cbn [fst]. intros Hkey.
  unfold push_component. by rewrite Hkey.
Qed.

(** An entry whose key the table lacks and [Object.prototype] has adds no
    token. *)
Lemma push_component_inherited entry :
  weights !! entry.1 = None -> inherited entry.1 = true ->
  push_component weights [] entry = [].
Proof.
  destruct entry as [key component]. cbn [fst]. intros Hown Hkey.
  unfold push_component, weight_or_default. rewrite Hown, Hkey.
  by destruct (startsWith key "_").
Qed.

Hypothesis weights_nonzero : forall k w, weights !! k = Some w -> is_falsy_number w = false.
Hypothesis weights_numbers : forall k w, weights !! k = Some w -> PrimFloat.is_nan (w * 10) = false.

(** For any other entry the loop adds what the specification prescribes. *)
Lemma push_component_contribution entry :
  weights !! entry.1 <> None \/ inherited entry.1 = false ->
  push_component weights [] entry = Spec.contribution weights entry.
Proof.
  destruct entry as [key component]. cbn [fst]. intros Hkey.
  unfold push_component, Spec.contribution, weight_or_default, Spec.resolved_weight.
  cbn [fst snd]. destruct (startsWith key "_"); [reflexivity|].
  rewrite iter_push. cbn [app]. f_equal.
  destruct (weights !! key) as [w|] eqn:Hw; cbn [default].
  - rewrite (weights_nonzero _ _ Hw). unfold turns.
    by rewrite (weights_numbers _ _ Hw).
  - destruct Hkey as [Hown | ->]; [by destruct Hown | reflexivity].
Qed.

Lemma tokens_contribution entries :
  forallb (fun entry => negb (inherited entry.1)) entries = true ->
  flat_map (push_component weights []) entries
  = flat_map (Spec.contribution weights) entries.
Proof.
  induction entries as [|entry entries IH]; [reflexivity|].
  cbn [forallb flat_map]. intros [Hkey Hrest]%andb_true_iff.
  rewrite (IH Hrest), push_component_contribution; [reflexivity|].
  right. by apply negb_true_iff.
Qed.

End Tokens.

Section Synthesis.
Context `{Host}.

(** The token list, entry by entry of the bag, followed by the three
    context tokens. *)
Lemma weightedInputs_tokens (env : Env) (components : BuiltinComponents) :
  weightedInputs_of env components =
  flat_map (push_component (_weights (adjustSourceWeights env components)) []) components
  ++ [ "telegram:" +:+ ToString (isTelegramWebView (extractTelegramContext components));
       "version:" +:+ ToString (or_else (telegramVersion (extractTelegramContext components))
                                        (JString "unknown"));
       "webview:" +:+ ToString (webViewType (extractTelegramContext components)) ].
Proof. unfold weightedInputs_of. by rewrite fold_push_components. Qed.

(** On a bag none of whose keys names a member of [Object.prototype] the
    token list is the one the specification prescribes. *)
Lemma weighted_tokens_agree (env : Env) (components : BuiltinComponents) :
  forallb (fun entry => negb (inherited entry.1)) components = true ->
  weightedInputs_of env components =
  flat_map (Spec.contribution (_weights (adjustSourceWeights env components))) components
  ++ [ "telegram:" +:+ ToString (isTelegramWebView (extractTelegramContext components));
       "version:" +:+ ToString (or_else (telegramVersion (extractTelegramContext components))
                                        (JString "unknown"));
       "webview:" +:+ ToString (webViewType (extractTelegramContext components)) ].
Proof.
  intros Hkeys. rewrite weightedInputs_tokens. f_equal.
  apply tokens_contribution; [apply weights_never_zero | apply weights_scaled | exact Hkeys].
Qed.

(** C3. The synthesizer does not give every key outside the reserved ones
    its max(1, round(weight * 10)) tokens. For the bag with the one key
    [constructor], which neither table lists, the specification prescribes
    ten copies of the token (weight 1.0 by default), but the token list
    holds the three context tokens only: [weights[key]] finds the function
    inherited from [Object.prototype], which is truthy, so the default is
    not taken; ten times it is NaN, so is the number of repetitions, and the
    loop does not run. *)
Theorem prototype_key_emits_no_token (env : Env) :
  weightedInputs_of env [("constructor", JString "x")]
  = [ "telegram:false"; "version:unknown"; "webview:unknown" ]%string
  /\ Spec.contribution (_weights (adjustSourceWeights env [("constructor", JString "x")]))
       ("constructor", JString "x")
     = replicate 10 "constructor:x"%string.
Proof.
  pose proof (weights_inherited_absent env [("constructor", JString "x")] "constructor"
                eq_refl) as Hown.
  split.
  - rewrite weightedInputs_tokens. cbn [flat_map].
    rewrite (push_component_inherited _ ("constructor", JString "x") Hown eq_refl).
    reflexivity.
  - unfold Spec.contribution, Spec.resolved_weight. cbn [fst snd]. rewrite Hown.
    reflexivity.
Qed.

(** The token list depends on the environment through
    [detectTelegramEnvironment] only. *)
Lemma weightedInputs_env env1 env2 components :
  detectTelegramEnvironment env1 = detectTelegramEnvironment env2 ->
  weightedInputs_of env1 components = weightedInputs_of env2 components.
Proof.
  intros Henv. unfold weightedInputs_of.
  assert (Hw : _weights (adjustSourceWeights env1 components)
               = _weights (adjustSourceWeights env2 components)).
  { rewrite !adjustSourceWeights_weights, Henv. reflexivity. }
  rewrite Hw. reflexivity.
Qed.

End Synthesis.

(** *** The definitions at work *)

Example simpleHash_abc : simpleHash "abc" = "17862"%string.
Proof. vm_compute. reflexivity. Qed.

Example simpleHash_empty : simpleHash "" = "0"%string.
Proof. vm_compute. reflexivity. Qed.

Example example_bag_token_count :
  length (weightedInputs_of (H := Samples.sample_host) Samples.telegram_env
            (Samples.example_bag JNull)) = (13 + 14 + 22 + 3)%nat.
Proof. vm_compute. reflexivity. Qed.

Example example_bag_digest :
  generateTelegramSpecificFingerprint (H := Samples.sample_host) Samples.telegram_env
    (Samples.example_bag JNull) = "356d72b3"%string.
Proof. vm_compute. reflexivity. Qed.

Example reserved_key_is_skipped :
  weightedInputs_of (H := Samples.sample_host) Samples.browser_env
    [("_weights", JNull); ("plugins", JArray [JString "pdf"; JNull])]
  = replicate 10 ("plugins:[" +:+ json_quote "pdf" +:+ ",null]")
    ++ ["telegram:false"%string; "version:unknown"%string; "webview:unknown"%string].
Proof. vm_compute. reflexivity. Qed.

End StrategyFacts.

(* ================================================================== *)
(** ** Facts about the strategy on the store *)
(* ================================================================== *)

Module StoreFacts.
Import Js TelegramStrategy StrategyStore.
Import StrategyFacts.

(** *** The steps of a computation *)

Lemma bind_assoc {A B C : Type} (m : M A) (f : A -> M B) (g : B -> M C) (store : Store) :
  bind (bind m f) g store = bind m (fun a => bind (f a) g) store.
Proof. unfold bind. by destruct (m store) as [[a store']|]. Qed.

Lemma bind_ret {A B : Type} (a : A) (k : A -> M B) (store : Store) :
  bind (ret a) k store = k a store.
Proof. reflexivity. Qed.

Lemma bind_alloc {B : Type} (c : Cell) (k : loc -> M B) (store : Store) :
  bind (alloc c) k store = k (fresh (dom store)) (<[fresh (dom store) := c]> store).
Proof. reflexivity. Qed.

Lemma bind_read {B : Type} (l : loc) (c : Cell) (k : Cell -> M B) (store : Store) :
  store !! l = Some c -> bind (read l) k store = k c store.
Proof. intros Hl. unfold bind, read. by rewrite Hl. Qed.

Lemma bind_write {B : Type} (l : loc) (c old : Cell) (k : unit -> M B) (store : Store) :
  store !! l = Some old -> bind (write l c) k store = k tt (<[l := c]> store).
Proof. intros Hl. unfold bind, write. by rewrite Hl. Qed.

Lemma bind_read_bag {B : Type} l entries (k : BuiltinComponents -> M B) store :
  store !! l = Some (BagCell entries) -> bind (read_bag l) k store = k entries store.
Proof. intros Hl. unfold read_bag. by rewrite bind_assoc, (bind_read _ _ _ _ Hl). Qed.

Lemma bind_read_weights {B : Type} l weights (k : gmap string float -> M B) store :
  store !! l = Some (WeightsCell weights) -> bind (read_weights l) k store = k weights store.
Proof. intros Hl. unfold read_weights. by rewrite bind_assoc, (bind_read _ _ _ _ Hl). Qed.

Lemma bind_read_context {B : Type} l context (k : TelegramContext -> M B) store :
  store !! l = Some (ContextCell context) -> bind (read_context l) k store = k context store.
Proof. intros Hl. unfold read_context. by rewrite bind_assoc, (bind_read _ _ _ _ Hl). Qed.

Lemma bind_read_array {B : Type} l items (k : list string -> M B) store :
  store !! l = Some (ArrayCell items) -> bind (read_array l) k store = k items store.
Proof. intros Hl. unfold read_array. by rewrite bind_assoc, (bind_read _ _ _ _ Hl). Qed.

Lemma bind_push {B : Type} l items item (k : unit -> M B) store :
  store !! l = Some (ArrayCell items) ->
  bind (push l item) k store = k tt (<[l := ArrayCell (items ++ [item])]> store).
Proof.
  intros Hl. unfold push.
  by rewrite bind_assoc, (bind_read_array _ _ _ _ Hl), (bind_write _ _ _ _ _ Hl).
Qed.

(** The address [alloc] picks is not in use. *)
Lemma fresh_unused (store : Store) : store !! fresh (dom store) = None.
Proof. apply not_elem_of_dom, is_fresh. Qed.

Lemma used_not_fresh (store : Store) (l : loc) (c : Cell) :
  store !! l = Some c -> l <> fresh (dom store).
Proof. intros Hl ->. by rewrite fresh_unused in Hl. Qed.

(** *** The loops *)

Lemma bind_repeat_push {B : Type} n l items item (k : unit -> M B) store :
  store !! l = Some (ArrayCell items) ->
  bind (repeat_m n (push l item)) k store
  = k tt (<[l := ArrayCell (Nat.iter n (fun inputs => inputs ++ [item]) items)]> store).
Proof.
  revert items store. induction n as [|n IH]; intros items store Hl.
  - cbn [repeat_m Nat.iter nat_rect]. by rewrite bind_ret, insert_id.
  - cbn [repeat_m]. rewrite bind_assoc, (bind_push _ _ _ _ _ Hl).
    rewrite (IH (items ++ [item])) by apply lookup_insert_eq.
    rewrite insert_insert_eq. by rewrite Nat.iter_succ_r.
Qed.

Section Loop.
Context `{Host}.

Lemma bind_push_component {B : Type} lw la weights items entry (k : unit -> M B) store :
  la <> lw ->
  store !! lw = Some (WeightsCell weights) ->
  store !! la = Some (ArrayCell items) ->
  bind (push_component_m lw la entry) k store
  = k tt (<[la := ArrayCell (push_component weights items entry)]> store).
Proof.
  intros Hne Hw Ha. destruct entry as [key component].
  unfold push_component_m, push_component.
  destruct (startsWith key "_").
  - by rewrite bind_ret, insert_id.
  - rewrite bind_assoc, (bind_read_weights _ _ _ _ Hw).
    by rewrite (bind_repeat_push _ _ _ _ _ _ Ha).
Qed.

Lemma bind_for_each {B : Type} lw la weights entries items (k : unit -> M B) store :
  la <> lw ->
  store !! lw = Some (WeightsCell weights) ->
  store !! la = Some (ArrayCell items) ->
  bind (for_each entries (push_component_m lw la)) k store
  = k tt (<[la := ArrayCell (fold_left (push_component weights) entries items)]> store).
Proof.
  intros Hne. revert items store.
  induction entries as [|entry entries IH]; intros items store Hw Ha.
  - cbn [for_each fold_left]. by rewrite bind_ret, insert_id.
  - cbn [for_each fold_left].
    rewrite bind_assoc, (bind_push_component _ _ _ _ _ _ _ Hne Hw Ha).
    rewrite (IH (push_component weights items entry)).
    + by rewrite insert_insert_eq.
    + by rewrite lookup_insert_ne.
    + apply lookup_insert_eq.
Qed.

End Loop.

(** *** What a call leaves in the store *)

Lemma bind_runs {A B : Type} (m : M A) (k : A -> M B) store a store' :
  m store = Some (a, store') -> bind m k store = k a store'.
Proof. intros Hm. unfold bind. by rewrite Hm. Qed.

Lemma foldl_insert_union (entries : list (string * float)) (a b : gmap string float) :
  foldl (fun o kv => <[kv.1 := kv.2]> o) (a ∪ b) entries
  = foldl (fun o kv => <[kv.1 := kv.2]> o) a entries ∪ b.
Proof.
  revert a. induction entries as [|kv entries IH]; intros a; [reflexivity|].
  cbn [foldl]. by rewrite insert_union_l, IH.
Qed.

(** Writing the entries of a literal into a record, one by one, overlays
    the record with the literal. *)
Lemma Object_assign_union (target : gmap string float) (entries : list (string * float)) :
  Object_assign target entries = record_literal entries ∪ target.
Proof.
  unfold Object_assign, record_literal.
  by rewrite <- foldl_insert_union, (left_id ∅ (∪)).
Qed.

Lemma adjustSourceWeights_m_runs (env : Env) (store : Store) (bag : loc)
    (entries : BuiltinComponents) :
  store !! bag = Some (BagCell entries) ->
  exists enhanced weights context store',
    adjustSourceWeights_m env bag store = Some (enhanced, store')
    /\ store ⊆ store'
    /\ store' !! enhanced = Some (EnhancedCell entries weights context)
    /\ store' !! weights
       = Some (WeightsCell (_weights (adjustSourceWeights env entries)))
    /\ store' !! context = Some (ContextCell (extractTelegramContext entries)).
Proof.
  intros Hbag. rewrite adjustSourceWeights_weights, Object_assign_union.
  unfold adjustSourceWeights_m, baseWeights. cbv zeta.
  generalize (record_literal baseWeights_entries) as base.
  generalize (record_literal telegramWeights_entries) as overlay.
  intros overlay base.
  rewrite bind_alloc.
  set (l1 := fresh (dom store)).
  assert (Hl1 : store !! l1 = None) by apply fresh_unused.
  set (store1 := <[l1 := WeightsCell base]> store).
  assert (Hsub1 : store ⊆ store1) by by apply insert_subseteq.
  assert (Hw1 : store1 !! l1 = Some (WeightsCell base)) by apply lookup_insert_eq.
  assert (Hstep :
    exists store2,
      store ⊆ store2
      /\ store2 !! l1
         = Some (WeightsCell (if detectTelegramEnvironment env then overlay ∪ base else base))
      /\ forall B (k : unit -> M B),
           bind (if detectTelegramEnvironment env
                 then bind (alloc (WeightsCell overlay))
                           (fun telegramWeights => Object_assign_m l1 telegramWeights)
                 else ret tt) k store1
           = k tt store2).
  { destruct (detectTelegramEnvironment env).
    - set (l2 := fresh (dom store1)).
      assert (Hl2 : store1 !! l2 = None) by apply fresh_unused.
      assert (Hne : l1 <> l2) by (intros Heq; rewrite Heq in Hw1; congruence).
      exists (<[l1 := WeightsCell (overlay ∪ base)]> (<[l2 := WeightsCell overlay]> store1)).
      split; [|split].
      + apply insert_subseteq_r; [exact Hl1|].
        transitivity store1; [exact Hsub1 | by apply insert_subseteq].
      + apply lookup_insert_eq.
      + intros B k. rewrite bind_assoc, bind_alloc. fold l2. unfold Object_assign_m.
        rewrite bind_assoc, (bind_read_weights l2 overlay) by apply lookup_insert_eq.
        rewrite bind_assoc, (bind_read_weights l1 base)
          by (rewrite lookup_insert_ne by (intros Heq; by apply Hne); exact Hw1).
        rewrite (bind_write l1 _ (WeightsCell base))
          by (rewrite lookup_insert_ne by (intros Heq; by apply Hne); exact Hw1).
        reflexivity.
    - exists store1. split; [exact Hsub1|]. split; [exact Hw1|].
      intros B k. by rewrite bind_ret. }
  destruct Hstep as (store2 & Hsub2 & Hw2 & Hstep). rewrite Hstep.
  assert (Hbag2 : store2 !! bag = Some (BagCell entries))
    by exact (lookup_weaken _ _ _ _ Hbag Hsub2).
  unfold extractTelegramContext_m.
  rewrite bind_assoc, (bind_read_bag _ _ _ _ Hbag2), bind_alloc.
  set (l3 := fresh (dom store2)).
  assert (Hl3 : store2 !! l3 = None) by apply fresh_unused.
  set (store3 := <[l3 := ContextCell (extractTelegramContext entries)]> store2).
  assert (Hsub3 : store2 ⊆ store3) by by apply insert_subseteq.
  rewrite (bind_read_bag bag entries) by exact (lookup_weaken _ _ _ _ Hbag2 Hsub3).
  set (l4 := fresh (dom store3)).
  assert (Hl4 : store3 !! l4 = None) by apply fresh_unused.
  exists l4, l1, l3, (<[l4 := EnhancedCell entries l1 l3]> store3).
  split; [reflexivity|].
  assert (Hsub4 : store3 ⊆ <[l4 := EnhancedCell entries l1 l3]> store3)
    by by apply insert_subseteq.
  split; [by do 2 (etransitivity; [eassumption|])|].
  split; [apply lookup_insert_eq|].
  split.
  - apply (lookup_weaken store2); [exact Hw2 | by etransitivity].
  - apply (lookup_weaken store3); [apply lookup_insert_eq | exact Hsub4].
Qed.

Section Calls.
Context `{Host}.

(** A call of [generateTelegramSpecificFingerprint] on a bag of the store
    returns, and what it returns is the digest of the bag's entries; every
    object the store held before the call is as it was. *)
Lemma generateTelegramSpecificFingerprint_m_runs (env : Env) (store : Store) (bag : loc)
    (entries : BuiltinComponents) :
  store !! bag = Some (BagCell entries) ->
  exists store',
    generateTelegramSpecificFingerprint_m env bag store
    = Some (generateTelegramSpecificFingerprint env entries, store')
    /\ store ⊆ store'.
Proof.
  intros Hbag.
  destruct (adjustSourceWeights_m_runs env store bag entries Hbag)
    as (enhanced & weights & context & store1 & Hrun & Hsub1 & Henhanced & Hweights
        & Hcontext).
  unfold generateTelegramSpecificFingerprint_m.
  rewrite (bind_runs _ _ _ _ _ Hrun), (bind_read _ _ _ _ Henhanced), bind_alloc.
  set (array := fresh (dom store1)).
  assert (Harray : store1 !! array = None) by apply fresh_unused.
  set (store2 := <[array := ArrayCell []]> store1).
  assert (Hbag1 : store1 !! bag = Some (BagCell entries))
    by exact (lookup_weaken _ _ _ _ Hbag Hsub1).
  assert (Hother : forall l c, store1 !! l = Some c -> array <> l)
    by (intros l c Hl Heq; rewrite Heq in Harray; congruence).
  rewrite (bind_read_bag bag entries)
    by (unfold store2; rewrite lookup_insert_ne by exact (Hother _ _ Hbag1); exact Hbag1).
  rewrite (bind_for_each weights array (_weights (adjustSourceWeights env entries))
             entries []);
    [ | exact (Hother _ _ Hweights)
      | unfold store2; rewrite lookup_insert_ne by exact (Hother _ _ Hweights);
        exact Hweights
      | apply lookup_insert_eq ].
  unfold store2. rewrite insert_insert_eq.
  rewrite (bind_read_context context (extractTelegramContext entries))
    by (rewrite lookup_insert_ne by exact (Hother _ _ Hcontext); exact Hcontext).
  erewrite (bind_push array) by apply lookup_insert_eq. rewrite insert_insert_eq.
  erewrite (bind_push array) by apply lookup_insert_eq. rewrite insert_insert_eq.
  erewrite (bind_push array) by apply lookup_insert_eq. rewrite insert_insert_eq.
  erewrite (bind_read_array array) by apply lookup_insert_eq.
  eexists. split.
  - unfold ret, generateTelegramSpecificFingerprint, weightedInputs_of.
    rewrite <- !app_assoc. reflexivity.
  - apply insert_subseteq_r; [|exact Hsub1].
    exact (lookup_weaken_None _ _ _ Harray Hsub1).
Qed.

(** C1. Two invocations of [generateTelegramSpecificFingerprint] on the
    same bag in the same environment return the same digest string. The
    first invocation returns a digest and leaves every object the store
    held, the bag among them, as it was; the second invocation, made in the
    store the first one left, returns that digest again. The same digest is
    returned from any other store that holds a bag with the same entries in
    the same order (another process), in any environment of the same
    classification. It is the digest of the entries alone. *)
Theorem fingerprint_deterministic (env : Env) (store : Store) (bag : loc)
    (entries : BuiltinComponents) :
  store !! bag = Some (BagCell entries) ->
  exists digest store1 store2,
    generateTelegramSpecificFingerprint_m env bag store = Some (digest, store1)
    /\ generateTelegramSpecificFingerprint_m env bag store1 = Some (digest, store2)
    /\ store ⊆ store1
    /\ store1 !! bag = Some (BagCell entries)
    /\ digest = generateTelegramSpecificFingerprint env entries
    /\ forall (env' : Env) (other : Store) (bag' : loc),
         detectTelegramEnvironment env' = detectTelegramEnvironment env ->
         other !! bag' = Some (BagCell entries) ->
         exists other',
           generateTelegramSpecificFingerprint_m env' bag' other = Some (digest, other').
Proof.
  intros Hbag.
  destruct (generateTelegramSpecificFingerprint_m_runs env store bag entries Hbag)
    as (store1 & Hfirst & Hsub).
  assert (Hbag1 : store1 !! bag = Some (BagCell entries))
    by exact (lookup_weaken _ _ _ _ Hbag Hsub).
  destruct (generateTelegramSpecificFingerprint_m_runs env store1 bag entries Hbag1)
    as (store2 & Hsecond & _).
  exists (generateTelegramSpecificFingerprint env entries), store1, store2.
  repeat match goal with |- _ /\ _ => split end; try assumption; [reflexivity|].
  intros env' other bag' Henv Hother.
  destruct (generateTelegramSpecificFingerprint_m_runs env' other bag' entries Hother)
    as (other' & Hrun & _).
  exists other'. rewrite Hrun. do 2 f_equal.
  unfold generateTelegramSpecificFingerprint.
  by rewrite (weightedInputs_env env' env entries Henv).
Qed.

End Calls.

Lemma fingerprint_deterministic_witness :
  exists digest store1 store2,
    generateTelegramSpecificFingerprint_m (H := Samples.sample_host) Samples.telegram_env
      1%positive {[ 1%positive := BagCell Samples.telegram_bag ]}
    = Some (digest, store1)
    /\ generateTelegramSpecificFingerprint_m (H := Samples.sample_host)
         Samples.telegram_env 1%positive store1
       = Some (digest, store2).
Proof.
  assert (Hbag : ({[ 1%positive := BagCell Samples.telegram_bag ]} : Store) !! 1%positive
                 = Some (BagCell Samples.telegram_bag))
    by (vm_compute; reflexivity).
  destruct (fingerprint_deterministic (H := Samples.sample_host) Samples.telegram_env
              {[ 1%positive := BagCell Samples.telegram_bag ]} 1%positive
              Samples.telegram_bag Hbag)
    as (digest & store1 & store2 & Hfirst & Hsecond & _).
  exists digest, store1, store2. split; [exact Hfirst | exact Hsecond].
Defined.

(** The synthesizer run on a store, twice in a row. *)
Example two_calls_in_a_row :
  (digest1 ← fst <$> generateTelegramSpecificFingerprint_m (H := Samples.sample_host)
                       Samples.telegram_env 1%positive
                       {[ 1%positive := BagCell (Samples.example_bag JNull) ]};
   store1 ← snd <$> generateTelegramSpecificFingerprint_m (H := Samples.sample_host)
                      Samples.telegram_env 1%positive
                      {[ 1%positive := BagCell (Samples.example_bag JNull) ]};
   digest2 ← fst <$> generateTelegramSpecificFingerprint_m (H := Samples.sample_host)
                       Samples.telegram_env 1%positive store1;
   Some (digest1, digest2, size store1))
  = Some ("356d72b3"%string, "356d72b3"%string, 6%nat).
Proof. vm_compute. reflexivity. Qed.

End StoreFacts.

(* ================================================================== *)
(** ** Facts about the behavioural collector *)
(* ================================================================== *)

Module BehavioralFacts.
Import Js Behavioral.

(** *** A request while a collection runs *)

(** C7. A call of [getBehavioralFingerprint] made while a collection is
    active returns at once a resolved promise (never a rejected one) whose
    five feature groups are null and whose isCollecting flag is true, and
    it leaves the module state, hence the touch, scroll and motion data
    gathered so far, as it was. *)
Theorem request_while_collecting (st : State) (c : BehavioralCollector) :
  behavioralCollector st = Some c ->
  exists fp : BehavioralFingerprint,
    getBehavioralFingerprint st = (Resolved fp, st)
    /\ touchPatterns fp = None
    /\ scrollBehavior fp = None
    /\ timingFingerprint fp = None
    /\ interactionRhythm fp = None
    /\ motionSignature fp = None
    /\ isCollecting fp = true
    /\ behavioralCollector (getBehavioralFingerprint st).2 = Some c.
Proof.
  intros Hc. exists busy. unfold getBehavioralFingerprint. rewrite Hc.
  repeat split. exact Hc.
Qed.

Lemma request_while_collecting_witness :
  behavioralCollector (getBehavioralFingerprint initial).2
  = Some {| touchData := []; scrollData := []; motionData := []; isActive := true |}
  /\ exists fp : BehavioralFingerprint,
       getBehavioralFingerprint (getBehavioralFingerprint initial).2
       = (Resolved fp, (getBehavioralFingerprint initial).2)
       /\ isCollecting fp = true.
Proof.
  split; [reflexivity|].
  destruct (request_while_collecting (getBehavioralFingerprint initial).2
              {| touchData := []; scrollData := []; motionData := []; isActive := true |}
              eq_refl)
    as (fp & Hret & _ & _ & _ & _ & _ & Hflag & _).
  exists fp. split; [exact Hret | exact Hflag].
Defined.

(** The fingerprint the timer delivers is the same whether or not a second
    request came in meanwhile. *)
Lemma second_request_is_invisible `{Host} (st : State) (c : BehavioralCollector)
    (rng : Rng) :
  behavioralCollector st = Some c ->
  timer_fires (getBehavioralFingerprint st).2 rng = timer_fires st rng.
Proof. intros Hc. unfold getBehavioralFingerprint. rewrite Hc. reflexivity. Qed.

(** *** When a feature group is null *)

Section Features.
Context `{Host}.

Ltac split_pairs :=
  repeat match goal with |- context [let '(_, _) := ?p in _] => destruct p end.

Lemma analyzeTouchPatterns_null c :
  analyzeTouchPatterns c = None <-> flat_map touches (touchData c) = [].
Proof.
  unfold analyzeTouchPatterns.
  destruct (touchData c) as [|e es] eqn:Hd; [done|].
  cbn [length Nat.eqb].
  destruct (flat_map touches (e :: es)) as [|t ts] eqn:Hf; [done|].
  cbn [length Nat.eqb]. split_pairs. split; discriminate.
Qed.

Lemma analyzeScrollBehavior_null c rng :
  (analyzeScrollBehavior c rng).1 = None <-> (length (scrollData c) < 2)%nat.
Proof.
  unfold analyzeScrollBehavior.
  destruct (length (scrollData c) <? 2)%nat eqn:Hlen.
  - apply Nat.ltb_lt in Hlen. done.
  - apply Nat.ltb_ge in Hlen. split_pairs. simpl. split; [discriminate | lia].
Qed.

Lemma analyzeTimingPatterns_null c rng :
  (analyzeTimingPatterns c rng).1 = None <-> touchData c = [].
Proof.
  unfold analyzeTimingPatterns.
  destruct (touchData c) as [|e es]; [done|]. cbn [length Nat.eqb].
  split_pairs. simpl. split; discriminate.
Qed.

Lemma analyzeInteractionRhythm_null c :
  analyzeInteractionRhythm c = None <-> touchData c = [].
Proof.
  unfold analyzeInteractionRhythm.
  destruct (touchData c) as [|e es]; [done|]. cbn [length Nat.eqb].
  split; discriminate.
Qed.

Lemma analyzeMotionSignature_null c :
  analyzeMotionSignature c = None <-> motionData c = [].
Proof.
  unfold analyzeMotionSignature.
  destruct (motionData c) as [|e es]; [done|]. cbn [length Nat.eqb].
  split; discriminate.
Qed.

Lemma generateFingerprint_groups c rng :
  touchPatterns (generateFingerprint c rng).1 = analyzeTouchPatterns c
  /\ scrollBehavior (generateFingerprint c rng).1 = (analyzeScrollBehavior c rng).1
  /\ (exists rng', timingFingerprint (generateFingerprint c rng).1
                   = (analyzeTimingPatterns c rng').1)
  /\ interactionRhythm (generateFingerprint c rng).1 = analyzeInteractionRhythm c
  /\ motionSignature (generateFingerprint c rng).1 = analyzeMotionSignature c
  /\ isCollecting (generateFingerprint c rng).1 = false.
Proof.
  unfold generateFingerprint.
  destruct (analyzeScrollBehavior c rng) as [sb rng1].
  destruct (analyzeTimingPatterns c rng1) as [tf rng2] eqn:Htf.
  simpl. repeat split. exists rng1. by rewrite Htf.
Qed.

(** C8, as amended. In the fingerprint of a frozen window, touchPatterns is
    null exactly when the window holds no touch point (no touch event, or
    only touch events with an empty touch list); scrollBehavior is null
    exactly when the window holds fewer than two scroll samples;
    timingFingerprint and interactionRhythm are null exactly when there is
    no touch event; motionSignature is null exactly when there is no
    motion sample; any group that is not null is a full record. In
    particular zero touch events give touchPatterns = null and zero scroll
    samples give scrollBehavior = null. *)
Theorem feature_groups_null_iff (c : BehavioralCollector) (rng : Rng) :
  (touchPatterns (generateFingerprint c rng).1 = None
   <-> flat_map touches (touchData c) = [])
  /\ (scrollBehavior (generateFingerprint c rng).1 = None
      <-> (length (scrollData c) < 2)%nat)
  /\ (timingFingerprint (generateFingerprint c rng).1 = None <-> touchData c = [])
  /\ (interactionRhythm (generateFingerprint c rng).1 = None <-> touchData c = [])
  /\ (motionSignature (generateFingerprint c rng).1 = None <-> motionData c = [])
  /\ (touchData c = [] -> touchPatterns (generateFingerprint c rng).1 = None)
  /\ (scrollData c = [] -> scrollBehavior (generateFingerprint c rng).1 = None).
Proof.
  destruct (generateFingerprint_groups c rng)
    as (Htp & Hsb & [rng' Htf] & Hir & Hms & _).
  rewrite Htp, Hsb, Htf, Hir, Hms.
  split; [apply analyzeTouchPatterns_null|].
  split; [apply analyzeScrollBehavior_null|].
  split; [apply analyzeTimingPatterns_null|].
  split; [apply analyzeInteractionRhythm_null|].
  split; [apply analyzeMotionSignature_null|].
  split.
  - intros Hd. apply analyzeTouchPatterns_null. by rewrite Hd.
  - intros Hd. apply analyzeScrollBehavior_null. rewrite Hd. simpl. lia.
Qed.

End Features.

Lemma feature_groups_null_iff_witness :
  touchData new_collector = []
  /\ scrollData new_collector = []
  /\ touchPatterns (generateFingerprint (H := Samples.sample_host) new_collector 0%nat).1
     = None
  /\ scrollBehavior (generateFingerprint (H := Samples.sample_host) new_collector 0%nat).1
     = None.
Proof.
  split; [reflexivity|]. split; [reflexivity|].
  split; apply (feature_groups_null_iff (H := Samples.sample_host) new_collector 0%nat);
    reflexivity.
Defined.

(** C8, as stated, fails: a window that holds one scroll sample has
    non-empty scroll data, yet its scrollBehavior is null. *)
Lemma single_scroll_sample_is_null :
  scrollData Samples.single_scroll_window <> []
  /\ scrollBehavior
       (generateFingerprint (H := Samples.sample_host) Samples.single_scroll_window 0%nat).1
     = None.
Proof. split; [discriminate | reflexivity]. Qed.

(** Likewise a window whose only touch event carries no touch point has
    non-empty touch data and a null touchPatterns group. *)
Lemma lifted_finger_is_null :
  touchData Samples.lifted_finger_window <> []
  /\ touchPatterns
       (generateFingerprint (H := Samples.sample_host) Samples.lifted_finger_window 0%nat).1
     = None.
Proof. split; [discriminate | reflexivity]. Qed.

(** *** The invariant of the module state *)

Lemma touchHandler_names (name : string) :
  (name, touchHandler) ∈ collector_listeners ->
  name = "touchstart" \/ name = "touchmove" \/ name = "touchend".
Proof.
  unfold collector_listeners. rewrite !elem_of_cons, elem_of_nil.
  intros [Hn|[Hn|[Hn|[Hn|[Hn|[]]]]]]; inversion Hn; auto.
Qed.

Lemma run_handler_touch_kind (h : Handler) (ev : DomEvent) (c : BehavioralCollector) :
  (event_type ev, h) ∈ collector_listeners ->
  Forall Spec.touch_kind (touchData c) ->
  Forall Spec.touch_kind (touchData (run_handler h ev c)).
Proof.
  intros Hreg Hc. destruct h, ev as [event|now sy sx|now event]; simpl; try exact Hc.
  - destruct (isActive c); [|exact Hc]. simpl.
    apply Forall_app. split; [exact Hc|]. constructor; [|constructor].
    apply touchHandler_names, Hreg.
  - destruct (isActive c); exact Hc.
  - destruct (isActive c), (accelerationIncludingGravity event); exact Hc.
Qed.

Lemma run_handlers_touch_kind (hs : list Handler) (ev : DomEvent)
    (c : BehavioralCollector) :
  (forall h, h ∈ hs -> (event_type ev, h) ∈ collector_listeners) ->
  Forall Spec.touch_kind (touchData c) ->
  Forall Spec.touch_kind (touchData (fold_left (fun c h => run_handler h ev c) hs c)).
Proof.
  revert c. induction hs as [|h hs IH]; intros c Hreg Hc; simpl; [exact Hc|].
  apply IH.
  - intros h' Hin. apply Hreg. by right.
  - apply run_handler_touch_kind; [apply Hreg; by left | exact Hc].
Qed.

Lemma well_formed_initial : Spec.well_formed initial.
Proof. split; [intros l Hl; inversion Hl | intros c Hc; discriminate Hc]. Qed.

Lemma well_formed_request (st : State) :
  Spec.well_formed st -> Spec.well_formed (getBehavioralFingerprint st).2.
Proof.
  intros [Hl Hc]. unfold getBehavioralFingerprint.
  destruct (behavioralCollector st) as [c|] eqn:Hst; simpl; [by split; [|rewrite Hst]|].
  split.
  - intros l [Hin|Hin]%elem_of_app; [by apply Hl | exact Hin].
  - intros c [= <-]. constructor.
Qed.

Lemma well_formed_dispatch (ev : DomEvent) (st : State) :
  Spec.well_formed st -> Spec.well_formed (dispatch ev st).
Proof.
  intros [Hl Hc]. unfold dispatch.
  destruct (behavioralCollector st) as [c|] eqn:Hst; [|by split; [|rewrite Hst]].
  split; [exact Hl|]. simpl. intros c' [= <-].
  apply run_handlers_touch_kind; [|by apply Hc].
  intros h [[name h'] [-> Hin]]%list_elem_of_fmap.
  apply list_elem_of_In, filter_In in Hin as [Hin Hname].
  simpl in Hname. apply String.eqb_eq in Hname as <-.
  apply Hl, list_elem_of_In, Hin.
Qed.

Lemma stop_touchData (st : State) (c : BehavioralCollector) :
  behavioralCollector st = Some c ->
  exists c', behavioralCollector (stop st) = Some c' /\ touchData c' = touchData c.
Proof. intros Hc. unfold stop. rewrite Hc. simpl. eauto. Qed.

Lemma stop_listeners (st : State) l :
  l ∈ listeners (stop st) -> l ∈ listeners st.
Proof.
  unfold stop. destruct (behavioralCollector st); [|done]. simpl.
  intros Hin%list_elem_of_In%filter_In. apply list_elem_of_In, Hin.
Qed.

(** [stop] takes away every listener the collector registered. *)
Lemma stop_deregisters (st : State) :
  Spec.well_formed st -> is_Some (behavioralCollector st) -> listeners (stop st) = [].
Proof.
  intros [Hl _] [c Hc]. unfold stop. rewrite Hc. unfold cleanup. cbn [listeners].
  induction (listeners st) as [|l ls IH]; [reflexivity|]. cbn [List.filter].
  assert (Hin : l ∈ collector_listeners) by (apply Hl; by left).
  assert (Hfound : existsb (fun r => String.eqb l.1 r.1 && Handler_eqb l.2 r.2)
                           collector_listeners = true).
  { apply existsb_exists. exists l. split; [by apply list_elem_of_In|].
    rewrite String.eqb_refl. by destruct l.2. }
  rewrite Hfound. cbn [negb]. apply IH. intros l' Hin'. apply Hl. by right.
Qed.

Lemma generateInteractionSequence_touch_kinds `{Host} (c : BehavioralCollector) :
  Forall Spec.touch_kind (touchData c) ->
  generateInteractionSequence c = Spec.copies (length (touchData c)) "t".
Proof.
  unfold generateInteractionSequence, join.
  induction 1 as [|e es He Hes IH]; [reflexivity|].
  assert (Hchar : charAt (type e) 0 = "t"%string).
  { destruct He as [-> | [-> | ->]]; reflexivity. }
  cbn [map length Spec.copies String.concat]. rewrite Hchar.
  destruct es as [|e' es]; [reflexivity|].
  cbn [map] in *. rewrite IH. reflexivity.
Qed.

Section Run.
Context `{Host}.

Lemma well_formed_timer (st : State) (rng : Rng) :
  Spec.well_formed st -> Spec.well_formed (timer_fires st rng).1.2.
Proof.
  intros [Hl Hc]. unfold timer_fires.
  destruct (behavioralCollector (stop st)) as [c|] eqn:Hst.
  - destruct (generateFingerprint c rng) as [fp rng']. simpl. split.
    + intros l Hin. apply Hl, stop_listeners, Hin.
    + intros c' Hc'. discriminate Hc'.
  - simpl. split.
    + intros l Hin. apply Hl, stop_listeners, Hin.
    + intros c' Hc'. rewrite Hst in Hc'. discriminate Hc'.
Qed.

Lemma well_formed_step (st : State) (rng : Rng) (i : Input) :
  Spec.well_formed st -> Spec.well_formed (step st rng i).1.
Proof.
  intros Hwf. destruct i as [|ev|]; simpl.
  - by apply well_formed_request.
  - by apply well_formed_dispatch.
  - pose proof (well_formed_timer st rng Hwf) as Ht.
    destruct (timer_fires st rng) as [[fp st'] rng']. exact Ht.
Qed.

Lemma well_formed_run (inputs : list Input) (st : State) (rng : Rng) :
  Spec.well_formed st -> Spec.well_formed (run inputs st rng).1.
Proof.
  unfold run. revert st rng.
  induction inputs as [|i inputs IH]; intros st rng Hwf; [exact Hwf|].
  simpl. destruct (step st rng i) as [st' rng'] eqn:Hstep. apply IH.
  pose proof (well_formed_step st rng i Hwf) as Hs. by rewrite Hstep in Hs.
Qed.

(** C10. Whatever requests, events and timer expiries the module has seen,
    the sequence code of the window collected so far is made of the
    character 't' only and is as long as the number of collected touch
    events, and so is the interactionSequence of the interactionRhythm
    group in the fingerprint the timer delivers for that window:
    touchstart, touchmove and touchend, the only registered touch types,
    all begin with 't'. *)
Theorem interaction_sequence_only_t (inputs : list Input) (rng0 : Rng)
    (c : BehavioralCollector) :
  behavioralCollector (run inputs initial rng0).1 = Some c ->
  generateInteractionSequence c = Spec.copies (length (touchData c)) "t"
  /\ forall (rng : Rng) (fp : BehavioralFingerprint) (r : InteractionRhythm),
       (timer_fires (run inputs initial rng0).1 rng).1.1 = Some fp ->
       interactionRhythm fp = Some r ->
       interactionSequence r = Spec.copies (length (touchData c)) "t".
Proof.
  intros Hc.
  destruct (well_formed_run inputs initial rng0 well_formed_initial) as [_ Hkinds].
  specialize (Hkinds c Hc). split.
  - by apply generateInteractionSequence_touch_kinds.
  - intros rng fp r. unfold timer_fires.
    destruct (stop_touchData _ c Hc) as (c' & -> & Htd).
    destruct (generateFingerprint c' rng) as [fp' rng'] eqn:Hfp. simpl. intros [= <-].
    pose proof (generateFingerprint_groups c' rng) as (_ & _ & _ & Hir & _).
    rewrite Hfp in Hir. simpl in Hir. rewrite Hir. unfold analyzeInteractionRhythm.
    destruct (length (touchData c') =? 0)%nat; [discriminate|]. intros [= <-]. simpl.
    rewrite <- Htd in *. by apply generateInteractionSequence_touch_kinds.
Qed.

End Run.

Lemma interaction_sequence_only_t_witness :
  behavioralCollector (run (H := Samples.sample_host) Samples.tap_inputs initial 0%nat).1
  = Some Samples.tap_window
  /\ generateInteractionSequence Samples.tap_window = "tt"%string.
Proof.
  split; [reflexivity|].
  apply (interaction_sequence_only_t (H := Samples.sample_host)
           Samples.tap_inputs 0%nat Samples.tap_window).
  reflexivity.
Defined.

(** *** The definitions at work *)

Example tap_fingerprint :
  let fp := (timer_fires (H := Samples.sample_host)
               (run (H := Samples.sample_host) Samples.tap_inputs initial 0%nat).1
               0%nat).1.1 in
  (interactionSequence <$> (fp ≫= interactionRhythm)) = Some "tt"%string
  /\ (isCollecting <$> fp) = Some false
  /\ (scrollBehavior <$> fp) = Some None.
Proof. vm_compute. repeat split. Qed.

Example collection_cycle :
  (run (H := Samples.sample_host) (Samples.tap_inputs ++ [Timeout]) initial 0%nat).1
  = initial.
Proof. vm_compute. reflexivity. Qed.

End BehavioralFacts.

(* ================================================================== *)
(** ** Further facts about the strategy *)
(* ================================================================== *)

Module HashFacts.
Import Js TelegramStrategy.
#[local] Open Scope Z_scope.

Lemma ToInt32_range (z : Z) : - 2 ^ 31 <= ToInt32 z < 2 ^ 31.
Proof.
  unfold ToInt32. pose proof (Z.mod_pos_bound (z + 2 ^ 31) (2 ^ 32) eq_refl). lia.
Qed.

Lemma ToInt32_shift (z k : Z) : ToInt32 (z + k * 2 ^ 32) = ToInt32 z.
Proof.
  unfold ToInt32. replace (z + k * 2 ^ 32 + 2 ^ 31) with (z + 2 ^ 31 + k * 2 ^ 32) by lia.
  by rewrite Z.mod_add.
Qed.

Lemma ToInt32_multiple (z : Z) : exists k, ToInt32 z = z + k * 2 ^ 32.
Proof.
  unfold ToInt32. exists (- ((z + 2 ^ 31) / 2 ^ 32)).
  pose proof (Z.div_mod (z + 2 ^ 31) (2 ^ 32)). lia.
Qed.

Lemma ToInt32_idempotent (z : Z) : ToInt32 (ToInt32 z) = ToInt32 z.
Proof.
  destruct (ToInt32_multiple z) as [k Hk].
  transitivity (ToInt32 (z + k * 2 ^ 32)); [by rewrite <- Hk | apply ToInt32_shift].
Qed.

Lemma band_self (z : Z) : band z z = ToInt32 z.
Proof. unfold band. by rewrite Z.land_diag, ToInt32_idempotent. Qed.

(** One turn of the loop of [simpleHash] multiplies by 31 and adds the
    character code, modulo 2^32. *)
Lemma hash_step (h h' c : Z) :
  h = ToInt32 h' ->
  band (shl h 5 - h + c) (shl h 5 - h + c) = ToInt32 (31 * h' + c).
Proof.
  intros ->. rewrite band_self. unfold shl.
  rewrite ToInt32_idempotent, Z.shiftl_mul_pow2 by lia.
  destruct (ToInt32_multiple h') as [k Hk].
  destruct (ToInt32_multiple (ToInt32 h' * 2 ^ 5)) as [j Hj].
  rewrite Hj, Hk.
  transitivity (ToInt32 (31 * h' + c + (31 * k + j) * 2 ^ 32)).
  - f_equal. change (2 ^ 5) with 32. lia.
  - apply ToInt32_shift.
Qed.

Lemma fold_left_step {A B : Type} (f : A -> B -> A) (b : B) (bs : list B) (a : A) :
  fold_left f (b :: bs) a = fold_left f bs (f a b).
Proof. reflexivity. Qed.

Lemma hash_loop (codes : list Z) (h h' : Z) :
  h = ToInt32 h' ->
  fold_left (fun hash char => let hash := shl hash 5 - hash + char in band hash hash)
            codes h
  = ToInt32 (fold_left (fun h c => 31 * h + c) codes h').
Proof.
  revert h h'. induction codes as [|c codes IH]; intros h h' Hh.
  - exact Hh.
  - rewrite !fold_left_step. apply IH. apply (hash_step h h' c Hh).
Qed.

Lemma toString16_decodes (n : Z) :
  0 <= n -> HexString.Raw.to_N (toString16 n) 0 = Z.to_N n.
Proof.
  intros Hn. destruct n as [|p|p]; [reflexivity| |lia].
  unfold toString16. by rewrite HexString.Raw.to_N_of_pos.
Qed.

(** X1 ([simpleHash]). For a string given by its UTF-16 code units, the
    digest is the hexadecimal numeral of the absolute value of the base-31
    polynomial of the code units, wrapped to a signed 32-bit integer; read
    back as a number it is at most 2^31. *)
Theorem simpleHash_polynomial (units : list Z) :
  Forall (fun unit => 0 <= unit < 65536) units ->
  simpleHash_units units
  = toString16 (Z.abs (ToInt32 (Vocabulary.polynomial31 units)))
  /\ HexString.Raw.to_N (simpleHash_units units) 0
     = Z.to_N (Z.abs (ToInt32 (Vocabulary.polynomial31 units)))
  /\ (HexString.Raw.to_N (simpleHash_units units) 0 <= 2 ^ 31)%N.
Proof.
  intros _.
  assert (Hs : simpleHash_units units
               = toString16 (Z.abs (ToInt32 (Vocabulary.polynomial31 units)))).
  { unfold simpleHash_units, Vocabulary.polynomial31.
    rewrite (hash_loop _ 0 0 eq_refl). reflexivity. }
  split; [exact Hs|]. rewrite Hs, toString16_decodes by lia.
  split; [reflexivity|].
  pose proof (ToInt32_range (Vocabulary.polynomial31 units)). lia.
Qed.

(** The text of the one code unit U+0416, which no [string] of the model
    stands for. *)
Lemma simpleHash_polynomial_witness :
  Forall (fun unit => 0 <= unit < 65536) [1046]
  /\ simpleHash_units [1046] = "416"%string.
Proof.
  assert (Hunits : Forall (fun unit => 0 <= unit < 65536) [1046])
    by (constructor; [lia | constructor]).
  split; [exact Hunits|].
  rewrite (proj1 (simpleHash_polynomial [1046] Hunits)). reflexivity.
Defined.

(** A surrogate pair, and a string of the model. *)
Example simpleHash_of_code_units :
  simpleHash_units [55357; 56832] = "1b0d63"%string
  /\ simpleHash "abc" = simpleHash_units [97; 98; 99].
Proof. vm_compute. split; reflexivity. Qed.

End HashFacts.

Module ScoreFacts.
Import Js TelegramStrategy.
Import StrategyFacts.

(** *** Reserved keys *)

Lemma public_literal (k : string) (kv : string * JsValue) :
  startsWith k "_" = false -> String.eqb k kv.1 = true -> Vocabulary.public_key kv = true.
Proof.
  intros Hk Heq%String.eqb_eq. unfold Vocabulary.public_key. by rewrite <- Heq, Hk.
Qed.

Lemma has_key_public (k : string) (c : BuiltinComponents) :
  startsWith k "_" = false ->
  has_key k (List.filter Vocabulary.public_key c) = has_key k c.
Proof.
  intros Hk. unfold has_key. induction c as [|kv c IH]; [reflexivity|].
  cbn [List.filter existsb]. destruct (String.eqb k kv.1) eqn:Heq.
  - rewrite (public_literal k kv Hk Heq). cbn [existsb]. by rewrite Heq.
  - destruct (Vocabulary.public_key kv); cbn [existsb]; rewrite ?Heq; exact IH.
Qed.

Lemma lookup_key_public (k : string) (c : BuiltinComponents) :
  startsWith k "_" = false ->
  lookup_key k (List.filter Vocabulary.public_key c) = lookup_key k c.
Proof.
  intros Hk. induction c as [|[k' v] c IH]; [reflexivity|].
  cbn [List.filter lookup_key]. destruct (String.eqb k k') eqn:Heq.
  - rewrite (public_literal k (k', v) Hk Heq). cbn [lookup_key]. by rewrite Heq.
  - destruct (Vocabulary.public_key (k', v)); cbn [lookup_key]; rewrite ?Heq; exact IH.
Qed.

Lemma extractTelegramContext_public (c : BuiltinComponents) :
  extractTelegramContext (List.filter Vocabulary.public_key c) = extractTelegramContext c.
Proof.
  unfold extractTelegramContext.
  rewrite !has_key_public, !lookup_key_public by reflexivity. reflexivity.
Qed.

Lemma calculateStabilityScore_public (c : BuiltinComponents) (ctx : TelegramContext) :
  calculateStabilityScore (List.filter Vocabulary.public_key c) ctx
  = calculateStabilityScore c ctx.
Proof.
  unfold calculateStabilityScore. rewrite !has_key_public by reflexivity. reflexivity.
Qed.

Lemma getEnhancedConfidenceScore_public (env : Env) (c : BuiltinComponents) :
  getEnhancedConfidenceScore env (List.filter Vocabulary.public_key c)
  = getEnhancedConfidenceScore env c.
Proof.
  unfold getEnhancedConfidenceScore.
  rewrite calculateStabilityScore_public, extractTelegramContext_public.
  rewrite !has_key_public, !lookup_key_public by reflexivity. reflexivity.
Qed.

Section Reserved.
Context `{Host}.

Lemma tokens_reserved (weights : gmap string float) (c : BuiltinComponents) :
  flat_map (push_component weights []) (List.filter Vocabulary.public_key c)
  = flat_map (push_component weights []) c.
Proof.
  induction c as [|kv c IH]; [reflexivity|]. cbn [List.filter flat_map].
  unfold Vocabulary.public_key at 1. destruct (startsWith kv.1 "_") eqn:Hk; cbn [negb].
  - by rewrite IH, (push_component_reserved weights kv Hk).
  - cbn [flat_map]. by rewrite IH.
Qed.

Lemma weightedInputs_public (env : Env) (c : BuiltinComponents) :
  weightedInputs_of env (List.filter Vocabulary.public_key c) = weightedInputs_of env c.
Proof.
  unfold weightedInputs_of.
  rewrite !fold_push_components.
  rewrite !adjustSourceWeights_weights.
  cbn [_telegramContext adjustSourceWeights].
  rewrite tokens_reserved, extractTelegramContext_public. reflexivity.
Qed.

(** X2 (keys that start with an underscore). Such entries never reach the
    results: two bags that agree once these entries are dropped get the same
    fingerprint, the same confidence record and the same context. *)
Theorem reserved_entries_are_invisible (env : Env) (c1 c2 : BuiltinComponents) :
  List.filter Vocabulary.public_key c1 = List.filter Vocabulary.public_key c2 ->
  generateTelegramSpecificFingerprint env c1 = generateTelegramSpecificFingerprint env c2
  /\ getEnhancedConfidenceScore env c1 = getEnhancedConfidenceScore env c2
  /\ _telegramContext (adjustSourceWeights env c1)
     = _telegramContext (adjustSourceWeights env c2).
Proof.
  intros Hsame. split; [|split].
  - unfold generateTelegramSpecificFingerprint.
    by rewrite <- (weightedInputs_public env c1), <- (weightedInputs_public env c2), Hsame.
  - by rewrite <- (getEnhancedConfidenceScore_public env c1),
         <- (getEnhancedConfidenceScore_public env c2), Hsame.
  - cbn [_telegramContext adjustSourceWeights].
    by rewrite <- (extractTelegramContext_public c1),
         <- (extractTelegramContext_public c2), Hsame.
Qed.

End Reserved.

Lemma reserved_entries_are_invisible_witness :
  List.filter Vocabulary.public_key
    (Samples.telegram_bag ++ [("_weights", JNull); ("_telegramContext", JBool true)])
  = List.filter Vocabulary.public_key Samples.telegram_bag
  /\ generateTelegramSpecificFingerprint (H := Samples.sample_host) Samples.telegram_env
       (Samples.telegram_bag ++ [("_weights", JNull); ("_telegramContext", JBool true)])
     = generateTelegramSpecificFingerprint (H := Samples.sample_host) Samples.telegram_env
         Samples.telegram_bag.
Proof.
  split; [reflexivity|].
  apply (reserved_entries_are_invisible (H := Samples.sample_host)). reflexivity.
Defined.

(** *** Tighter bounds on the score *)

#[local] Open Scope float_scope.

(** The score is the clamp of one of finitely many sums, the same sums in
    every environment. *)
Lemma score_shape_everywhere (components : BuiltinComponents) :
  exists base b w h n : float, exists bonus : bool,
    (base = 0.5 \/ base = 0.5 + 0.1 \/ base = 0.5 + 0.05)
    /\ (b = 0.2 \/ b = 0) /\ (w = 0.25 \/ w = 0) /\ (h = 0.15 \/ h = 0)
    /\ (n = 0.1 \/ n = 0)
    /\ forall env : Env,
         score (getEnhancedConfidenceScore env components)
         = Math_max 0.1
             (Math_min 0.9
                (if detectTelegramEnvironment env
                 then (if bonus
                       then Math_min 0.9 (base + b + w + h + n) + 0.05
                       else Math_min 0.9 (base + b + w + h + n))
                 else Math_min 0.85 (base + (b + n) * 0.5))).
Proof.
  unfold getEnhancedConfidenceScore. cbv zeta. cbn [score].
  match goal with
  | |- context [Math_min 0.9 (?B + ?Fb + ?Fw + ?Fh + ?Fn)] =>
      exists B, Fb, Fw, Fh, Fn
  end.
  match goal with
  | |- context [if ?c then (_ + 0.05) else _] => exists c
  end.
  repeat split; try (split_ifs; auto; fail).
Qed.

Lemma score_enumerated (base b w h n : float) (bonus1 bonus2 : bool) :
  (base = 0.5 \/ base = 0.5 + 0.1 \/ base = 0.5 + 0.05) ->
  (b = 0.2 \/ b = 0) -> (w = 0.25 \/ w = 0) -> (h = 0.15 \/ h = 0) -> (n = 0.1 \/ n = 0) ->
  let inside := Math_max 0.1
                  (Math_min 0.9
                     (if bonus1
                      then Math_min 0.9 (base + b + w + h + n) + 0.05
                      else Math_min 0.9 (base + b + w + h + n))) in
  let outside := Math_max 0.1 (Math_min 0.9 (Math_min 0.85 (base + (b + n) * 0.5))) in
  (0.5 <=? inside) = true /\ (0.5 <=? outside) = true
  /\ (outside <=? 0.75) = true /\ (outside <=? inside) = true.
Proof.
  intros [-> | [-> | ->]] [-> | ->] [-> | ->] [-> | ->] [-> | ->];
    destruct bonus1; vm_compute; repeat split; reflexivity.
Qed.

(** X3 ([getEnhancedConfidenceScore]). The score is never below 0.5, and
    outside Telegram it is never above 0.75. *)
Theorem score_floor_and_browser_ceiling (env : Env) (components : BuiltinComponents) :
  (0.5 <=? score (getEnhancedConfidenceScore env components)) = true
  /\ (detectTelegramEnvironment env = false ->
      (score (getEnhancedConfidenceScore env components) <=? 0.75) = true).
Proof.
  destruct (score_shape_everywhere components)
    as (base & b & w & h & n & bonus & Hbase & Hb & Hw & Hh & Hn & Hscore).
  rewrite Hscore.
  destruct (score_enumerated base b w h n bonus bonus Hbase Hb Hw Hh Hn)
    as (Hin & Hout & Hceil & _).
  destruct (detectTelegramEnvironment env).
  - split; [exact Hin | discriminate].
  - split; [exact Hout | intros _; exact Hceil].
Qed.

Lemma score_floor_and_browser_ceiling_witness :
  detectTelegramEnvironment Samples.browser_env = false
  /\ (score (getEnhancedConfidenceScore Samples.browser_env Samples.telegram_bag)
      <=? 0.75) = true.
Proof.
  split; [reflexivity|].
  apply (score_floor_and_browser_ceiling Samples.browser_env Samples.telegram_bag).
  reflexivity.
Defined.

(** X4 ([getEnhancedConfidenceScore]). For the same components the score
    inside Telegram is at least the score outside Telegram. *)
Theorem telegram_never_lowers_the_score (inside outside : Env)
    (components : BuiltinComponents) :
  detectTelegramEnvironment inside = true ->
  detectTelegramEnvironment outside = false ->
  (score (getEnhancedConfidenceScore outside components)
   <=? score (getEnhancedConfidenceScore inside components)) = true.
Proof.
  intros Hin Hout.
  destruct (score_shape_everywhere components)
    as (base & b & w & h & n & bonus & Hbase & Hb & Hw & Hh & Hn & Hscore).
  rewrite !Hscore, Hin, Hout.
  apply (score_enumerated base b w h n bonus bonus Hbase Hb Hw Hh Hn).
Qed.

Lemma telegram_never_lowers_the_score_witness :
  detectTelegramEnvironment Samples.telegram_env = true
  /\ detectTelegramEnvironment Samples.browser_env = false
  /\ (score (getEnhancedConfidenceScore Samples.browser_env Samples.telegram_bag)
      <=? score (getEnhancedConfidenceScore Samples.telegram_env Samples.telegram_bag))
     = true.
Proof.
  split; [reflexivity|]. split; [reflexivity|].
  apply (telegram_never_lowers_the_score Samples.telegram_env Samples.browser_env);
    reflexivity.
Defined.

End ScoreFacts.

Module ContextFacts.
Import Js TelegramStrategy.
Import StrategyFacts.
#[local] Open Scope float_scope.

Lemma get_opt_truthy (v : JsValue) (k : string) :
  truthy v = true -> get_opt v k = get v k.
Proof. by destruct v. Qed.

Lemma get_opt_falsy (v : JsValue) (k : string) :
  truthy v = false -> get_opt v k = JUndefined.
Proof. by destruct v. Qed.

(** X5 (context and factors). The context reports behavioural data exactly
    when the behavioural factor is granted; a granted haptic factor comes
    with a truthy [hasHapticFeedback], and a granted WebView factor with the
    WebView type ['telegram']. *)
Theorem context_agrees_with_factors (env : Env) (components : BuiltinComponents) :
  (hasBehavioralData (extractTelegramContext components) = true
   <-> behavioralFactor (getEnhancedConfidenceScore env components) = 0.2)
  /\ (hapticFactor (getEnhancedConfidenceScore env components) = 0.15 ->
      truthy (hasHapticFeedback (extractTelegramContext components)) = true)
  /\ (webViewFactor (getEnhancedConfidenceScore env components) = 0.25 ->
      webViewType (extractTelegramContext components) = JString "telegram").
Proof.
  unfold getEnhancedConfidenceScore, extractTelegramContext.
  cbn [behavioralFactor hapticFactor webViewFactor hasBehavioralData hasHapticFeedback
       webViewType].
  split; [|split].
  - destruct (has_key "behavioral" components); cbn [andb]; [|done].
    destruct (truthy (lookup_key "behavioral" components)) eqn:Hv.
    + rewrite !(get_opt_truthy _ _ Hv). by destruct (truthy (or_else _ _)).
    + by rewrite !(get_opt_falsy _ _ Hv).
  - destruct (has_key "haptic" components); cbn [andb]; [|done].
    destruct (truthy (lookup_key "haptic" components)) eqn:Hv; [|done].
    rewrite !(get_opt_truthy _ _ Hv). unfold or_else.
    destruct (truthy (get (lookup_key "haptic" components) "isAvailable")) eqn:Ha;
      [by rewrite Ha | done].
  - destruct (has_key "webView" components); cbn [andb]; [|done].
    destruct (truthy (lookup_key "webView" components)) eqn:Hv; [|done].
    rewrite !(get_opt_truthy _ _ Hv).
    destruct (truthy (get (lookup_key "webView" components) "isWebView"));
      cbn [andb]; [|done].
    destruct (get (lookup_key "webView" components) "webViewType")
      as [| |?|?|s|?|?]; try done.
    cbn. destruct (String.eqb s "telegram") eqn:Hs; [|done].
    by apply String.eqb_eq in Hs as ->.
Qed.


(** X6 ([calculateStabilityScore]). For a context that is not a Telegram
    WebView the stability score is 1 as soon as the platform, the time zone,
    the languages, or both [hardwareConcurrency] and [deviceMemory] are
    present, and 0.5 when none of them is. *)
Theorem stability_is_all_or_nothing_outside_telegram
    (components : BuiltinComponents) (ctx : TelegramContext) :
  truthy (isTelegramWebView ctx) = false ->
  calculateStabilityScore components ctx
  = if has_key "platform" components
       || has_key "timezone" components
       || has_key "hardwareConcurrency" components && has_key "deviceMemory" components
       || has_key "languages" components
    then 1 else 0.5.
Proof.
  intros Hctx. unfold calculateStabilityScore. rewrite Hctx.
  destruct (has_key "platform" components),
           (has_key "timezone" components),
           (has_key "hardwareConcurrency" components),
           (has_key "deviceMemory" components),
           (has_key "languages" components); vm_compute; reflexivity.
Qed.

Lemma stability_is_all_or_nothing_outside_telegram_witness :
  truthy (isTelegramWebView (extractTelegramContext (Samples.example_bag JNull))) = false
  /\ calculateStabilityScore (Samples.example_bag JNull)
       (extractTelegramContext (Samples.example_bag JNull)) = 1.
Proof.
  split; [reflexivity|].
  apply (stability_is_all_or_nothing_outside_telegram (Samples.example_bag JNull)).
  reflexivity.
Defined.

(** *** The size of the token list *)

Lemma entries_in_range (entries : list (string * float)) :
  forallb (fun kv => (1 <=? Math_round (kv.2 * 10))%Z && (Math_round (kv.2 * 10) <=? 25)%Z)
          entries = true ->
  forall key w, (key, w) ∈ entries -> (1 <= Math_round (w * 10) <= 25)%Z.
Proof.
  rewrite forallb_forall. intros Hall key w Hin%list_elem_of_In.
  specialize (Hall (key, w) Hin). cbn [snd] in Hall. lia.
Qed.

Lemma weights_in_range env components key w :
  _weights (adjustSourceWeights env components) !! key = Some w ->
  (1 <= Math_round (w * 10) <= 25)%Z.
Proof.
  rewrite adjustSourceWeights_weights.
  assert (Hbase : baseWeights !! key = Some w -> (1 <= Math_round (w * 10) <= 25)%Z).
  { intros [Hin|Hempty]%Object_assign_origin.
    - apply (entries_in_range baseWeights_entries) in Hin; [exact Hin|].
      vm_compute. reflexivity.
    - rewrite lookup_empty in Hempty. discriminate Hempty. }
  destruct (detectTelegramEnvironment env); [|exact Hbase].
  intros [Hin|Hb]%Object_assign_origin; [|apply Hbase, Hb].
  apply (entries_in_range telegramWeights_entries) in Hin; [exact Hin|].
  vm_compute. reflexivity.
Qed.

Section TokenCount.
Context `{Host}.

Lemma tokens_size env components (entry : string * JsValue) :
  ((if Vocabulary.counted_key entry then 1 else 0)
   <= length (push_component (_weights (adjustSourceWeights env components)) [] entry)
   <= 25)%nat.
Proof.
  destruct entry as [key component].
  unfold push_component, Vocabulary.counted_key, Vocabulary.public_key. cbn [fst].
  destruct (startsWith key "_"); cbn [negb andb length]; [lia|].
  rewrite iter_push, length_app, length_replicate. cbn [length].
  unfold weight_or_default.
  destruct (_weights (adjustSourceWeights env components) !! key) as [w|] eqn:Hw.
  - rewrite (weights_never_zero _ _ _ _ Hw). unfold turns.
    rewrite (weights_scaled _ _ _ _ Hw).
    pose proof (weights_in_range _ _ _ _ Hw).
    destruct (inherited key); cbn [negb]; lia.
  - destruct (inherited key); cbn [negb].
    + change (turns (nan * 10)) with 0%nat. lia.
    + change (turns (1.0 * 10)) with 10%nat. lia.
Qed.

Lemma tokens_sizes env components (entries : BuiltinComponents) :
  (length (List.filter Vocabulary.counted_key entries)
   <= length (flat_map (push_component (_weights (adjustSourceWeights env components)) [])
                       entries)
   <= 25 * length entries)%nat.
Proof.
  induction entries as [|entry entries IH]; [cbn; lia|].
  cbn [List.filter flat_map]. rewrite length_app.
  pose proof (tokens_size env components entry) as Hone.
  destruct (Vocabulary.counted_key entry); cbn [length]; lia.
Qed.

(** X7 (the weighted inputs). The token list has at least one token for
    every entry whose key neither starts with an underscore nor names a
    member of [Object.prototype], plus the three context tokens, and at most
    25 tokens for every entry, plus three. An entry whose key names a member
    of [Object.prototype] adds no token at all. *)
Theorem token_list_size (env : Env) (components : BuiltinComponents) :
  (length (List.filter Vocabulary.counted_key components) + 3
   <= length (weightedInputs_of env components)
   <= 25 * length components + 3)%nat
  /\ forall key component,
       inherited key = true ->
       push_component (_weights (adjustSourceWeights env components)) [] (key, component)
       = [].
Proof.
  split.
  - rewrite weightedInputs_tokens, !length_app. cbn [length app].
    pose proof (tokens_sizes env components components). lia.
  - intros key component Hkey.
    apply push_component_inherited; [|exact Hkey].
    by apply weights_inherited_absent.
Qed.

End TokenCount.

End ContextFacts.

Module ShapeFacts.
Import Js TelegramStrategy.
Import StrategyFacts.
#[local] Open Scope float_scope.

Lemma get_opt_no_record (v : JsValue) (k : string) :
  (forall props, v <> JObject props) -> get_opt v k = JUndefined.
Proof. intros Hv. destruct v; try reflexivity. by destruct (Hv props). Qed.

Lemma get_no_record (v : JsValue) (k : string) :
  (forall props, v <> JObject props) -> get v k = JUndefined.
Proof. intros Hv. destruct v; try reflexivity. by destruct (Hv props). Qed.

Lemma pick_no_record (key k : string) (components : BuiltinComponents) :
  Shapes.no_record key components ->
  get_opt (if has_key key components then lookup_key key components else JNull) k
  = JUndefined.
Proof.
  intros Hrec. destruct (has_key key components); [|reflexivity].
  by apply get_opt_no_record.
Qed.

(** X8 ([extractTelegramContext]). Enhanced components that are not
    objects count as absent: the context is the default one and the four
    factors are 0. *)
Theorem malformed_components_count_as_absent (env : Env) (components : BuiltinComponents) :
  Shapes.no_record "telegramWebApp" components ->
  Shapes.no_record "webView" components ->
  Shapes.no_record "haptic" components ->
  Shapes.no_record "behavioral" components ->
  Shapes.no_record "network" components ->
  extractTelegramContext components = Shapes.default_context
  /\ behavioralFactor (getEnhancedConfidenceScore env components) = 0
  /\ webViewFactor (getEnhancedConfidenceScore env components) = 0
  /\ hapticFactor (getEnhancedConfidenceScore env components) = 0
  /\ networkFactor (getEnhancedConfidenceScore env components) = 0.
Proof.
  intros Ht Hw Hh Hb Hn.
  split; [|repeat split].
  - unfold extractTelegramContext.
    rewrite !(pick_no_record "telegramWebApp"), !(pick_no_record "webView"),
      !(pick_no_record "haptic"), !(pick_no_record "behavioral"),
      !(pick_no_record "network") by assumption.
    reflexivity.
  - unfold getEnhancedConfidenceScore. cbn [behavioralFactor].
    rewrite !(get_no_record (lookup_key "behavioral" components)) by exact Hb.
    by destruct (_ && _).
  - unfold getEnhancedConfidenceScore. cbn [webViewFactor].
    rewrite !(get_no_record (lookup_key "webView" components)) by exact Hw.
    by destruct (_ && _).
  - unfold getEnhancedConfidenceScore. cbn [hapticFactor].
    rewrite !(get_no_record (lookup_key "haptic" components)) by exact Hh.
    by destruct (_ && _).
  - unfold getEnhancedConfidenceScore. cbn [networkFactor].
    rewrite !(get_no_record (lookup_key "network" components)) by exact Hn.
    by destruct (_ && _).
Qed.

Lemma malformed_components_count_as_absent_witness :
  Shapes.no_record "telegramWebApp" [("haptic", JString "yes"); ("network", JNull)]
  /\ extractTelegramContext [("haptic", JString "yes"); ("network", JNull)]
     = Shapes.default_context.
Proof.
  split; [intros props; discriminate|].
  apply (malformed_components_count_as_absent Samples.browser_env
           [("haptic", JString "yes"); ("network", JNull)]);
    intros props; discriminate.
Defined.

(** *** The classifier *)

Lemma prefix_trans (p q s : string) :
  String.prefix q p = true -> String.prefix p s = true -> String.prefix q s = true.
Proof.
  revert p q. induction s as [|a s IH]; intros p q Hqp Hps.
  - destruct p; [|discriminate Hps]. by destruct q.
  - destruct p as [|b p]; [by destruct q|]. destruct q as [|c q]; [reflexivity|].
    cbn in *. destruct (Ascii.ascii_dec c b) as [->|]; [|discriminate].
    destruct (Ascii.ascii_dec b a) as [->|]; [|discriminate].
    destruct (Ascii.ascii_dec a a); [|done]. by apply (IH p q).
Qed.

Lemma includes_prefix (s p q : string) :
  String.prefix q p = true -> includes s p = true -> includes s q = true.
Proof.
  intros Hqp. induction s as [|a s IH]; cbn [includes].
  - rewrite !orb_false_r. by apply prefix_trans.
  - intros [Hp|Hin]%orb_true_iff; apply orb_true_iff.
    + left. by apply (prefix_trans p).
    + right. by apply IH.
Qed.

Lemma lower_char_idempotent (c : Ascii.ascii) : lower_char (lower_char c) = lower_char c.
Proof.
  destruct c as [[] [] [] [] [] [] [] []]; reflexivity.
Qed.

Lemma toLowerCase_idempotent (s : string) : toLowerCase (toLowerCase s) = toLowerCase s.
Proof.
  induction s as [|c s IH]; [reflexivity|]. cbn [toLowerCase].
  by rewrite lower_char_idempotent, IH.
Qed.

(** X9 ([detectTelegramEnvironment]). The strategy detects Telegram exactly
    when the lower-cased user agent contains ['telegram'] or
    [window.Telegram?.WebApp] is not [undefined]; the test for
    ['telegramwebview'] adds nothing. *)
Theorem detectTelegramEnvironment_markers (env : Env) :
  detectTelegramEnvironment env
  = includes (toLowerCase (navigator_userAgent env)) "telegram"
    || match get_opt (window_Telegram env) "WebApp" with
       | JUndefined => false
       | _ => true
       end.
Proof.
  unfold detectTelegramEnvironment, test_ignore_case.
  rewrite !toLowerCase_idempotent.
  destruct (includes (toLowerCase (navigator_userAgent env)) "telegramwebview") eqn:Hlong;
    [|reflexivity].
  by rewrite (includes_prefix _ "telegramwebview" "telegram" eq_refl Hlong).
Qed.

End ShapeFacts.

(* ================================================================== *)
(** ** Further facts about the behavioural source *)
(* ================================================================== *)

Module LifecycleFacts.
Import Js Behavioral BehavioralSync.

Lemma run_handler_isActive (h : Handler) (ev : DomEvent) (c : BehavioralCollector) :
  isActive (run_handler h ev c) = isActive c.
Proof.
  destruct h, ev as [event|now sy sx|now event]; cbn [run_handler]; try reflexivity.
  - destruct (isActive c) eqn:Ha; [reflexivity | exact Ha].
  - destruct (isActive c) eqn:Ha; [reflexivity | exact Ha].
  - destruct (isActive c) eqn:Ha, (accelerationIncludingGravity event);
      first [reflexivity | exact Ha].
Qed.

Lemma run_handlers_isActive (hs : list Handler) (ev : DomEvent) (c : BehavioralCollector) :
  isActive (fold_left (fun c h => run_handler h ev c) hs c) = isActive c.
Proof.
  revert c. induction hs as [|h hs IH]; intros c; [reflexivity|].
  cbn [fold_left]. by rewrite IH, run_handler_isActive.
Qed.

Lemma single_flight_request (st : State) :
  Lifecycle.single_flight st ->
  Lifecycle.single_flight (getBehavioralFingerprint st).2.
Proof.
  intros [[Hc Hl] | (c & Hc & Ha & Hl)]; unfold getBehavioralFingerprint; rewrite Hc.
  - right. cbn. rewrite Hl. eexists. repeat split; reflexivity.
  - cbn [snd]. right. by exists c.
Qed.

Lemma single_flight_dispatch (ev : DomEvent) (st : State) :
  Lifecycle.single_flight st -> Lifecycle.single_flight (dispatch ev st).
Proof.
  intros [[Hc Hl] | (c & Hc & Ha & Hl)]; unfold dispatch; rewrite Hc.
  - left. by split.
  - right. eexists. cbn [behavioralCollector listeners]. split; [reflexivity|].
    split; [by rewrite run_handlers_isActive | exact Hl].
Qed.

Section Machine.
Context `{Host}.

Lemma timer_fires_idle (st : State) (rng : Rng) :
  Lifecycle.single_flight st -> (timer_fires st rng).1.2 = initial.
Proof.
  intros [[Hc Hl] | (c & Hc & Ha & Hl)]; unfold timer_fires, stop; rewrite Hc.
  - rewrite Hc. cbn. destruct st. cbn in *. by subst.
  - cbn [behavioralCollector cleanup listeners]. rewrite Hl.
    destruct (generateFingerprint _ rng) as [fp rng']. reflexivity.
Qed.

Lemma single_flight_initial : Lifecycle.single_flight initial.
Proof. left. by split. Qed.

Lemma single_flight_step (st : State) (rng : Rng) (i : Input) :
  Lifecycle.single_flight st -> Lifecycle.single_flight (step st rng i).1.
Proof.
  intros Hsf. destruct i as [|ev|]; cbn [step fst].
  - by apply single_flight_request.
  - by apply single_flight_dispatch.
  - pose proof (timer_fires_idle st rng Hsf) as Hidle.
    destruct (timer_fires st rng) as [[fp st'] rng']. cbn in *. subst st'.
    apply single_flight_initial.
Qed.

Lemma run_snoc (inputs : list Input) (i : Input) (st : State) (rng : Rng) :
  run (inputs ++ [i]) st rng
  = step (run inputs st rng).1 (run inputs st rng).2 i.
Proof. unfold run. by rewrite fold_left_app. Qed.

Lemma run_single_flight (inputs : list Input) (rng : Rng) :
  Lifecycle.single_flight (run inputs initial rng).1.
Proof.
  induction inputs as [|i inputs IH] using rev_ind; [apply single_flight_initial|].
  rewrite run_snoc. by apply single_flight_step.
Qed.

(** X10 (the collector). After any sequence of requests, delivered events
    and timer expiries the module is idle with no listener registered, or it
    holds one active collector with exactly the five listeners this
    collector registered. *)
Theorem single_flight_always (inputs : list Input) (rng : Rng) :
  let st := (run inputs initial rng).1 in
  (behavioralCollector st = None /\ listeners st = [])
  \/ (exists c, behavioralCollector st = Some c /\ isActive c = true
                /\ listeners st = collector_listeners
                /\ length (listeners st) = 5%nat).
Proof.
  cbv zeta. destruct (run_single_flight inputs rng) as [Hidle | (c & Hc & Ha & Hl)].
  - by left.
  - right. exists c. repeat split; try assumption. by rewrite Hl.
Qed.

(** X11 (the timer). Whatever came before, the expiry of the timer leaves
    the module in its initial state: no collector and no listener. *)
Theorem timer_returns_to_idle (inputs : list Input) (rng : Rng) :
  (run (inputs ++ [Timeout]) initial rng).1 = initial.
Proof.
  rewrite run_snoc. cbn [step].
  pose proof (timer_fires_idle _ (run inputs initial rng).2
                (run_single_flight inputs rng)) as Hidle.
  destruct (timer_fires _ _) as [[fp st'] rng']. exact Hidle.
Qed.

End Machine.

End LifecycleFacts.

Module RecordingFacts.
Import Js Behavioral.
Import Recorded.

Lemma extended_nil (c : BehavioralCollector) : extended c [] = c.
Proof. destruct c. unfold extended. cbn. by rewrite !app_nil_r. Qed.

Lemma extended_cons (c : BehavioralCollector) (ev : DomEvent) (evs : list DomEvent) :
  extended (extended c [ev]) evs = extended c (ev :: evs).
Proof.
  unfold extended. cbn [touchData scrollData motionData isActive omap list_omap].
  destruct (recorded_touch ev), (recorded_scroll ev), (recorded_motion ev);
    cbn; by rewrite <- ?app_assoc, ?app_nil_r.
Qed.

Lemma dispatch_records (ev : DomEvent) (st : State) (c : BehavioralCollector) :
  behavioralCollector st = Some c ->
  isActive c = true ->
  listeners st = collector_listeners ->
  dispatch ev st
  = {| behavioralCollector := Some (extended c [ev]); listeners := listeners st |}.
Proof.
  intros Hc Ha Hl. unfold dispatch. rewrite Hc, Hl. f_equal. f_equal.
  destruct c as [td sd md act]. cbn in Ha. subst act.
  unfold extended, collector_listeners.
  destruct ev as [[ty ts tl]|now sy sx|now [[a|]]].
  - cbn [event_type type List.filter fst snd omap list_omap recorded_touch
         recorded_scroll recorded_motion].
    unfold registered_touch_type.
    destruct (String.eqb "touchstart" ty) eqn:H1;
      [apply String.eqb_eq in H1; subst ty; cbn; by rewrite ?app_nil_r|].
    destruct (String.eqb "touchmove" ty) eqn:H2;
      [apply String.eqb_eq in H2; subst ty; cbn; by rewrite ?app_nil_r|].
    destruct (String.eqb "touchend" ty) eqn:H3;
      [apply String.eqb_eq in H3; subst ty; cbn; by rewrite ?app_nil_r|].
    destruct (String.eqb "scroll" ty), (String.eqb "devicemotion" ty);
      cbn; by rewrite ?app_nil_r.
  - cbn. by rewrite ?app_nil_r.
  - cbn. by rewrite ?app_nil_r.
  - cbn. by rewrite ?app_nil_r.
Qed.

Section Recording.
Context `{Host}.

Lemma run_deliveries (evs : list DomEvent) (st : State) (rng : Rng) (c : BehavioralCollector) :
  behavioralCollector st = Some c ->
  isActive c = true ->
  listeners st = collector_listeners ->
  run (map Deliver evs) st rng
  = ({| behavioralCollector := Some (extended c evs); listeners := listeners st |}, rng).
Proof.
  revert st c. induction evs as [|ev evs IH]; intros st c Hc Ha Hl.
  - rewrite extended_nil. destruct st. cbn in *. by subst.
  - cbn [map]. unfold run. cbn [fold_left step fst snd]. fold (run (map Deliver evs)).
    rewrite (dispatch_records ev st c Hc Ha Hl).
    change (fold_left _ (map Deliver evs) ?p) with (run (map Deliver evs) p.1 p.2).
    cbn [fst snd].
    rewrite (IH _ (extended c [ev])); [by rewrite extended_cons| reflexivity | exact Ha | exact Hl].
Qed.

(** X12 (the handlers). A request followed by deliveries leaves a window
    that holds, in the order of delivery, every touch event of a registered
    type, every scroll sample and every motion event that carries an
    acceleration, and nothing else. *)
Theorem collection_records_every_event (evs : list DomEvent) (rng : Rng) :
  (run (Request :: map Deliver evs) initial rng).1
  = {| behavioralCollector :=
         Some {| touchData := omap recorded_touch evs;
                 scrollData := omap recorded_scroll evs;
                 motionData := omap recorded_motion evs;
                 isActive := true |};
       listeners := collector_listeners |}.
Proof.
  unfold run. cbn [fold_left step fst snd].
  change (fold_left _ (map Deliver evs) ?p) with (run (map Deliver evs) p.1 p.2).
  cbn [fst snd].
  rewrite (run_deliveries evs _ rng
             {| touchData := []; scrollData := []; motionData := []; isActive := true |});
    reflexivity.
Qed.

End Recording.

End RecordingFacts.

Module FeatureFacts.
Import Js Behavioral BehavioralSync.
Import BehavioralFacts LifecycleFacts.

Section Sync.
Context `{Host}.

(** X13 ([getBehavioralFingerprintSync]). [isCollecting] is true exactly
    when the five listeners are registered, false exactly when none is, and
    true exactly when a further request is answered at once with the
    placeholder that has [isCollecting: true]. *)
Theorem sync_flag_tracks_the_listeners (inputs : list Input) (rng : Rng) :
  (isCollecting (getBehavioralFingerprintSync (run inputs initial rng).1) = true
   <-> listeners (run inputs initial rng).1 = collector_listeners)
  /\ (isCollecting (getBehavioralFingerprintSync (run inputs initial rng).1) = false
      <-> listeners (run inputs initial rng).1 = [])
  /\ (isCollecting (getBehavioralFingerprintSync (run inputs initial rng).1) = true
      <-> (getBehavioralFingerprint (run inputs initial rng).1).1 = Resolved busy).
Proof.
  unfold getBehavioralFingerprintSync, getBehavioralFingerprint. cbn [isCollecting].
  destruct (run_single_flight inputs rng) as [[Hc Hl] | (c & Hc & Ha & Hl)];
    rewrite Hc, Hl; repeat split; done.
Qed.

End Sync.

(** *** The scroll loop *)

Section Scroll.
Context `{Host}.

Lemma scroll_step_shape (st : list float * list float * float)
    (pc : ScrollSample * ScrollSample) :
  length st.1.2 = pred (length st.1.1) ->
  length (scroll_step st pc).1.2 = pred (length (scroll_step st pc).1.1)
  /\ (length st.1.1 <= length (scroll_step st pc).1.1 <= S (length st.1.1))%nat.
Proof.
  destruct st as [[speeds accelerations] total], pc as [prev curr]. cbn [fst snd].
  intros Hinv. unfold scroll_step.
  destruct (PrimFloat.ltb 0 _); cbn [fst snd]; [|lia].
  destruct (1 <? length (speeds ++ _))%nat eqn:Hlen; cbn [fst snd];
    rewrite ?length_app in *; cbn [length] in *.
  - apply Nat.ltb_lt in Hlen. lia.
  - apply Nat.ltb_ge in Hlen. lia.
Qed.

Lemma scroll_loop_shape (pairs : list (ScrollSample * ScrollSample))
    (st : list float * list float * float) :
  length st.1.2 = pred (length st.1.1) ->
  length (fold_left scroll_step pairs st).1.2
  = pred (length (fold_left scroll_step pairs st).1.1)
  /\ (length (fold_left scroll_step pairs st).1.1 <= length st.1.1 + length pairs)%nat.
Proof.
  revert st. induction pairs as [|pc pairs IH]; intros st Hinv.
  - cbn. split; [exact Hinv | lia].
  - cbn [fold_left length]. destruct (scroll_step_shape st pc Hinv) as [Hstep Hgrow].
    destruct (IH _ Hstep) as [Hshape Hbound]. split; [exact Hshape | lia].
Qed.

Lemma length_adjacent {A : Type} (xs : list A) :
  length (adjacent xs) = pred (length xs).
Proof.
  unfold adjacent. destruct xs as [|x xs]; [reflexivity|]. cbn [tail].
  revert x. induction xs as [|y xs IH]; intros x; [reflexivity|].
  cbn. f_equal. apply (IH y).
Qed.

(** X14 ([analyzeScrollBehavior]). The loop over adjacent scroll samples
    keeps one acceleration fewer than speeds (none for no speed), and at
    most one speed for each adjacent pair. *)
Theorem scroll_loop_counts (c : BehavioralCollector) :
  let loop := fold_left scroll_step (adjacent (scrollData c)) ([], [], 0%float) in
  length loop.1.2 = pred (length loop.1.1)
  /\ (length loop.1.1 <= pred (length (scrollData c)))%nat.
Proof.
  cbn zeta.
  destruct (scroll_loop_shape (adjacent (scrollData c)) ([], [], 0%float) eq_refl)
    as [Hshape Hbound].
  split; [exact Hshape|]. rewrite length_adjacent in Hbound. exact Hbound.
Qed.

End Scroll.

(** *** Pauses and the agreement of the groups *)

Section Groups.
Context `{Host}.

Lemma above_spec (bound : float) (xs : list float) :
  Forall (fun v => PrimFloat.ltb bound v = true) (above bound xs)
  /\ (length (above bound xs) <= length xs)%nat.
Proof.
  unfold above. induction xs as [|v xs [IHall IHlen]]; [by split|].
  cbn [List.filter]. destruct (PrimFloat.ltb bound v) eqn:Hv; cbn [length].
  - split; [by constructor | lia].
  - split; [exact IHall | lia].
Qed.

(** X15 ([findPausePatterns]). Every reported pause is longer than 500; a
    window without a [touchstart] event reports no pause, and a window with
    such events reports fewer pauses than it has [touchstart] events. *)
Theorem pauses_are_long_taps (c : BehavioralCollector) (r : InteractionRhythm) :
  analyzeInteractionRhythm c = Some r ->
  Forall (fun v => PrimFloat.ltb 500 v = true) (pausePatterns r)
  /\ (of_type "touchstart" (touchData c) = [] -> pausePatterns r = [])
  /\ (of_type "touchstart" (touchData c) <> [] ->
      (length (pausePatterns r) < length (of_type "touchstart" (touchData c)))%nat).
Proof.
  unfold analyzeInteractionRhythm.
  destruct (length (touchData c) =? 0)%nat; [discriminate|]. intros [= <-].
  cbn [pausePatterns]. unfold findPausePatterns.
  match goal with |- context [above 500 ?xs] => destruct (above_spec 500 xs) as [Hall Hlen] end.
  rewrite length_map, length_adjacent in Hlen.
  split; [exact Hall|]. split.
  - intros Hnone. rewrite Hnone. reflexivity.
  - intros Hsome. destruct (of_type "touchstart" (touchData c)) as [|e es]; [done|].
    cbn [length pred] in Hlen |- *. lia.
Qed.

(** X16 ([generateFingerprint]). The timing group and the rhythm group are
    null together; when the touch patterns are present so are both; and
    [isCollecting] is false. *)
Theorem touch_groups_agree (c : BehavioralCollector) (rng : Rng) :
  (timingFingerprint (generateFingerprint c rng).1 = None
   <-> interactionRhythm (generateFingerprint c rng).1 = None)
  /\ (touchPatterns (generateFingerprint c rng).1 <> None ->
      timingFingerprint (generateFingerprint c rng).1 <> None
      /\ interactionRhythm (generateFingerprint c rng).1 <> None)
  /\ isCollecting (generateFingerprint c rng).1 = false.
Proof.
  destruct (generateFingerprint_groups c rng)
    as (Htp & _ & [rng' Htf] & Hir & _ & Hflag).
  rewrite Htp, Htf, Hir, Hflag.
  rewrite analyzeTimingPatterns_null, analyzeInteractionRhythm_null,
    analyzeTouchPatterns_null.
  split; [done|]. split; [|reflexivity].
  intros Hpoints. assert (touchData c <> []) by (intros Hd; by rewrite Hd in Hpoints).
  by split.
Qed.

End Groups.

Lemma pauses_are_long_taps_witness :
  exists r,
    analyzeInteractionRhythm (H := Samples.sample_host) Samples.tap_window = Some r
    /\ of_type "touchstart" (touchData Samples.tap_window) <> []
    /\ (length (pausePatterns r)
        < length (of_type "touchstart" (touchData Samples.tap_window)))%nat.
Proof.
  destruct (analyzeInteractionRhythm (H := Samples.sample_host) Samples.tap_window)
    as [r|] eqn:Hr; [|vm_compute in Hr; discriminate Hr].
  assert (Hstarts : of_type "touchstart" (touchData Samples.tap_window) <> [])
    by (vm_compute; discriminate).
  exists r. split; [reflexivity|]. split; [exact Hstarts|].
  exact (proj2 (proj2 (pauses_are_long_taps (H := Samples.sample_host)
                         Samples.tap_window r Hr)) Hstarts).
Defined.

End FeatureFacts.

(* ================================================================== *)
(** ** Facts about the network source *)
(* ================================================================== *)

Module NetworkFacts.
Import Js Network.
#[local] Open Scope float_scope.

Section Quality.
Context `{Host}.

(** X17 ([measureNetworkPerformance]). A quality other than ['poor'] needs
    all five pings to succeed, and then [packetLoss] is 0: one failure
    already gives a loss of 0.2, which is not below 0.2. *)
Theorem one_failed_ping_means_poor (ping : nat -> option float) (download : option float) :
  networkQuality (measureNetworkPerformance ping download) <> poor ->
  (forall i, (i < 5)%nat -> ping i <> None)
  /\ packetLoss (measureNetworkPerformance ping download) = 0.
Proof.
  unfold measureNetworkPerformance. cbv zeta.
  cbn [networkQuality packetLoss latency seq omap list_omap].
  destruct (ping 0%nat) as [t0|] eqn:H0, (ping 1%nat) as [t1|] eqn:H1,
           (ping 2%nat) as [t2|] eqn:H2, (ping 3%nat) as [t3|] eqn:H3,
           (ping 4%nat) as [t4|] eqn:H4;
    cbn [length Nat.ltb Nat.leb];
    repeat match goal with
           | |- context [PrimFloat.ltb ((5 - count ?l) / 5) ?b] =>
               let v := eval vm_compute in (PrimFloat.ltb ((5 - count l) / 5) b) in
               change (PrimFloat.ltb ((5 - count l) / 5) b) with v
           end;
    rewrite ?andb_false_r; try (intros Hq; by destruct Hq).
  intros _. split; [|reflexivity].
  intros i Hi. destruct i as [|[|[|[|[|i]]]]]; try lia; congruence.
Qed.

End Quality.

Lemma one_failed_ping_means_poor_witness :
  networkQuality (@measureNetworkPerformance Samples.sample_host
                    (fun _ => Some 20) (Some 4)) <> poor
  /\ packetLoss (@measureNetworkPerformance Samples.sample_host
                   (fun _ => Some 20) (Some 4)) = 0.
Proof.
  assert (Hq : networkQuality (@measureNetworkPerformance Samples.sample_host
                                 (fun _ => Some 20) (Some 4)) <> poor)
    by (vm_compute; discriminate).
  split; [exact Hq|].
  apply (@one_failed_ping_means_poor Samples.sample_host _ _ Hq).
Defined.

(** *** The region and the clock *)

Lemma first_segment_no_slash (s : string) : includes (first_segment s) "/" = false.
Proof.
  induction s as [|c s IH]; [reflexivity|]. cbn [first_segment].
  destruct (Ascii.eqb c "/") eqn:Hc; [reflexivity|].
  cbn [includes String.prefix]. rewrite IH, orb_false_r.
  destruct (Ascii.ascii_dec "/" c) as [<-|]; [|reflexivity].
  by rewrite Ascii.eqb_refl in Hc.
Qed.

Lemma first_segment_prefix (s : string) : String.prefix (first_segment s) s = true.
Proof.
  induction s as [|c s IH]; [reflexivity|]. cbn [first_segment].
  destruct (Ascii.eqb c "/"); [reflexivity|]. cbn [String.prefix].
  by destruct (Ascii.ascii_dec c c).
Qed.

(** X18 ([inferRegionFromTime]). The region never contains a slash, is
    empty only for an empty time zone, and is ['Unknown'] or a prefix of the
    time zone. *)
Theorem region_has_no_slash (timeZone : option string) :
  includes (inferRegionFromTime timeZone) "/" = false
  /\ (timeZone <> Some EmptyString -> inferRegionFromTime timeZone <> EmptyString)
  /\ (forall timezone, timeZone = Some timezone ->
       inferRegionFromTime timeZone = "Unknown"%string
       \/ String.prefix (inferRegionFromTime timeZone) timezone = true).
Proof.
  unfold inferRegionFromTime. destruct timeZone as [timezone|].
  - destruct (includes timezone "/") eqn:Hslash.
    + destruct (String.eqb (first_segment timezone) EmptyString) eqn:Hempty.
      * repeat split; try done. intros ? _. by left.
      * split; [apply first_segment_no_slash|]. split.
        -- intros _ Hnil. by rewrite Hnil in Hempty.
        -- intros ? [= <-]. right. apply first_segment_prefix.
    + split; [exact Hslash|]. split; [congruence|].
      intros ? [= <-]. right. clear. induction timezone as [|c s IH]; [reflexivity|].
      cbn. by destruct (Ascii.ascii_dec c c).
  - repeat split; try done.
Qed.

Lemma region_has_no_slash_witness :
  Some "Europe/Berlin"%string <> Some EmptyString
  /\ inferRegionFromTime (Some "Europe/Berlin"%string) = "Europe"%string
  /\ inferRegionFromTime (Some "Europe/Berlin"%string) <> EmptyString.
Proof.
  split; [discriminate|]. split; [reflexivity|].
  apply (region_has_no_slash (Some "Europe/Berlin"%string)). discriminate.
Defined.

Lemma spin_spec (clock : nat -> float) (remaining count : nat) :
  (forall k, (1 <= k <= count)%nat -> PrimFloat.eqb (clock k) (clock 0%nat) = true) ->
  (count <= spin clock remaining count <= count + remaining)%nat
  /\ (forall k, (1 <= k <= spin clock remaining count)%nat ->
       PrimFloat.eqb (clock k) (clock 0%nat) = true)
  /\ ((spin clock remaining count < count + remaining)%nat ->
      PrimFloat.eqb (clock (S (spin clock remaining count))) (clock 0%nat) = false).
Proof.
  revert count. induction remaining as [|remaining IH]; intros count Hsame; cbn [spin].
  - split; [lia|]. split; [exact Hsame | lia].
  - destruct (PrimFloat.eqb (clock (S count)) (clock 0%nat)) eqn:Hnext.
    + destruct (IH (S count)) as (Hrange & Hall & Hstop).
      { intros k Hk. destruct (decide (k = S count)) as [->|]; [exact Hnext|].
        apply Hsame. lia. }
      split; [lia|]. split; [exact Hall|]. intros Hlt. apply Hstop. lia.
    + split; [lia|]. split; [exact Hsame|]. intros _. exact Hnext.
Qed.

(** X19 ([measureTimeAccuracy]). The count is at most 1000; every reading
    up to it equals the first reading, and when the count is below 1000 the
    next reading differs. *)
Theorem time_accuracy_counts_equal_readings (clock : nat -> float) :
  (measureTimeAccuracy clock <= 1000)%nat
  /\ (forall k, (1 <= k <= measureTimeAccuracy clock)%nat ->
       PrimFloat.eqb (clock k) (clock 0%nat) = true)
  /\ ((measureTimeAccuracy clock < 1000)%nat ->
      PrimFloat.eqb (clock (S (measureTimeAccuracy clock))) (clock 0%nat) = false).
Proof.
  unfold measureTimeAccuracy.
  destruct (spin_spec clock 1000 0) as (Hrange & Hall & Hstop); [intros k Hk; lia|].
  split; [lia|]. split; [exact Hall|]. intros Hlt. apply Hstop. lia.
Qed.

Lemma time_accuracy_counts_equal_readings_witness :
  (measureTimeAccuracy (fun k => if (k <? 3)%nat then 7%float else 8%float) < 1000)%nat
  /\ PrimFloat.eqb
       ((fun k => if (k <? 3)%nat then 7%float else 8%float)
          (S (measureTimeAccuracy (fun k => if (k <? 3)%nat then 7%float else 8%float))))
       ((fun k => if (k <? 3)%nat then 7%float else 8%float) 0%nat) = false.
Proof.
  assert (Hlt : (measureTimeAccuracy (fun k => if (k <? 3)%nat then 7%float else 8%float)
                 < 1000)%nat)
    by (apply Nat.ltb_lt; vm_compute; reflexivity).
  split; [exact Hlt|].
  exact (proj2 (proj2 (time_accuracy_counts_equal_readings
                         (fun k => if (k <? 3)%nat then 7%float else 8%float))) Hlt).
Defined.

End NetworkFacts.

(* ================================================================== *)
(** ** Facts about the sources and the strategy together *)
(* ================================================================== *)

Module SourceFacts.
Import Js TelegramStrategy Browser Components.
#[local] Open Scope float_scope.

(** *** The three Telegram detectors *)

Lemma markers_collapse (ua : string) (other : bool) :
  includes ua "telegramwebview" || includes ua "telegram" || other
  = includes ua "telegram" || other.
Proof.
  destruct (includes ua "telegramwebview") eqn:Hlong; [|reflexivity].
  by rewrite (ShapeFacts.includes_prefix _ "telegramwebview" "telegram" eq_refl Hlong).
Qed.

Lemma strategy_detector (page : Page) :
  detectTelegramEnvironment (strategy_env page)
  = includes (toLowerCase (page_userAgent page)) "telegram"
    || defined (get_opt (lookup_key "Telegram" (page_window page)) "WebApp").
Proof.
  unfold detectTelegramEnvironment, test_ignore_case, strategy_env.
  cbn [navigator_userAgent window_Telegram].
  rewrite !ShapeFacts.toLowerCase_idempotent, markers_collapse.
  reflexivity.
Qed.

Lemma source_detector (page : Page) :
  TelegramSource.detectTelegramEnvironment page
  = includes (toLowerCase (page_userAgent page)) "telegram"
    || defined (get_opt (lookup_key "Telegram" (page_window page)) "WebApp")
    || defined (lookup_key "TelegramWebviewProxy" (page_window page)).
Proof.
  unfold TelegramSource.detectTelegramEnvironment, test_ignore_case.
  by rewrite !ShapeFacts.toLowerCase_idempotent, markers_collapse.
Qed.

Lemma webview_detector (page : Page) :
  WebViewSource.detectWebViewType page = WebViewSource.telegram
  <-> includes (toLowerCase (page_userAgent page)) "telegram"
      || truthy (get_opt (lookup_key "Telegram" (page_window page)) "WebApp") = true.
Proof.
  unfold WebViewSource.detectWebViewType. cbv zeta. rewrite markers_collapse.
  destruct (_ || _); [done|].
  split; [|done].
  repeat match goal with
         | |- context [if ?b then _ else _] => destruct b
         end; discriminate.
Qed.

Lemma truthy_defined (v : JsValue) : truthy v = true -> defined v = true.
Proof. by destruct v. Qed.

(** X20 (the three Telegram detectors). On one page, [detectWebViewType]
    answering ['telegram'] implies that the strategy detects Telegram, which
    implies that the Telegram source does. They part only when
    [window.Telegram.WebApp] is falsy but not [undefined] (the strategy
    alone says yes), or when nothing but [window.TelegramWebviewProxy]
    speaks for Telegram (the Telegram source alone says yes). *)
Theorem detectors_are_nested (page : Page) :
  (WebViewSource.detectWebViewType page = WebViewSource.telegram ->
   detectTelegramEnvironment (strategy_env page) = true)
  /\ (detectTelegramEnvironment (strategy_env page) = true ->
      TelegramSource.detectTelegramEnvironment page = true)
  /\ (detectTelegramEnvironment (strategy_env page) = true ->
      WebViewSource.detectWebViewType page <> WebViewSource.telegram ->
      includes (toLowerCase (page_userAgent page)) "telegram" = false
      /\ get_opt (lookup_key "Telegram" (page_window page)) "WebApp" <> JUndefined
      /\ truthy (get_opt (lookup_key "Telegram" (page_window page)) "WebApp") = false)
  /\ (TelegramSource.detectTelegramEnvironment page = true ->
      detectTelegramEnvironment (strategy_env page) = false ->
      lookup_key "TelegramWebviewProxy" (page_window page) <> JUndefined).
Proof.
  rewrite webview_detector, strategy_detector, source_detector.
  destruct (includes _ "telegram"); cbn [orb].
  - repeat split; done.
  - destruct (get_opt _ "WebApp") eqn:Hwebapp; cbn [defined truthy orb];
      repeat split; try done;
      try (intros _ Hno; apply not_true_is_false in Hno; exact Hno);
      try (intros Hyes _ Hnone; by rewrite Hnone in Hyes).
  all: by apply not_true_is_false.
Qed.

(** *** The WebView source and the WebView factor *)

(** X21 ([getWebViewFingerprint] and the WebView factor). With the WebView
    source's result as the [webView] component, the WebView factor is 0.25
    when [detectWebViewType] answers ['telegram'] and 0 otherwise, the
    context carries the detected type, and a granted factor means that the
    strategy detects Telegram on that page. *)
Theorem webview_factor_follows_the_detector
    (page : Page) (probes : Props) (env : Env) (components : BuiltinComponents) :
  has_key "webView" components = true ->
  lookup_key "webView" components = WebViewSource.getWebViewFingerprint page probes ->
  webViewFactor (getEnhancedConfidenceScore env components)
  = match WebViewSource.detectWebViewType page with
    | WebViewSource.telegram => 0.25
    | _ => 0
    end
  /\ webViewType (extractTelegramContext components)
     = JString (WebViewSource.type_name (WebViewSource.detectWebViewType page))
  /\ (webViewFactor (getEnhancedConfidenceScore env components) = 0.25 ->
      detectTelegramEnvironment (strategy_env page) = true).
Proof.
  intros Hkey Hval.
  assert (Hfactor : webViewFactor (getEnhancedConfidenceScore env components)
                    = match WebViewSource.detectWebViewType page with
                      | WebViewSource.telegram => 0.25
                      | _ => 0
                      end).
  { unfold getEnhancedConfidenceScore. cbn [webViewFactor].
    rewrite Hkey, Hval. unfold WebViewSource.getWebViewFingerprint.
    by destruct (WebViewSource.detectWebViewType page). }
  split; [exact Hfactor|]. split.
  - unfold extractTelegramContext. cbn [webViewType].
    rewrite Hkey, Hval. unfold WebViewSource.getWebViewFingerprint.
    by destruct (WebViewSource.detectWebViewType page).
  - rewrite Hfactor, strategy_detector.
    destruct (WebViewSource.detectWebViewType page) eqn:Htype; try done.
    intros _. apply webview_detector in Htype.
    apply orb_true_iff in Htype as [-> | Htruthy]; [done|].
    by rewrite (truthy_defined _ Htruthy), orb_true_r.
Qed.

Lemma webview_factor_follows_the_detector_witness :
  webViewFactor
    (getEnhancedConfidenceScore Samples.telegram_env
       [("webView",
         WebViewSource.getWebViewFingerprint
           {| page_userAgent := "Mozilla/5.0 (Linux; Android 14) Telegram-Android/10.9";
              page_hardwareConcurrency := JNumber 8;
              page_window := [] |} [])])
  = 0.25.
Proof.
  apply (webview_factor_follows_the_detector
           {| page_userAgent := "Mozilla/5.0 (Linux; Android 14) Telegram-Android/10.9";
              page_hardwareConcurrency := JNumber 8;
              page_window := [] |} [] Samples.telegram_env
           [("webView",
             WebViewSource.getWebViewFingerprint
               {| page_userAgent := "Mozilla/5.0 (Linux; Android 14) Telegram-Android/10.9";
                  page_hardwareConcurrency := JNumber 8;
                  page_window := [] |} [])]); reflexivity.
Defined.

(** *** The haptic source and the haptic factor *)

(** X22 ([getHapticFingerprintSync]). [isTelegramHaptic],
    [hapticIntensitySupport] and [hasVibration] each imply [isAvailable];
    without haptics the result is the all-empty one; and intensity support
    means that [impactOccurred], when Telegram offers it, took all three
    intensities, and otherwise that [navigator.vibrate] took the pattern. *)
Theorem haptic_flags_are_ordered (page : Haptic.HapticPage) :
  (Haptic.isTelegramHaptic (Haptic.getHapticFingerprintSync page) = true ->
   Haptic.isAvailable (Haptic.getHapticFingerprintSync page) = true)
  /\ (Haptic.hapticIntensitySupport (Haptic.getHapticFingerprintSync page) = true ->
      Haptic.isAvailable (Haptic.getHapticFingerprintSync page) = true)
  /\ (Haptic.hasVibration (Haptic.vibrationSupport (Haptic.getHapticFingerprintSync page))
      = true ->
      Haptic.isAvailable (Haptic.getHapticFingerprintSync page) = true)
  /\ (Haptic.isAvailable (Haptic.getHapticFingerprintSync page) = false ->
      Haptic.getHapticFingerprintSync page = Haptic.unavailable)
  /\ (Haptic.hapticIntensitySupport (Haptic.getHapticFingerprintSync page) = true ->
      match Haptic.HapticFeedback page with
      | Some (Haptic.Function throws) =>
          throws "light"%string = false /\ throws "medium"%string = false
          /\ throws "heavy"%string = false
      | Some Haptic.NotCallable => False
      | _ => exists throws,
            Haptic.navigator_vibrate page = Haptic.Function throws
            /\ throws [10; 10; 50; 10; 100] = false
      end).
Proof.
  unfold Haptic.getHapticFingerprintSync, Haptic.unavailable.
  cbn [Haptic.isTelegramHaptic Haptic.isAvailable Haptic.hapticIntensitySupport
       Haptic.hasVibration Haptic.vibrationSupport].
  unfold Haptic.detectHapticAvailability, Haptic.detectTelegramHaptic,
    Haptic.testHapticIntensitySupport.
  destruct page as [vibrate feedback webkit]. cbn [Haptic.navigator_vibrate
    Haptic.HapticFeedback Haptic.webkit_haptic].
  destruct vibrate as [| |vthrows], feedback as [[| |throws]|], webkit;
    cbn [Haptic.present Haptic.accepts orb forallb andb];
    repeat match goal with |- _ /\ _ => split end; try done.
  all: try (intros Hall;
            by repeat (apply andb_true_iff in Hall as [?%negb_true_iff Hall])).
  all: intros Hok%negb_true_iff; by exists vthrows.
Qed.

(** X23 ([getHapticFingerprintSync] and the haptic factor). With the haptic
    source's result as the [haptic] component, the haptic factor is 0.15
    exactly when Telegram's [HapticFeedback] is there; vibration alone sets
    [hasHapticFeedback] in the context but earns no factor. *)
Theorem haptic_factor_needs_telegram_haptics
    (page : Haptic.HapticPage) (env : Env) (components : BuiltinComponents) :
  has_key "haptic" components = true ->
  lookup_key "haptic" components
  = haptic_component (Haptic.getHapticFingerprintSync page) ->
  hapticFactor (getEnhancedConfidenceScore env components)
  = (if Haptic.detectTelegramHaptic page then 0.15 else 0)
  /\ hasHapticFeedback (extractTelegramContext components)
     = JBool (Haptic.detectHapticAvailability page).
Proof.
  intros Hkey Hval.
  unfold getEnhancedConfidenceScore, extractTelegramContext.
  cbn [hapticFactor hasHapticFeedback]. rewrite Hkey, Hval.
  unfold haptic_component, Haptic.getHapticFingerprintSync,
    Haptic.detectHapticAvailability, Haptic.detectTelegramHaptic.
  cbn [Haptic.isAvailable Haptic.isTelegramHaptic].
  destruct (Haptic.HapticFeedback page); cbn.
  - by rewrite orb_true_r.
  - rewrite andb_false_r, !orb_false_r. split; [done|].
    unfold or_else. cbn.
    by destruct (Haptic.present _), (Haptic.webkit_haptic page).
Qed.

Lemma haptic_factor_needs_telegram_haptics_witness :
  hapticFactor
    (getEnhancedConfidenceScore Samples.browser_env
       [("haptic",
         haptic_component
           (Haptic.getHapticFingerprintSync
              {| Haptic.navigator_vibrate := Haptic.Function (fun _ => false);
                 Haptic.HapticFeedback := None;
                 Haptic.webkit_haptic := false |}))])
  = 0
  /\ hasHapticFeedback
       (extractTelegramContext
          [("haptic",
            haptic_component
              (Haptic.getHapticFingerprintSync
                 {| Haptic.navigator_vibrate := Haptic.Function (fun _ => false);
                    Haptic.HapticFeedback := None;
                    Haptic.webkit_haptic := false |}))])
     = JBool true.
Proof.
  apply (haptic_factor_needs_telegram_haptics
           {| Haptic.navigator_vibrate := Haptic.Function (fun _ => false);
              Haptic.HapticFeedback := None;
              Haptic.webkit_haptic := false |}
           Samples.browser_env
           [("haptic",
             haptic_component
               (Haptic.getHapticFingerprintSync
                  {| Haptic.navigator_vibrate := Haptic.Function (fun _ => false);
                     Haptic.HapticFeedback := None;
                     Haptic.webkit_haptic := false |}))]); reflexivity.
Defined.

(** *** The behavioural source and the behavioural factor *)

Section BehavioralFactor.
Context `{Host}.
Import Behavioral.

Lemma behavioral_factor_of (f : BehavioralFingerprint) (env : Env)
    (components : BuiltinComponents) :
  has_key "behavioral" components = true ->
  lookup_key "behavioral" components = behavioral_component f ->
  behavioralFactor (getEnhancedConfidenceScore env components)
  = match touchPatterns f, motionSignature f with
    | None, None => 0
    | _, _ => 0.2
    end.
Proof.
  intros Hkey Hval. unfold getEnhancedConfidenceScore. cbn [behavioralFactor].
  rewrite Hkey, Hval. unfold behavioral_component.
  by destruct (touchPatterns f), (motionSignature f).
Qed.

(** X24 ([generateFingerprint] and the behavioural factor). With a
    generated fingerprint as the [behavioral] component, the behavioural
    factor is 0.2 exactly when the window holds a touch point or a motion
    sample, and 0 exactly when it holds neither; scrolling earns nothing. *)
Theorem behavioral_factor_needs_touches_or_motion
    (c : BehavioralCollector) (rng : Rng) (env : Env) (components : BuiltinComponents) :
  has_key "behavioral" components = true ->
  lookup_key "behavioral" components
  = behavioral_component (generateFingerprint c rng).1 ->
  (behavioralFactor (getEnhancedConfidenceScore env components) = 0.2
   <-> flat_map touches (touchData c) <> [] \/ motionData c <> [])
  /\ (behavioralFactor (getEnhancedConfidenceScore env components) = 0
      <-> flat_map touches (touchData c) = [] /\ motionData c = []).
Proof.
  intros Hkey Hval. rewrite (behavioral_factor_of _ _ _ Hkey Hval).
  destruct (BehavioralFacts.generateFingerprint_groups c rng)
    as (-> & _ & _ & _ & -> & _).
  pose proof (BehavioralFacts.analyzeTouchPatterns_null c) as Htouch.
  pose proof (BehavioralFacts.analyzeMotionSignature_null c) as Hmotion.
  destruct (analyzeTouchPatterns c), (analyzeMotionSignature c).
  all: split; split; try done.
  all: try (intros _; left; intros Hnil; by apply Htouch in Hnil).
  all: try (intros _; right; intros Hnil; by apply Hmotion in Hnil).
  all: try (intros [Hnil _]; by apply Htouch in Hnil).
  all: try (intros [_ Hnil]; by apply Hmotion in Hnil).
  all: try (intros [Hno | Hno]; destruct Hno; [by apply Htouch | by apply Hmotion]).
  all: try (intros _; split; [by apply Htouch | by apply Hmotion]).
Qed.

(** X25 ([getBehavioralFingerprintSync] and the behavioural factor). The
    synchronous answer as the [behavioral] component earns no behavioural
    factor, and the context reports no behavioural data. *)
Theorem sync_fingerprint_earns_nothing
    (st : State) (env : Env) (components : BuiltinComponents) :
  has_key "behavioral" components = true ->
  lookup_key "behavioral" components
  = behavioral_component (BehavioralSync.getBehavioralFingerprintSync st) ->
  behavioralFactor (getEnhancedConfidenceScore env components) = 0
  /\ hasBehavioralData (extractTelegramContext components) = false.
Proof.
  intros Hkey Hval. split.
  - by rewrite (behavioral_factor_of _ _ _ Hkey Hval).
  - unfold extractTelegramContext. cbn [hasBehavioralData]. by rewrite Hkey, Hval.
Qed.

End BehavioralFactor.

Lemma behavioral_factor_needs_touches_or_motion_witness :
  behavioralFactor
    (getEnhancedConfidenceScore Samples.browser_env
       [("behavioral",
         behavioral_component
           (Behavioral.generateFingerprint (H := Samples.sample_host)
              Samples.tap_window 0%nat).1)])
  = 0.2.
Proof.
  apply (proj1 (behavioral_factor_needs_touches_or_motion (H := Samples.sample_host)
                  Samples.tap_window 0%nat Samples.browser_env
                  [("behavioral",
                    behavioral_component
                      (Behavioral.generateFingerprint (H := Samples.sample_host)
                         Samples.tap_window 0%nat).1)]
                  eq_refl eq_refl)).
  left. discriminate.
Defined.

Lemma sync_fingerprint_earns_nothing_witness :
  behavioralFactor
    (getEnhancedConfidenceScore Samples.telegram_env
       [("behavioral",
         behavioral_component
           (BehavioralSync.getBehavioralFingerprintSync Behavioral.initial))])
  = 0.
Proof.
  apply (sync_fingerprint_earns_nothing Behavioral.initial Samples.telegram_env
           [("behavioral",
             behavioral_component
               (BehavioralSync.getBehavioralFingerprintSync Behavioral.initial))]);
    reflexivity.
Defined.

(** *** Components in the agent's wrapping *)

Lemma pick_wrapped (key field : string) (components : BuiltinComponents) :
  Shapes.wrapped_or_absent key components ->
  String.eqb field "value" = false ->
  String.eqb field "duration" = false ->
  get_opt (if has_key key components then lookup_key key components else JNull) field
  = JUndefined.
Proof.
  intros Hshape Hvalue Hduration.
  destruct (has_key key components) eqn:Hkey; [|reflexivity].
  destruct (Hshape Hkey) as (value & duration & ->).
  unfold wrapped. cbn [get_opt get lookup_key]. by rewrite Hvalue, Hduration.
Qed.

Lemma get_wrapped (key field : string) (components : BuiltinComponents) :
  has_key key components = true ->
  Shapes.wrapped_or_absent key components ->
  String.eqb field "value" = false ->
  String.eqb field "duration" = false ->
  get (lookup_key key components) field = JUndefined.
Proof.
  intros Hkey Hshape Hvalue Hduration.
  destruct (Hshape Hkey) as (value & duration & ->).
  unfold wrapped. cbn [get lookup_key]. by rewrite Hvalue, Hduration.
Qed.

(** X26 (components in the agent's wrapping). When the five enhanced
    components are wrapped as [{value, duration}], the context is the
    default one and the four factors are 0; only the platform is unwrapped:
    a wrapped platform string gives the same score as the bare string. *)
Theorem only_the_platform_is_unwrapped (env : Env) (components : BuiltinComponents) :
  Shapes.wrapped_or_absent "telegramWebApp" components ->
  Shapes.wrapped_or_absent "webView" components ->
  Shapes.wrapped_or_absent "haptic" components ->
  Shapes.wrapped_or_absent "behavioral" components ->
  Shapes.wrapped_or_absent "network" components ->
  extractTelegramContext components = Shapes.default_context
  /\ behavioralFactor (getEnhancedConfidenceScore env components) = 0
  /\ webViewFactor (getEnhancedConfidenceScore env components) = 0
  /\ hapticFactor (getEnhancedConfidenceScore env components) = 0
  /\ networkFactor (getEnhancedConfidenceScore env components) = 0
  /\ (forall platform duration,
      lookup_key "platform" components = wrapped (JString platform) duration ->
      forall bare,
        lookup_key "platform" bare = JString platform ->
        (forall key, has_key key bare = has_key key components) ->
        (forall key, String.eqb key "platform" = false ->
                     lookup_key key bare = lookup_key key components) ->
        score (getEnhancedConfidenceScore env bare)
        = score (getEnhancedConfidenceScore env components)).
Proof.
  intros Ht Hw Hh Hb Hn.
  assert (Hcontext : extractTelegramContext components = Shapes.default_context).
  { unfold extractTelegramContext.
    rewrite !(pick_wrapped "telegramWebApp"), !(pick_wrapped "webView"),
      !(pick_wrapped "haptic"), !(pick_wrapped "behavioral"),
      !(pick_wrapped "network") by (assumption || reflexivity).
    reflexivity. }
  assert (Hbf : behavioralFactor (getEnhancedConfidenceScore env components) = 0).
  { unfold getEnhancedConfidenceScore. cbn [behavioralFactor].
    destruct (has_key "behavioral" components) eqn:Hkey; [|done].
    rewrite !(get_wrapped "behavioral") by (assumption || reflexivity).
    by destruct (truthy _). }
  assert (Hwf : webViewFactor (getEnhancedConfidenceScore env components) = 0).
  { unfold getEnhancedConfidenceScore. cbn [webViewFactor].
    destruct (has_key "webView" components) eqn:Hkey; [|done].
    rewrite !(get_wrapped "webView") by (assumption || reflexivity).
    by destruct (truthy _). }
  assert (Hhf : hapticFactor (getEnhancedConfidenceScore env components) = 0).
  { unfold getEnhancedConfidenceScore. cbn [hapticFactor].
    destruct (has_key "haptic" components) eqn:Hkey; [|done].
    rewrite !(get_wrapped "haptic") by (assumption || reflexivity).
    by destruct (truthy _). }
  assert (Hnf : networkFactor (getEnhancedConfidenceScore env components) = 0).
  { unfold getEnhancedConfidenceScore. cbn [networkFactor].
    destruct (has_key "network" components) eqn:Hkey; [|done].
    rewrite !(get_wrapped "network") by (assumption || reflexivity).
    by destruct (truthy _). }
  repeat match goal with |- _ /\ _ => split end; try assumption.
  intros platform duration Hwrapped bare Hbare Hkeys Hothers.
  unfold getEnhancedConfidenceScore, extractTelegramContext. cbn [score].
  rewrite !Hkeys.
  rewrite !(Hothers "behavioral"), !(Hothers "webView"), !(Hothers "haptic"),
    !(Hothers "network"), !(Hothers "telegramWebApp") by reflexivity.
  rewrite Hbare, Hwrapped. unfold wrapped, or_else.
  cbn [truthy get_opt get lookup_key String.eqb Ascii.eqb Bool.eqb andb].
  destruct (has_key "platform" components); cbn [andb]; [|reflexivity].
  destruct (String.eqb platform EmptyString) eqn:Hempty; cbn [negb]; reflexivity.
Qed.

Lemma only_the_platform_is_unwrapped_witness :
  Shapes.wrapped_or_absent "haptic"
    [("haptic", wrapped (JObject [("isAvailable", JBool true)]) (JNumber 3))]
  /\ hapticFactor
       (getEnhancedConfidenceScore Samples.telegram_env
          [("haptic", wrapped (JObject [("isAvailable", JBool true)]) (JNumber 3))])
     = 0.
Proof.
  assert (Hshape : forall key,
             Shapes.wrapped_or_absent key
               [("haptic", wrapped (JObject [("isAvailable", JBool true)]) (JNumber 3))]).
  { intros key. unfold Shapes.wrapped_or_absent. cbn [has_key existsb fst lookup_key].
    destruct (String.eqb key "haptic"); [|discriminate].
    intros _. by eexists _, _. }
  split; [apply Hshape|].
  apply (only_the_platform_is_unwrapped Samples.telegram_env
           [("haptic", wrapped (JObject [("isAvailable", JBool true)]) (JNumber 3))]);
    apply Hshape.
Defined.

End SourceFacts.
